(** * auto-causality: search orchestrator and scoring engine

    A shallow embedding of [auto_causality/optimiser.py] and
    [auto_causality/scoring.py].  Python values are an inductive type,
    exceptions are an error monad, the attributes of the [AutoCausality]
    object are a record threaded through a state-and-error monad, and the
    collaborators that live outside the two modules (the estimator registry,
    FLAML's tuner, DoWhy, ERUPT, the uplift metrics, the tree interpreter)
    are section variables and the fields of the class [Collaborators].

    Numbers: a finite float64 value is the exact rational it holds ([Qc]),
    next to the infinities and NaN; comparisons are then exact, and the
    arithmetic of numpy ([np.mean]) is a collaborator, with float64 rounding
    and overflow modelled for the concrete runs.

    The first half of the file is the model: Python values and dictionaries,
    estimator-name resolution, data frames, the scoring engine, the
    orchestrator.  The second half states and proves the properties of each
    part, with a concrete run of every one. *)

From Stdlib Require Import QArith Qcanon.
From stdpp Require Import base option numbers list strings gmap.

Open Scope string_scope.
Open Scope list_scope.

(** ** Exceptions and the error monad *)

Inductive exn : Type :=
  | ValueError (msg : string)
  | TypeError (msg : string)
  | KeyError (key : string)
  | IndexError (msg : string)
  | AttributeError (msg : string)
  | AssertionError (msg : string)
  | ExternalError (origin : string).

Inductive outcome (A : Type) : Type :=
  | Ok (a : A)
  | Raised (e : exn).
Arguments Ok {A} a.
Arguments Raised {A} e.

Global Instance outcome_ret : MRet outcome := λ A a, Ok a.
Global Instance outcome_bind : MBind outcome := λ A B f m,
  match m with
  | Ok a => f a
  | Raised e => Raised e
  end.
Global Instance outcome_fmap : FMap outcome := λ A B f m,
  match m with
  | Ok a => Ok (f a)
  | Raised e => Raised e
  end.

(** [for x in l: f x] collecting the results, stopping at the first raise. *)
Fixpoint for_each {A B : Type} (f : A → outcome B) (l : list A) : outcome (list B) :=
  match l with
  | [] => Ok []
  | x :: l' => y ← f x; ys ← for_each f l'; Ok (y :: ys)
  end.

(** ** Python values

    A float is a finite value (the exact rational a float64 holds), an
    infinity or NaN.

    [PyObject] is an object of a class that keeps the default, identity-based
    [==].  [PyCustom] is an object of a class with an [__eq__] of its own,
    given by what the two truth tests [bool(x == "auto")] and [bool(x == [])]
    do.  For a pandas Series or DataFrame both raise [ValueError]: the
    comparison is element-wise and the truth value of its result is
    ambiguous.  The requested estimator list is the one place where an
    argument of any type arrives, so the two tests are all the model needs of
    such an object. *)

Inductive pyfloat : Type :=
  | Fin (q : Qc)
  | PosInf
  | NegInf
  | NaN.

#[warnings="-register-all"]
Inductive pyval : Type :=
  | PyNone
  | PyBool (b : bool)
  | PyInt (n : Z)
  | PyFloat (x : pyfloat)
  | PyStr (s : string)
  | PyList (l : list pyval)
  | PyObject (handle : nat)
  | PyCustom (eq_auto eq_empty : outcome bool).

(** [hay.startswith(needle)], character by character. *)
Fixpoint starts_with (needle hay : string) : bool :=
  match needle, hay with
  | EmptyString, _ => true
  | String _ _, EmptyString => false
  | String a needle', String b hay' =>
      if decide (a = b) then starts_with needle' hay' else false
  end.

(** [needle in hay] on two [str]: exact (case-sensitive) substring search. *)
Fixpoint str_in (needle hay : string) : bool :=
  starts_with needle hay
  || match hay with
     | EmptyString => false
     | String _ hay' => str_in needle hay'
     end.

(** [x in s] where [s] is a [str]: the left operand must be a [str] too. *)
Definition py_in_str (x : pyval) (s : string) : outcome bool :=
  match x with
  | PyStr needle => Ok (str_in needle s)
  | _ => Raised (TypeError "'in <string>' requires string as left operand")
  end.

Definition is_str (v : pyval) : bool :=
  match v with PyStr _ => true | _ => false end.

Fixpoint chars (s : string) : list string :=
  match s with
  | EmptyString => []
  | String c s' => String c EmptyString :: chars s'
  end.

(** [iter(v)]: what a [for] loop or a comprehension walks over. *)
Definition py_iter (v : pyval) : outcome (list pyval) :=
  match v with
  | PyList l => Ok l
  | PyStr s => Ok (PyStr <$> chars s)
  | _ => Raised (TypeError "object is not iterable")
  end.

(** ** Insertion-ordered dictionaries

    A Python [dict] keeps its keys in insertion order; assigning to a key that
    is already present keeps the key's position. *)

Module PyDict.
Section Dict.
Context {V : Type}.

Fixpoint get (k : string) (d : list (string * V)) : option V :=
  match d with
  | [] => None
  | (k', v) :: d' => if decide (k = k') then Some v else get k d'
  end.

Fixpoint set (k : string) (v : V) (d : list (string * V)) : list (string * V) :=
  match d with
  | [] => [(k, v)]
  | (k', v') :: d' =>
      if decide (k = k') then (k, v) :: d' else (k', v') :: set k v d'
  end.

Definition keys (d : list (string * V)) : list string := d.*1.

End Dict.
End PyDict.

(** [list(dict.fromkeys(l))] *)
Definition fromkeys (l : list string) : list (string * pyval) :=
  fold_left (λ d k, PyDict.set k PyNone d) l [].

(** ** Estimator-name resolution ([AutoCausality._create_estimator_list]) *)

Section Resolution.

(** [self.cfg.estimators()]: the registry of [SimpleParamService], which is
    not part of the two modules. *)
Variable registry : list string.

Definition supported_patterns : list string :=
  [ "metalearners"; "CausalForestDML"; ".LinearDML"; "SparseLinearDML";
    "ForestDRLearner"; "LinearDRLearner"; "Ortho"; "TransformedOutcome" ].

Definition available_estimators : list string :=
  List.filter
    (λ estimator, existsb (λ e, str_in e estimator) supported_patterns)
    registry.

Definition _verify_estimator_list (estimator_list : pyval) : bool :=
  match estimator_list with
  | PyList l => forallb is_str l
  | _ => false
  end.

(** The nested comprehension
    [[a for r in requested for a in available if r in a]]: first its inner
    loop for one requested name, then the outer loop. *)
Definition matches_for (requested_estimator : pyval) : outcome (list string) :=
  picked ← for_each
             (λ available_estimator,
                b ← py_in_str requested_estimator available_estimator;
                Ok (if b : bool then [available_estimator] else []))
             available_estimators;
  Ok (concat picked).

Definition matches_of (requested : list pyval) : outcome (list string) :=
  @concat string <$> for_each matches_for requested.

(** [estimator_list == "auto" or estimator_list == []], as the truth value
    the [if] needs. *)
Definition is_auto_or_empty (estimator_list : pyval) : outcome bool :=
  match estimator_list with
  | PyStr s => Ok (bool_decide (s = "auto"))
  | PyList [] => Ok true
  | PyCustom eq_auto eq_empty =>
      is_auto ← eq_auto;
      if is_auto : bool then Ok true else eq_empty
  | _ => Ok false
  end.

(** Returns the warnings issued and the list returned. *)
Definition _create_estimator_list (estimator_list : pyval)
  : outcome (list string * list string) :=
  auto_or_empty ← is_auto_or_empty estimator_list;
  if auto_or_empty : bool then
    Ok (["No estimators specified, adding all available estimators..."],
        available_estimators)
  else if _verify_estimator_list estimator_list then
    requested ← py_iter estimator_list;
    found ← matches_of requested;
    let estimators_to_use := PyDict.keys (fromkeys found) in
    match estimators_to_use with
    | [] =>
        Ok (["requested estimators not implemented, continuing with defaults"],
            available_estimators)
    | _ => Ok ([], estimators_to_use)
    end
  else
    Ok (["invalid estimator list requested, continuing with defaults"],
        available_estimators).

End Resolution.

(** ** Arrays and data frames

    A frame is its row labels and its named columns; [len] counts the row
    labels.  A value assigned to a column is a bare array or a labelled
    series. *)

Inductive array : Type :=
  | NdArray (cells : list pyval)
  | Series (labels : list Z) (cells : list pyval).

Record DataFrame : Type := mkDataFrame {
  df_index : list Z;
  df_columns : list (string * list pyval)
}.

Definition len (df : DataFrame) : nat := length (df_index df).

(** [pd.DataFrame()] *)
Definition empty_frame : DataFrame := mkDataFrame [] [].

Definition array_len (a : array) : nat :=
  match a with
  | NdArray cells => length cells
  | Series labels _ => length labels
  end.

Definition array_index (a : array) : list Z :=
  match a with
  | NdArray cells => seqZ 0 (Z.of_nat (length cells))
  | Series labels _ => labels
  end.

(** [df[key]] *)
Definition df_getitem (key : pyval) (df : DataFrame) : outcome array :=
  match key with
  | PyStr k =>
      match PyDict.get k (df_columns df) with
      | Some cells => Ok (Series (df_index df) cells)
      | None => Raised (KeyError k)
      end
  | _ => Raised (KeyError "column label is not a string")
  end.

(** [df[[key1, key2, ...]]] *)
Definition df_select (keys : list pyval) (df : DataFrame) : outcome DataFrame :=
  cols ← for_each
            (λ key,
               match key with
               | PyStr k =>
                   match PyDict.get k (df_columns df) with
                   | Some cells => Ok (k, cells)
                   | None => Raised (KeyError k)
                   end
               | _ => Raised (KeyError "column label is not a string")
               end)
            keys;
  Ok (mkDataFrame (df_index df) cols).

(** [df.reset_index(drop=True)] *)
Definition reset_index (df : DataFrame) : DataFrame :=
  mkDataFrame (seqZ 0 (Z.of_nat (len df))) (df_columns df).

Fixpoint cell_at (label : Z) (labels : list Z) (cells : list pyval) : pyval :=
  match labels, cells with
  | l :: labels', c :: cells' =>
      if decide (label = l) then c else cell_at label labels' cells'
  | _, _ => PyFloat NaN
  end.

(** [df[k] = value].  A frame without rows first takes over the row labels of
    a non-empty value (its existing columns become NaN); after that a bare
    array must have as many cells as the frame has rows, and a series is
    aligned on the row labels. *)
Definition df_setitem (k : string) (value : array) (df : DataFrame)
  : outcome DataFrame :=
  let df :=
    if decide (len df = 0 ∧ 0 < array_len value) then
      mkDataFrame (array_index value)
        ((λ kc : string * list pyval,
            (kc.1, replicate (array_len value) (PyFloat NaN)))
           <$> df_columns df)
    else df in
  match value with
  | NdArray cells =>
      if decide (length cells = len df) then
        Ok (mkDataFrame (df_index df) (PyDict.set k cells (df_columns df)))
      else
        Raised (ValueError "Length of values does not match length of index")
  | Series labels cells =>
      if decide (labels = df_index df) then
        Ok (mkDataFrame (df_index df) (PyDict.set k cells (df_columns df)))
      else if decide (NoDup labels) then
        Ok (mkDataFrame (df_index df)
              (PyDict.set k
                 ((λ label, cell_at label labels cells) <$> df_index df)
                 (df_columns df)))
      else
        Raised (ValueError "cannot reindex on an axis with duplicate labels")
  end.

(** [df.rename(columns={old: new})] *)
Definition df_rename (old : pyval) (new : string) (df : DataFrame) : DataFrame :=
  mkDataFrame (df_index df)
    ((λ kc : string * list pyval,
        match old with
        | PyStr o => if decide (kc.1 = o) then (new, kc.2) else kc
        | _ => kc
        end)
       <$> df_columns df).

(** [assert cond, msg] *)
Definition py_assert (cond : bool) (msg : string) : outcome unit :=
  if cond then Ok () else Raised (AssertionError msg).

(** [x > 0] on a float: false for NaN. *)
Definition float_gt0 (x : pyfloat) : bool :=
  match x with
  | Fin q => bool_decide (0 < q)%Qc
  | PosInf => true
  | NegInf | NaN => false
  end.

(** [a > 0], element by element. *)
Definition gt0 (a : list pyfloat) : list bool := float_gt0 <$> a.

(** [float(v)] *)
Definition py_float (v : pyval) : outcome pyfloat :=
  match v with
  | PyFloat x => Ok x
  | PyInt n => Ok (Fin (Qc_of_Z n))
  | PyBool b => Ok (Fin (if b then 1 else 0)%Qc)
  | PyStr _ => Raised (ValueError "could not convert string to float")
  | _ => Raised (TypeError "float() argument must be a string or a real number")
  end.

(** ** The scoring engine ([auto_causality/scoring.py]) *)

(** [estimate.estimator]: the attributes the scoring functions read. *)
Record Estimator : Type := mkEstimator {
  _treatment_name : pyval;
  _effect_modifier_names : list string;
  _outcome_name : string
}.

(** A [CausalEstimate] as DoWhy returns it: its [estimator], the
    [cate_estimates] attribute (reading it may raise) and the identity of the
    fitted object behind it. *)
Record CausalEstimate : Type := mkCausalEstimate {
  estimator : Estimator;
  cate_estimates : outcome (list pyfloat);
  fitted : nat
}.

(** The dictionary [make_scores] returns; [Interp] is the fitted tree
    interpreter. *)
Record Scores (Interp : Type) : Type := mkScores {
  erupt : pyfloat;
  qini : pyfloat;
  auc : pyfloat;
  r_score : pyval;
  ate : pyfloat;
  intrp : option (Interp * list string);
  values : DataFrame
}.
Arguments mkScores {Interp}.
Arguments erupt {Interp}.
Arguments qini {Interp}.
Arguments auc {Interp}.
Arguments r_score {Interp}.
Arguments ate {Interp}.
Arguments intrp {Interp}.
Arguments values {Interp}.

(** [float(scores[k])] *)
Definition scores_float {Interp : Type} (s : Scores Interp) (k : string)
  : outcome pyfloat :=
  if decide (k = "erupt") then Ok (erupt s)
  else if decide (k = "qini") then Ok (qini s)
  else if decide (k = "auc") then Ok (auc s)
  else if decide (k = "r_score") then py_float (r_score s)
  else if decide (k = "ate") then Ok (ate s)
  else if decide (k = "intrp") then
    Raised (TypeError "float() argument must be a string or a real number")
  else if decide (k = "values") then
    Raised (TypeError "float() argument must be a string or a real number")
  else Raised (KeyError k).

Section Scoring.

(** Collaborators outside the module: the tree interpreter of EconML, the
    ERUPT scorer with its propensity model, and the uplift metrics. *)
Context {Interp Propensity : Type}.
Variable interpret : list pyfloat → DataFrame → outcome Interp.
Variable ERUPT_fit : pyval → list string → DataFrame → outcome Propensity.
Variable predict_proba_1 : Propensity → DataFrame → outcome (list pyval).
Variable ERUPT_weights : Propensity → DataFrame → list bool → outcome array.
Variable ERUPT_score :
  Propensity → DataFrame → array → list bool → outcome pyfloat.
Variable qini_score : DataFrame → outcome (list (string * pyfloat)).
Variable auuc_score : DataFrame → outcome (list (string * pyfloat)).
(** [np.mean] on a float64 array: numpy's own arithmetic. *)
Variable np_mean : list pyfloat → pyfloat.

(** [if not isinstance(treatment_name, str): treatment_name = treatment_name[0]] *)
Definition first_treatment_name (treatment_name : pyval) : outcome pyval :=
  match treatment_name with
  | PyStr _ => Ok treatment_name
  | PyList (x :: _) => Ok x
  | PyList [] => Raised (IndexError "list index out of range")
  | _ => Raised (TypeError "object is not subscriptable")
  end.

Definition erupt_make_scores (estimate : CausalEstimate) (df : DataFrame)
  (cate_estimate : list pyfloat) : outcome pyfloat :=
  let est := estimator estimate in
  treatment_name ← first_treatment_name (_treatment_name est);
  erupt ← ERUPT_fit treatment_name (_effect_modifier_names est) df;
  y ← df_getitem (PyStr (_outcome_name est)) df;
  ERUPT_score erupt df y (gt0 cate_estimate).

(** The frame with columns [y], [w] and [model] that both uplift metrics
    are computed from. *)
Definition uplift_frame (estimate : CausalEstimate) (df : DataFrame)
  (cate_estimate : list pyfloat) : outcome DataFrame :=
  let est := estimator estimate in
  let new_df := empty_frame in
  y ← df_getitem (PyStr (_outcome_name est)) df;
  new_df ← df_setitem "y" y new_df;
  treatment_name ← first_treatment_name (_treatment_name est);
  w ← df_getitem treatment_name df;
  new_df ← df_setitem "w" w new_df;
  df_setitem "model" (NdArray (PyFloat <$> cate_estimate)) new_df.

Definition model_entry (score : list (string * pyfloat)) : outcome pyfloat :=
  match PyDict.get "model" score with
  | Some x => Ok x
  | None => Raised (KeyError "model")
  end.

Definition qini_make_score (estimate : CausalEstimate) (df : DataFrame)
  (cate_estimate : list pyfloat) : outcome pyfloat :=
  new_df ← uplift_frame estimate df cate_estimate;
  score ← qini_score new_df;
  model_entry score.

Definition auc_make_score (estimate : CausalEstimate) (df : DataFrame)
  (cate_estimate : list pyfloat) : outcome pyfloat :=
  new_df ← uplift_frame estimate df cate_estimate;
  score ← auuc_score new_df;
  model_entry score.

Definition r_make_score (cate_estimate : list pyfloat)
  (r_scorer : list pyfloat → outcome pyfloat) : outcome pyfloat :=
  r_scorer cate_estimate.

(** The [try: ... except: intrp = None] block. *)
Definition fit_interpreter (est : Estimator) (df : DataFrame)
  (cate_estimate : list pyfloat) : option (Interp * list string) :=
  match interpret cate_estimate df with
  | Ok tree => Some (tree, _effect_modifier_names est)
  | Raised _ => None
  end.

(** The per-row table [values], from the construction of the ERUPT scorer to
    the renaming of the treatment column. *)
Definition diagnostic_table (est : Estimator) (treatment_name : pyval)
  (df : DataFrame) (cate_estimate : list pyfloat) : outcome DataFrame :=
  erupt ← ERUPT_fit treatment_name (_effect_modifier_names est) df;
  values ← df_select [treatment_name; PyStr (_outcome_name est)] df;
  let values := reset_index values in
  p ← predict_proba_1 erupt df;
  values ← df_setitem "p" (NdArray p) values;
  values ← df_setitem "policy" (NdArray (PyBool <$> gt0 cate_estimate)) values;
  weights ← ERUPT_weights erupt df (gt0 cate_estimate);
  values ← df_setitem "weights" weights values;
  Ok (df_rename treatment_name "treated" values).

Definition make_scores (estimate : CausalEstimate) (df : DataFrame)
  (cate_estimate : list pyfloat) (r_scorer : option (list pyfloat → outcome pyfloat))
  : outcome (Scores Interp) :=
  let est := estimator estimate in
  treatment_name ← first_treatment_name (_treatment_name est);
  let intrp := fit_interpreter est df cate_estimate in
  values ← diagnostic_table est treatment_name df cate_estimate;
  _ ← py_assert (bool_decide (len values = len df))
        "Index weirdness when adding columns!";
  erupt ← erupt_make_scores estimate df cate_estimate;
  qini ← qini_make_score estimate df cate_estimate;
  auc ← auc_make_score estimate df cate_estimate;
  r_score ← match r_scorer with
            | None => Ok (PyInt 0)
            | Some scorer => PyFloat <$> r_make_score cate_estimate scorer
            end;
  Ok (mkScores erupt qini auc r_score (np_mean cate_estimate) intrp values).

End Scoring.

(** ** The state-and-error monad of the orchestrator

    A method of [AutoCausality] reads and assigns attributes of [self] and may
    raise; the attributes assigned before a raise stay assigned. *)

Definition M (S A : Type) : Type := S → outcome A * S.

Global Instance M_ret {S} : MRet (M S) := λ A a self, (Ok a, self).
Global Instance M_bind {S} : MBind (M S) := λ A B f m self,
  match m self with
  | (Ok a, self') => f a self'
  | (Raised e, self') => (Raised e, self')
  end.

Definition get_self {S} : M S S := λ self, (Ok self, self).
Definition modify {S} (f : S → S) : M S unit := λ self, (Ok (), f self).
Definition lift {S A} (o : outcome A) : M S A := λ self, (o, self).
Definition raise {S A} (e : exn) : M S A := λ self, (Raised e, self).

(** [for x in l: body x] *)
Fixpoint for_M {S A} (l : list A) (body : A → M S unit) : M S unit :=
  match l with
  | [] => mret ()
  | x :: l' => _ ← body x; for_M l' body
  end.

(** Reading an attribute that may not have been assigned yet (or is [None]
    where an object is needed). *)
Definition attr {A} (name : string) (o : option A) : outcome A :=
  match o with
  | Some a => Ok a
  | None => Raised (AttributeError name)
  end.

(** ** The search orchestrator ([auto_causality/optimiser.py]) *)

(** [self.cfg.method_params(name)] *)
Record Descriptor : Type := mkDescriptor {
  init_params : gmap string pyval;
  search_space : gmap string pyval
}.

(** The dictionary [_compute_metrics] returns. *)
Record FullScores (Interp : Type) : Type := mkFullScores {
  scored_estimator_name : string;
  train : Scores Interp;
  test : Scores Interp
}.
Arguments mkFullScores {Interp}.
Arguments scored_estimator_name {Interp}.
Arguments train {Interp}.
Arguments test {Interp}.

(** What the result dictionary of a trial and the attributes [estimates],
    [scores] and [full_scores] hold. *)
Inductive item (Interp : Type) : Type :=
  | INone
  | IFloat (x : pyfloat)
  | IEstimate (e : CausalEstimate)
  | IScores (s : FullScores Interp)
  | IOther (handle : nat).
Arguments INone {Interp}.
Arguments IFloat {Interp} x.
Arguments IEstimate {Interp} e.
Arguments IScores {Interp} s.
Arguments IOther {Interp} handle.

(** [self.r_scorer], with the [score] methods of its two parts. *)
Record RScoreWrapper : Type := mkRScoreWrapper {
  r_train : list pyfloat → outcome pyfloat;
  r_test : list pyfloat → outcome pyfloat
}.

Record TunerSettings : Type := mkTunerSettings {
  time_budget_s : Z;
  num_samples : Z;
  verbose : Z;
  use_ray : bool
}.

(** The entries of [self._settings] that [fit] and the trial runner read. *)
Record Settings : Type := mkSettings {
  tuner : TunerSettings;
  metric : string;
  metrics_to_report : list string;
  estimator_list_setting : pyval;
  train_size : Qc;
  test_size : option nat;
  model_save_path : option string
}.

(** What FLAML's [tune.run] returns, as far as [fit] looks at it:
    [results.best_config] and the [last_result] of [results.get_best_trial()]
    ([None] when there is no best trial). *)
Record Analysis (Interp : Type) : Type := mkAnalysis {
  results_best_config : option (gmap string pyval);
  results_get_best_trial : option (gmap string (item Interp))
}.
Arguments mkAnalysis {Interp}.
Arguments results_best_config {Interp}.
Arguments results_get_best_trial {Interp}.

(** Calls and messages that leave the object. *)
Inductive event : Type :=
  | Warned (msg : string)
  | Printed (msg : string)
  | EstimateEffect (method_name : string) (method_params : gmap string pyval)
  | TuneRun (space : gmap string pyval)
  | OpenSnapshot (estimator_name : string).

Record AutoCausality (Interp : Type) : Type := mkAutoCausality {
  _settings : Settings;
  estimates : gmap string (item Interp);
  scores : list (string * item Interp);
  full_scores : gmap string (item Interp);
  estimator_list : list string;
  data_df : DataFrame;
  train_df : option DataFrame;
  test_df : option DataFrame;
  causal_model : option nat;
  identified_estimand : option nat;
  r_scorer : option RScoreWrapper;
  tune_results : option (gmap string (option (gmap string pyval)));
  estimator_name : option string;
  estimator_cfg : option Descriptor;
  trained_estimators_dict : gmap string nat;
  events : list event
}.
Arguments mkAutoCausality {Interp}.
Arguments _settings {Interp}.
Arguments estimates {Interp}.
Arguments scores {Interp}.
Arguments full_scores {Interp}.
Arguments estimator_list {Interp}.
Arguments data_df {Interp}.
Arguments train_df {Interp}.
Arguments test_df {Interp}.
Arguments causal_model {Interp}.
Arguments identified_estimand {Interp}.
Arguments r_scorer {Interp}.
Arguments tune_results {Interp}.
Arguments estimator_name {Interp}.
Arguments estimator_cfg {Interp}.
Arguments trained_estimators_dict {Interp}.
Arguments events {Interp}.

Definition set_settings {Interp : Type} (v : Settings)
  (self : AutoCausality Interp) : AutoCausality Interp :=
  mkAutoCausality v (estimates self) (scores self) (full_scores self)
    (estimator_list self) (data_df self) (train_df self) (test_df self)
    (causal_model self) (identified_estimand self) (r_scorer self)
    (tune_results self) (estimator_name self) (estimator_cfg self)
    (trained_estimators_dict self) (events self).

Definition set_estimates {Interp : Type} (v : gmap string (item Interp))
  (self : AutoCausality Interp) : AutoCausality Interp :=
  mkAutoCausality (_settings self) v (scores self) (full_scores self)
    (estimator_list self) (data_df self) (train_df self) (test_df self)
    (causal_model self) (identified_estimand self) (r_scorer self)
    (tune_results self) (estimator_name self) (estimator_cfg self)
    (trained_estimators_dict self) (events self).

Definition set_scores {Interp : Type} (v : list (string * item Interp))
  (self : AutoCausality Interp) : AutoCausality Interp :=
  mkAutoCausality (_settings self) (estimates self) v (full_scores self)
    (estimator_list self) (data_df self) (train_df self) (test_df self)
    (causal_model self) (identified_estimand self) (r_scorer self)
    (tune_results self) (estimator_name self) (estimator_cfg self)
    (trained_estimators_dict self) (events self).

Definition set_full_scores {Interp : Type} (v : gmap string (item Interp))
  (self : AutoCausality Interp) : AutoCausality Interp :=
  mkAutoCausality (_settings self) (estimates self) (scores self) v
    (estimator_list self) (data_df self) (train_df self) (test_df self)
    (causal_model self) (identified_estimand self) (r_scorer self)
    (tune_results self) (estimator_name self) (estimator_cfg self)
    (trained_estimators_dict self) (events self).

Definition set_estimator_list {Interp : Type} (v : list string)
  (self : AutoCausality Interp) : AutoCausality Interp :=
  mkAutoCausality (_settings self) (estimates self) (scores self)
    (full_scores self) v (data_df self) (train_df self) (test_df self)
    (causal_model self) (identified_estimand self) (r_scorer self)
    (tune_results self) (estimator_name self) (estimator_cfg self)
    (trained_estimators_dict self) (events self).

Definition set_data_df {Interp : Type} (v : DataFrame)
  (self : AutoCausality Interp) : AutoCausality Interp :=
  mkAutoCausality (_settings self) (estimates self) (scores self)
    (full_scores self) (estimator_list self) v (train_df self) (test_df self)
    (causal_model self) (identified_estimand self) (r_scorer self)
    (tune_results self) (estimator_name self) (estimator_cfg self)
    (trained_estimators_dict self) (events self).

Definition set_train_df {Interp : Type} (v : option DataFrame)
  (self : AutoCausality Interp) : AutoCausality Interp :=
  mkAutoCausality (_settings self) (estimates self) (scores self)
    (full_scores self) (estimator_list self) (data_df self) v (test_df self)
    (causal_model self) (identified_estimand self) (r_scorer self)
    (tune_results self) (estimator_name self) (estimator_cfg self)
    (trained_estimators_dict self) (events self).

Definition set_test_df {Interp : Type} (v : option DataFrame)
  (self : AutoCausality Interp) : AutoCausality Interp :=
  mkAutoCausality (_settings self) (estimates self) (scores self)
    (full_scores self) (estimator_list self) (data_df self) (train_df self) v
    (causal_model self) (identified_estimand self) (r_scorer self)
    (tune_results self) (estimator_name self) (estimator_cfg self)
    (trained_estimators_dict self) (events self).

Definition set_causal_model {Interp : Type} (v : option nat)
  (self : AutoCausality Interp) : AutoCausality Interp :=
  mkAutoCausality (_settings self) (estimates self) (scores self)
    (full_scores self) (estimator_list self) (data_df self) (train_df self)
    (test_df self) v (identified_estimand self) (r_scorer self)
    (tune_results self) (estimator_name self) (estimator_cfg self)
    (trained_estimators_dict self) (events self).

Definition set_identified_estimand {Interp : Type} (v : option nat)
  (self : AutoCausality Interp) : AutoCausality Interp :=
  mkAutoCausality (_settings self) (estimates self) (scores self)
    (full_scores self) (estimator_list self) (data_df self) (train_df self)
    (test_df self) (causal_model self) v (r_scorer self) (tune_results self)
    (estimator_name self) (estimator_cfg self) (trained_estimators_dict self)
    (events self).

Definition set_r_scorer {Interp : Type} (v : option RScoreWrapper)
  (self : AutoCausality Interp) : AutoCausality Interp :=
  mkAutoCausality (_settings self) (estimates self) (scores self)
    (full_scores self) (estimator_list self) (data_df self) (train_df self)
    (test_df self) (causal_model self) (identified_estimand self) v
    (tune_results self) (estimator_name self) (estimator_cfg self)
    (trained_estimators_dict self) (events self).

Definition set_tune_results {Interp : Type} (v : option (gmap string (option (gmap string pyval))))
  (self : AutoCausality Interp) : AutoCausality Interp :=
  mkAutoCausality (_settings self) (estimates self) (scores self)
    (full_scores self) (estimator_list self) (data_df self) (train_df self)
    (test_df self) (causal_model self) (identified_estimand self)
    (r_scorer self) v (estimator_name self) (estimator_cfg self)
    (trained_estimators_dict self) (events self).

Definition set_estimator_name {Interp : Type} (v : option string)
  (self : AutoCausality Interp) : AutoCausality Interp :=
  mkAutoCausality (_settings self) (estimates self) (scores self)
    (full_scores self) (estimator_list self) (data_df self) (train_df self)
    (test_df self) (causal_model self) (identified_estimand self)
    (r_scorer self) (tune_results self) v (estimator_cfg self)
    (trained_estimators_dict self) (events self).

Definition set_estimator_cfg {Interp : Type} (v : option Descriptor)
  (self : AutoCausality Interp) : AutoCausality Interp :=
  mkAutoCausality (_settings self) (estimates self) (scores self)
    (full_scores self) (estimator_list self) (data_df self) (train_df self)
    (test_df self) (causal_model self) (identified_estimand self)
    (r_scorer self) (tune_results self) (estimator_name self) v
    (trained_estimators_dict self) (events self).

Definition set_trained_estimators_dict {Interp : Type} (v : gmap string nat)
  (self : AutoCausality Interp) : AutoCausality Interp :=
  mkAutoCausality (_settings self) (estimates self) (scores self)
    (full_scores self) (estimator_list self) (data_df self) (train_df self)
    (test_df self) (causal_model self) (identified_estimand self)
    (r_scorer self) (tune_results self) (estimator_name self)
    (estimator_cfg self) v (events self).

Definition set_events {Interp : Type} (v : list event)
  (self : AutoCausality Interp) : AutoCausality Interp :=
  mkAutoCausality (_settings self) (estimates self) (scores self)
    (full_scores self) (estimator_list self) (data_df self) (train_df self)
    (test_df self) (causal_model self) (identified_estimand self)
    (r_scorer self) (tune_results self) (estimator_name self)
    (estimator_cfg self) (trained_estimators_dict self) v.

(** The collaborators outside the two modules. *)
Class Collaborators (Interp Propensity : Type) : Type := {
  (* auto_causality.params.SimpleParamService *)
  cfg_estimators : list string;
  cfg_method_params : string → outcome Descriptor;
  (* auto_causality.utils: a function of its argument, which it leaves as
     it was *)
  clean_config : gmap string pyval → gmap string pyval;
  (* sklearn, pandas *)
  train_test_split : DataFrame → Qc → outcome (DataFrame * DataFrame);
  df_sample : DataFrame → nat → outcome DataFrame;
  (* dowhy *)
  CausalModel :
    DataFrame → string → string → list string → list string → outcome nat;
  identify_effect : nat → outcome nat;
  estimate_effect :
    nat → option nat → string → gmap string pyval → outcome CausalEstimate;
  (* the fitted EconML estimator: [estimator.estimator.estimator.effect(X)
     .flatten()] and the wrapper's [estimator.estimator.effect(df)] *)
  econml_effect : CausalEstimate → DataFrame → outcome (list pyfloat);
  wrapper_effect : CausalEstimate → DataFrame → outcome (list pyfloat);
  (* auto_causality.r_score *)
  make_r_scorer :
    DataFrame → DataFrame → string → string → list string → list string →
    outcome RScoreWrapper;
  (* econml.cate_interpreter, auto_causality.erupt, causalml metrics *)
  interpret : list pyfloat → DataFrame → outcome Interp;
  ERUPT_fit : pyval → list string → DataFrame → outcome Propensity;
  predict_proba_1 : Propensity → DataFrame → outcome (list pyval);
  ERUPT_weights : Propensity → DataFrame → list bool → outcome array;
  ERUPT_score : Propensity → DataFrame → array → list bool → outcome pyfloat;
  qini_score : DataFrame → outcome (list (string * pyfloat));
  auuc_score : DataFrame → outcome (list (string * pyfloat));
  (* numpy *)
  np_mean : list pyfloat → pyfloat;
  (* flaml.tune.run(trainable, search_space, metric=..., **tuner) *)
  tune_run :
    (gmap string pyval → outcome (gmap string (item Interp))) →
    gmap string pyval → string → TunerSettings → outcome (Analysis Interp);
  (* open(model_save_path + name + ..., 'wb') *)
  open_snapshot : string → string → outcome unit
}.

Section Orchestrator.

Context {Interp Propensity : Type} `{W : Collaborators Interp Propensity}.

Abbreviation AC := (AutoCausality Interp).

Definition log (e : event) : M AC unit :=
  modify (λ self, set_events (events self ++ [e]) self).

(** [AutoCausality.__init__], for the arguments the later methods read. *)
Definition __init__ (data_df : option DataFrame) (settings : Settings)
  : outcome AC :=
  '(warnings, estimator_list) ←
    _create_estimator_list cfg_estimators (estimator_list_setting settings);
  data_df ← match data_df with
            | None => Ok empty_frame
            | Some _ =>
                Raised (ValueError "The truth value of a DataFrame is ambiguous")
            end;
  Ok (mkAutoCausality settings ∅ [] ∅ estimator_list data_df None None None
        None None None None None ∅ (Warned <$> warnings)).

(** [make_scores] with the collaborators filled in. *)
Definition scoring (estimate : CausalEstimate) (df : DataFrame)
  (cate_estimate : list pyfloat) (r_scorer : option (list pyfloat → outcome pyfloat))
  : outcome (Scores Interp) :=
  make_scores interpret ERUPT_fit predict_proba_1 ERUPT_weights ERUPT_score
    qini_score auuc_score np_mean estimate df cate_estimate r_scorer.

(** The [try] block of [_compute_metrics] and its [except Exception]. *)
Definition effect_predictions (self : AC) (estimate : CausalEstimate)
  : outcome (list pyfloat * list pyfloat) :=
  let direct :=
    te_train ← cate_estimates estimate;
    test_df ← attr "test_df" (test_df self);
    X_test ← df_select
                (PyStr <$> _effect_modifier_names (estimator estimate)) test_df;
    te_test ← econml_effect estimate X_test;
    Ok (te_train, te_test) in
  match direct with
  | Ok te => Ok te
  | Raised _ =>
      train_df ← attr "train_df" (train_df self);
      te_train ← wrapper_effect estimate train_df;
      test_df ← attr "test_df" (test_df self);
      te_test ← wrapper_effect estimate test_df;
      Ok (te_train, te_test)
  end.

Definition _compute_metrics (estimate : CausalEstimate)
  : M AC (FullScores Interp) :=
  self ← get_self;
  '(te_train, te_test) ← lift (effect_predictions self estimate);
  name ← lift (attr "estimator_name" (estimator_name self));
  train_df ← lift (attr "train_df" (train_df self));
  r_scorer ← lift (attr "r_scorer" (r_scorer self));
  train_scores ← lift (scoring estimate train_df te_train (Some (r_train r_scorer)));
  test_df ← lift (attr "test_df" (test_df self));
  test_scores ← lift (scoring estimate test_df te_test (Some (r_test r_scorer)));
  mret (mkFullScores name train_scores test_scores).

(** [{**init_params, **config}], after [config = clean_config(config)]. *)
Definition params_to_tune (init_params config : gmap string pyval)
  : gmap string pyval :=
  clean_config config ∪ init_params.

(** [{k: float(scores["train"][k]) for k in [metric] + metrics_to_report}] *)
Definition flat_results (settings : Settings) (scores : FullScores Interp)
  : outcome (gmap string (item Interp)) :=
  pairs ← for_each (λ k, x ← scores_float (train scores) k; Ok (k, x))
            (metric settings :: metrics_to_report settings);
  Ok (fold_left (λ d (kv : string * pyfloat), <[kv.1 := IFloat kv.2]> d)
        pairs ∅).

Definition _estimate_effect (config : gmap string pyval)
  : M AC (gmap string (item Interp)) :=
  self ← get_self;
  cfg ← lift (attr "estimator_cfg" (estimator_cfg self));
  let params := params_to_tune (init_params cfg) config in
  match estimator_name self with
  | Some name =>
      causal_model ← lift (attr "estimate_effect" (causal_model self));
      _ ← log (EstimateEffect name params);
      estimate ← lift (estimate_effect causal_model (identified_estimand self)
                          name params);
      scores ← _compute_metrics estimate;
      flat ← lift (flat_results (_settings self) scores);
      mret (<["scores" := IScores scores]>
              (<["estimator" := IEstimate estimate]> flat))
  | None => raise (AttributeError "No estimator for causal model specified")
  end.

(** The trial runs in a worker process of its own: what it assigns or logs
    does not reach [self]. *)
Definition _tune_with_config (self : AC) (config : gmap string pyval)
  : outcome (gmap string (item Interp)) :=
  (_estimate_effect config self).1.

(** [d.pop(k)] *)
Definition pop (k : string) (d : gmap string (item Interp))
  : outcome (item Interp * gmap string (item Interp)) :=
  match d !! k with
  | Some v => Ok (v, delete k d)
  | None => Raised (KeyError k)
  end.

(** [d[k]] *)
Definition getitem (k : string) (d : gmap string (item Interp))
  : outcome (item Interp) :=
  match d !! k with
  | Some v => Ok v
  | None => Raised (KeyError k)
  end.

(** [f"{v:6f}"] *)
Definition format_f (v : item Interp) : outcome unit :=
  match v with
  | IFloat _ => Ok ()
  | _ => Raised (TypeError "unsupported format string")
  end.

(** One round of the loop over [self.estimator_list] in [fit], in its two
    halves.  First the search: a single trial when the search space is empty,
    else a tuning run; [None] stands for the [continue] taken when the tuner
    has no best trial. *)
Definition search_estimator (name : string) (cfg : Descriptor)
  : M AC (option (gmap string (item Interp))) :=
  if decide (search_space cfg = ∅) then
    self ← get_self;
    tune_results ← lift (attr "tune_results" (tune_results self));
    _ ← modify (set_tune_results (Some (<[name := Some ∅]> tune_results)));
    last_result ← _estimate_effect (init_params cfg);
    mret (Some last_result)
  else
    self ← get_self;
    _ ← log (TuneRun (search_space cfg));
    results ← lift (tune_run (_tune_with_config self) (search_space cfg)
                      (metric (_settings self)) (tuner (_settings self)));
    tune_results ← lift (attr "tune_results" (tune_results self));
    _ ← modify (set_tune_results
                  (Some (<[name := results_best_config results]>
                           tune_results)));
    match results_get_best_trial results with
    | None =>
        _ ← log (Printed ("OPTIMIZATION FAILED FOR " +:+ name));
        _ ← modify (λ self,
               set_scores (PyDict.set name INone (scores self)) self);
        mret None
    | Some last_result => mret (Some last_result)
    end.

(** Then the bookkeeping for the result of the search. *)
Definition record_result (name : string)
  (last_result : gmap string (item Interp)) : M AC unit :=
  '(estimate, last_result) ← lift (pop "estimator" last_result);
  _ ← modify (λ self,
         set_estimates (<[name := estimate]> (estimates self)) self);
  '(scores_, last_result) ← lift (pop "scores" last_result);
  _ ← modify (λ self,
         set_full_scores (<[name := scores_]> (full_scores self)) self);
  self ← get_self;
  score ← lift (getitem (metric (_settings self)) last_result);
  _ ← modify (λ self,
         set_scores (PyDict.set name score (scores self)) self);
  if decide (0 < verbose (tuner (_settings self)))%Z then
    _ ← lift (for_each
                (λ metric, v ← getitem metric last_result; format_f v)
                (metric (_settings self)
                 :: metrics_to_report (_settings self)));
    mret ()
  else mret ().

Definition fit_estimator (name : string) : M AC unit :=
  _ ← modify (set_estimator_name (Some name));
  cfg ← lift (cfg_method_params name);
  _ ← modify (set_estimator_cfg (Some cfg));
  last_result ← search_estimator name cfg;
  match last_result with
  | None => mret ()
  | Some last_result => record_result name last_result
  end.

(** [best_model_for_estimator] *)
Definition best_model_for_estimator (self : AC) (name : string) : outcome nat :=
  match trained_estimators_dict self !! name with
  | Some model => Ok model
  | None => Raised (KeyError name)
  end.

(** [if path:] on a setting that is [None] or a string. *)
Definition truthy (path : option string) : option string :=
  match path with
  | Some "" => None
  | _ => path
  end.

(** The body of the loop that writes the snapshots: the [open], then
    [pickle.dump] called with the model alone. *)
Definition save_model (path name : string) : M AC unit :=
  _ ← log (OpenSnapshot name);
  _ ← lift (open_snapshot path name);
  self ← get_self;
  _ ← lift (best_model_for_estimator self name);
  raise (TypeError "dump() missing required argument 'file'").

Definition fit (data : DataFrame) (treatment outcome_ : string)
  (common_causes effect_modifiers : list string) : M AC unit :=
  _ ← modify (set_data_df data);
  self ← get_self;
  '(train, test) ← lift (train_test_split data (train_size (_settings self)));
  _ ← modify (set_train_df (Some train));
  _ ← modify (set_test_df (Some test));
  test ← match test_size (_settings self) with
          | None => mret test
          | Some n =>
              test ← lift (df_sample test n);
              _ ← modify (set_test_df (Some test));
              mret test
          end;
  model ← lift (CausalModel train treatment outcome_ common_causes
                  effect_modifiers);
  _ ← modify (set_causal_model (Some model));
  estimand ← lift (identify_effect model);
  _ ← modify (set_identified_estimand (Some estimand));
  scorer ← lift (make_r_scorer train test outcome_ treatment common_causes
                   effect_modifiers);
  _ ← modify (set_r_scorer (Some scorer));
  _ ← modify (set_tune_results (Some ∅));
  _ ← for_M (estimator_list self) fit_estimator;
  match truthy (model_save_path (_settings self)) with
  | None => mret ()
  | Some path => for_M (estimator_list self) (save_model path)
  end.

(** [a > b] on two values a score can be. *)
Definition float_gt (x y : pyfloat) : bool :=
  match x, y with
  | Fin a, Fin b => bool_decide (b < a)%Qc
  | PosInf, (Fin _ | NegInf) => true
  | Fin _, NegInf => true
  | _, _ => false
  end.

Definition py_gt (a b : item Interp) : outcome bool :=
  match a, b with
  | IFloat x, IFloat y => Ok (float_gt x y)
  | _, _ => Raised (TypeError "'>' not supported between instances")
  end.

(** [max(iterable, key=key)]: the first element is the candidate, and a later
    one replaces it only when its key is greater. *)
Fixpoint max_scan (key : string → item Interp) (best : string)
  (rest : list string) : outcome string :=
  match rest with
  | [] => Ok best
  | x :: rest' =>
      greater ← py_gt (key x) (key best);
      if greater : bool then max_scan key x rest' else max_scan key best rest'
  end.

Definition py_max (l : list string) (key : string → item Interp)
  : outcome string :=
  match l with
  | [] => Raised (ValueError "max() arg is an empty sequence")
  | x :: rest => max_scan key x rest
  end.

(** [d.get(k)] *)
Definition dict_get (d : list (string * item Interp)) (k : string)
  : item Interp :=
  default INone (PyDict.get k d).

Definition best_estimator (self : AC) : outcome string :=
  py_max (PyDict.keys (scores self)) (dict_get (scores self)).

(** The dictionary comprehension
    [{e: self.tune_results[e] for e in self.estimator_list
      if e in self.tune_results}]: [self.tune_results] is read once for each
    estimator of the list, so not at all for an empty list. *)
Definition best_config_per_estimator (self : AC)
  : outcome (gmap string (option (gmap string pyval))) :=
  picked ← for_each
             (λ estimator,
                tune_results ← attr "tune_results" (tune_results self);
                Ok (estimator, tune_results !! estimator))
             (estimator_list self);
  Ok (fold_left
        (λ d (kv : string * option (option (gmap string pyval))),
           match kv.2 with
           | Some config => <[kv.1 := config]> d
           | None => d
           end)
        picked ∅).

Definition best_config (self : AC) : outcome (option (gmap string pyval)) :=
  per_estimator ← best_config_per_estimator self;
  best ← best_estimator self;
  match per_estimator !! best with
  | Some config => Ok config
  | None => Raised (KeyError best)
  end.

Definition best_score_per_estimator (self : AC) : list (string * item Interp) :=
  scores self.

Definition best_score (self : AC) : outcome (item Interp) :=
  best ← best_estimator self;
  match PyDict.get best (scores self) with
  | Some score => Ok score
  | None => Raised (KeyError best)
  end.

End Orchestrator.

(** ** Facts about insertion-ordered dictionaries *)

Module PyDictFacts.
Import PyDict.
Section Dict.
Context {V : Type}.

Implicit Types (k : string) (v : V) (d : list (string * V)).

Lemma get_set_eq k v d : get k (set k v d) = Some v.
Proof.
  induction d as [|[k' v'] d IH]; simpl.
  - by rewrite decide_True.
  - destruct (decide (k = k')) as [->|Hne]; simpl.
    + by rewrite decide_True.
    + by rewrite decide_False.
Qed.

Lemma get_set_ne k k' v d : k ≠ k' → get k' (set k v d) = get k' d.
Proof.
  intros Hne. induction d as [|[k0 v0] d IH]; simpl.
  - by rewrite decide_False.
  - destruct (decide (k = k0)) as [->|Hne0]; simpl.
    + by rewrite !decide_False.
    + by rewrite IH.
Qed.

Lemma keys_set_in k v d : k ∈ keys d → keys (set k v d) = keys d.
Proof.
  unfold keys. induction d as [|[k' v'] d IH]; simpl.
  - by intros ?%elem_of_nil.
  - intros Hin. destruct (decide (k = k')) as [->|Hne]; simpl; [done|].
    f_equal. apply IH. by apply elem_of_cons in Hin as [?|?].
Qed.

Lemma keys_set_notin k v d : k ∉ keys d → keys (set k v d) = keys d ++ [k].
Proof.
  unfold keys. induction d as [|[k' v'] d IH]; simpl; [done|].
  intros Hnin. apply not_elem_of_cons in Hnin as [Hne Hnin].
  rewrite decide_False by done. simpl. f_equal. by apply IH.
Qed.

Lemma get_None k d : get k d = None ↔ k ∉ keys d.
Proof.
  unfold keys. induction d as [|[k' v'] d IH]; simpl.
  - split; [intros _; apply not_elem_of_nil|done].
  - destruct (decide (k = k')) as [->|Hne].
    + split; [done|]. intros []. by left.
    + rewrite IH, not_elem_of_cons. tauto.
Qed.
End Dict.
End PyDictFacts.

(** ** Facts about substring search and de-duplication *)

(** The specification's reading of "substring containment": [needle] occurs
    in [hay] character for character. *)
Definition is_substring (needle hay : string) : Prop :=
  ∃ pre post, hay = pre +:+ needle +:+ post.

(** The specification's reading of "deduplicate preserving first-match
    order": keep the first occurrence of every element, drop the later ones. *)
Fixpoint dedup_first (l : list string) : list string :=
  match l with
  | [] => []
  | x :: l' => x :: filter (λ y, y ≠ x) (dedup_first l')
  end.

Lemma append_nil_l (s : string) : "" +:+ s = s.
Proof. reflexivity. Qed.

Lemma append_cons_l (c : Ascii.ascii) (s t : string) :
  String c s +:+ t = String c (s +:+ t).
Proof. reflexivity. Qed.

Lemma starts_with_spec n h : starts_with n h = true ↔ ∃ post, h = n +:+ post.
Proof.
  revert h. induction n as [|c n IH]; intros h; simpl.
  - split; [intros _; by exists h|done].
  - destruct h as [|c' h].
    + split; [done|]. by intros [post ?].
    + destruct (decide (c = c')) as [->|Hne].
      * rewrite IH. split; intros [post Hp]; exists post.
        -- by rewrite append_cons_l, Hp.
        -- rewrite append_cons_l in Hp. by injection Hp.
      * split; [done|]. intros [post Hp].
        rewrite append_cons_l in Hp. by injection Hp as -> _.
Qed.

Lemma str_in_spec n h : str_in n h = true ↔ is_substring n h.
Proof.
  unfold is_substring. induction h as [|c h IH]; simpl.
  - rewrite orb_false_r, starts_with_spec. split.
    + intros [post Hp]. by exists "", post.
    + intros ([|? pre] & post & Hp); [by exists post|done].
  - rewrite orb_true_iff, IH, starts_with_spec. split.
    + intros [[post Hp]|(pre & post & Hp)].
      * by exists "", post.
      * exists (String c pre), post. by rewrite append_cons_l, Hp.
    + intros ([|c' pre] & post & Hp).
      * left. by exists post.
      * right. exists pre, post. rewrite append_cons_l in Hp. by injection Hp.
Qed.

Global Instance is_substring_dec n h : Decision (is_substring n h).
Proof.
  refine (cast_if (decide (str_in n h = true))); by rewrite <-str_in_spec.
Defined.

Lemma elem_of_dedup_first x l : x ∈ dedup_first l ↔ x ∈ l.
Proof.
  induction l as [|y l IH]; simpl; [done|].
  rewrite !elem_of_cons, list_elem_of_filter, IH.
  destruct (decide (x = y)); tauto.
Qed.

Lemma NoDup_dedup_first l : NoDup (dedup_first l).
Proof.
  induction l as [|y l IH]; simpl; [constructor|].
  constructor; [|by apply NoDup_filter].
  rewrite list_elem_of_filter. tauto.
Qed.

Lemma keys_fold_set (l : list string) (d : list (string * pyval)) :
  PyDict.keys (fold_left (λ d k, PyDict.set k PyNone d) l d)
  = PyDict.keys d ++ filter (λ y, y ∉ PyDict.keys d) (dedup_first l).
Proof.
  revert d. induction l as [|x l IH]; intros d; simpl.
  - by rewrite app_nil_r.
  - rewrite IH. destruct (decide (x ∈ PyDict.keys d)) as [Hin|Hnin].
    + rewrite PyDictFacts.keys_set_in by done.
      rewrite filter_cons_False by tauto. f_equal.
      rewrite list_filter_filter. apply list_filter_iff.
      intros y. split; [|tauto]. intros Hy. split; [done|]. by intros ->.
    + rewrite PyDictFacts.keys_set_notin by done.
      rewrite filter_cons_True by done. rewrite <-app_assoc. simpl.
      do 2 f_equal. rewrite list_filter_filter. apply list_filter_iff.
      intros y. rewrite not_elem_of_app, list_elem_of_singleton. tauto.
Qed.

Lemma keys_fromkeys l : PyDict.keys (fromkeys l) = dedup_first l.
Proof.
  unfold fromkeys. rewrite keys_fold_set. simpl.
  induction (dedup_first l) as [|y l' IH]; [done|].
  rewrite filter_cons_True by apply not_elem_of_nil. by rewrite IH.
Qed.

Section ResolutionFacts.
Variable registry : list string.

Abbreviation available := (available_estimators registry).

(** The matches in request order, and within one request in registry
    order. *)
Definition matches_in_order (requested : list string) : list string :=
  r ← requested; filter (is_substring r) available.

Lemma matches_for_string (r : string) :
  matches_for registry (PyStr r) = Ok (filter (is_substring r) available).
Proof.
  unfold matches_for. induction available as [|a l IH]; [done|].
  cbn [for_each py_in_str mbind outcome_bind] in *.
  destruct (for_each _ l) as [picked|e]; [|done].
  injection IH as IH. cbn [mbind outcome_bind concat]. f_equal.
  destruct (str_in r a) eqn:Hra; cbn [app].
  - rewrite filter_cons_True by (by apply str_in_spec). by rewrite IH.
  - rewrite filter_cons_False; [by rewrite IH|].
    rewrite <-str_in_spec. congruence.
Qed.

Lemma matches_of_strings (requested : list string) :
  matches_of registry (PyStr <$> requested)
  = Ok (matches_in_order requested).
Proof.
  unfold matches_of, matches_in_order.
  induction requested as [|r rs IH]; [done|].
  cbn [fmap list_fmap for_each mbind outcome_bind list_bind].
  rewrite matches_for_string.
  change (list_fmap string pyval PyStr rs) with (PyStr <$> rs).
  destruct (for_each _ (PyStr <$> rs)) as [found|e]; [|done].
  injection IH as IH. cbn. by rewrite IH.
Qed.

Lemma elem_of_matches_in_order a requested :
  a ∈ matches_in_order requested
  ↔ a ∈ available ∧ ∃ r, r ∈ requested ∧ is_substring r a.
Proof.
  unfold matches_in_order. rewrite list_elem_of_bind. split.
  - intros (r & Ha & Hr). apply list_elem_of_filter in Ha as [? ?]. eauto.
  - intros (Ha & r & Hr & Hs). exists r. by rewrite list_elem_of_filter.
Qed.

Lemma verify_strings (requested : list string) :
  _verify_estimator_list (PyList (PyStr <$> requested)) = true.
Proof. simpl. by induction requested. Qed.

End ResolutionFacts.

(** ** Estimator-name resolution: the claims *)

(** A small registry used by the concrete examples. *)
Definition demo_registry : list string :=
  [ "backdoor.econml.metalearners.SLearner";
    "backdoor.econml.metalearners.DomainAdaptationLearner";
    "backdoor.econml.dml.LinearDML";
    "backdoor.econml.dml.SparseLinearDML";
    "backdoor.auto_causality.models.Dummy" ].

(** A structurally invalid request: not a list, or a list with an element
    that is not a string. *)
Definition structurally_invalid (estimator_list : pyval) : Prop :=
  match estimator_list with
  | PyList l => ∃ v, v ∈ l ∧ is_str v = false
  | _ => True
  end.

Lemma verify_invalid (estimator_list : pyval) :
  structurally_invalid estimator_list →
  _verify_estimator_list estimator_list = false.
Proof.
  destruct estimator_list as [| | | | |l| |]; try done.
  intros (v & Hin & Hv). simpl.
  apply not_true_is_false. rewrite forallb_forall.
  intros Hall. apply list_elem_of_In, Hall in Hin. congruence.
Qed.

(** The values whose [==] is Python's own: everything but an object with
    an [__eq__] of its own. *)
Definition plain_equality (v : pyval) : Prop :=
  match v with
  | PyCustom _ _ => False
  | _ => True
  end.

Global Instance plain_equality_dec v : Decision (plain_equality v).
Proof. destruct v; simpl; apply _. Defined.

Lemma invalid_not_auto_or_empty (estimator_list : pyval) :
  structurally_invalid estimator_list →
  estimator_list ≠ PyStr "auto" →
  plain_equality estimator_list →
  is_auto_or_empty estimator_list = Ok false.
Proof.
  destruct estimator_list as [| | | |s|l| |]; try done.
  - intros _ Hne _. simpl. f_equal. apply bool_decide_eq_false. congruence.
  - destruct l; [|done]. intros (v & Hin & _). by apply elem_of_nil in Hin.
Qed.

(** C1, as amended: a structurally invalid [estimator_list] other than
    ["auto"] whose comparisons with ["auto"] and [[]] are plain booleans does
    not make [_create_estimator_list] raise; the function warns
    "invalid estimator list requested, continuing with defaults" and returns
    every available estimator.  For an object with an [__eq__] of its own
    the outcome is that of the two truth tests: the exception of the first
    test that raises (for a pandas Series or DataFrame, the [ValueError] of
    the first), the defaults for "no estimators specified" if one of them is
    true, and else the same warning and defaults. *)
Theorem create_estimator_list_invalid_defaults
  (registry : list string) (estimator_list : pyval) :
  structurally_invalid estimator_list →
  estimator_list ≠ PyStr "auto" →
  _create_estimator_list registry estimator_list
  = match estimator_list with
    | PyCustom (Raised e) _ | PyCustom (Ok false) (Raised e) => Raised e
    | PyCustom (Ok true) _ | PyCustom (Ok false) (Ok true) =>
        Ok (["No estimators specified, adding all available estimators..."],
            available_estimators registry)
    | _ =>
        Ok (["invalid estimator list requested, continuing with defaults"],
            available_estimators registry)
    end.
Proof.
  intros Hinv Hauto. unfold _create_estimator_list.
  destruct (decide (plain_equality estimator_list)) as [Hplain|Hcustom].
  - rewrite invalid_not_auto_or_empty by done. cbn [mbind outcome_bind].
    rewrite verify_invalid by done. by destruct estimator_list.
  - destruct estimator_list as [| | | | | | |[[]|e] [[]|e']]; try done.
Qed.

(** A pandas Series, as far as resolution sees it. *)
Definition demo_series : pyval :=
  PyCustom (Raised (ValueError "The truth value of a Series is ambiguous"))
    (Raised (ValueError "The truth value of a Series is ambiguous")).

Lemma create_estimator_list_invalid_defaults_witness :
  _create_estimator_list demo_registry
    (PyList [PyStr "linear_regression"; PyStr "pasta"; PyInt 12])
  = Ok (["invalid estimator list requested, continuing with defaults"],
        available_estimators demo_registry)
  ∧ _create_estimator_list demo_registry demo_series
    = Raised (ValueError "The truth value of a Series is ambiguous").
Proof.
  split.
  - apply (create_estimator_list_invalid_defaults demo_registry
             (PyList [PyStr "linear_regression"; PyStr "pasta"; PyInt 12])).
    + exists (PyInt 12). split; [|reflexivity].
      do 2 apply list_elem_of_further. apply list_elem_of_here.
    + discriminate.
  - apply (create_estimator_list_invalid_defaults demo_registry demo_series);
      [exact I|discriminate].
Defined.

(** C1, as stated, fails: for the request [5] (not a list, not ["auto"])
    resolution returns the defaults instead of raising. *)
Lemma create_estimator_list_invalid_no_raise :
  structurally_invalid (PyInt 5)
  ∧ PyInt 5 ≠ PyStr "auto"
  ∧ _create_estimator_list demo_registry (PyInt 5)
    = Ok (["invalid estimator list requested, continuing with defaults"],
          [ "backdoor.econml.metalearners.SLearner";
            "backdoor.econml.metalearners.DomainAdaptationLearner";
            "backdoor.econml.dml.LinearDML";
            "backdoor.econml.dml.SparseLinearDML" ])
  ∧ ¬ ∃ e, _create_estimator_list demo_registry (PyInt 5) = Raised e.
Proof.
  split; [exact I|]. split; [discriminate|]. split; [reflexivity|].
  intros [e He]. discriminate He.
Qed.

(** C9, as amended: a non-empty request of strings, each a substring of
    some available estimator (an identifier of the registry that contains one
    of the supported patterns), resolves without warning to the matches in request-then-registry
    order with later duplicates dropped; the result is duplicate-free, lies
    within the available estimators, and holds exactly the available
    estimators that contain a requested string, character for character. *)
Theorem create_estimator_list_valid_requests
  (registry : list string) (requested : list string) :
  requested ≠ [] →
  (∀ r, r ∈ requested →
        ∃ a, a ∈ available_estimators registry ∧ is_substring r a) →
  ∃ resolved,
    _create_estimator_list registry (PyList (PyStr <$> requested))
    = Ok ([], resolved)
    ∧ resolved = dedup_first (matches_in_order registry requested)
    ∧ resolved ⊆ available_estimators registry
    ∧ NoDup resolved
    ∧ ∀ a, a ∈ resolved
           ↔ a ∈ available_estimators registry
             ∧ ∃ r, r ∈ requested ∧ is_substring r a.
Proof.
  intros Hne Hmatch.
  exists (dedup_first (matches_in_order registry requested)).
  assert (Hmem : ∀ a,
    a ∈ dedup_first (matches_in_order registry requested)
    ↔ a ∈ available_estimators registry
      ∧ ∃ r, r ∈ requested ∧ is_substring r a).
  { intros a. by rewrite elem_of_dedup_first, elem_of_matches_in_order. }
  split; [|split; [done|split; [|split; [apply NoDup_dedup_first|done]]]].
  - unfold _create_estimator_list.
    destruct requested as [|r rs]; [done|].
    change (is_auto_or_empty (PyList (PyStr <$> r :: rs))) with (Ok false).
    cbn [mbind outcome_bind].
    rewrite verify_strings. cbn [py_iter mbind outcome_bind].
    rewrite matches_of_strings. cbn [mbind outcome_bind].
    rewrite keys_fromkeys.
    destruct (dedup_first _) as [|x xs] eqn:Hd; [|done].
    destruct (Hmatch r) as (a & Ha & Hra); [apply list_elem_of_here|].
    assert (a ∈ @nil string) as Hnil; [|by apply elem_of_nil in Hnil].
    apply Hmem. split; [done|]. exists r.
    split; [apply list_elem_of_here|done].
  - intros a Ha. by apply Hmem in Ha as [? _].
Qed.

Lemma create_estimator_list_valid_requests_witness :
  ∃ resolved,
    _create_estimator_list demo_registry
      (PyList (PyStr <$> ["LinearDML"; "DomainAdaptationLearner"; ".LinearDML"]))
    = Ok ([], resolved)
    ∧ resolved
      = dedup_first
          (matches_in_order demo_registry
             ["LinearDML"; "DomainAdaptationLearner"; ".LinearDML"])
    ∧ resolved ⊆ available_estimators demo_registry
    ∧ NoDup resolved
    ∧ ∀ a, a ∈ resolved
           ↔ a ∈ available_estimators demo_registry
             ∧ ∃ r, r ∈ ["LinearDML"; "DomainAdaptationLearner"; ".LinearDML"]
                    ∧ is_substring r a.
Proof.
  apply create_estimator_list_valid_requests; [discriminate|].
  intros r Hr.
  assert (Hdec : Forall
    (λ r, Exists (is_substring r) (available_estimators demo_registry))
    ["LinearDML"; "DomainAdaptationLearner"; ".LinearDML"]).
  { apply (bool_decide_unpack _). by vm_compute. }
  rewrite Forall_forall in Hdec. apply Hdec in Hr.
  apply Exists_exists in Hr as (a & Ha & Hs). by exists a.
Defined.

(** C9, as stated, fails: the request ["Dummy"] is a substring of an
    identifier of the registry, but of none that is available; resolution
    answers with every available estimator and a warning, and the list it
    returns holds identifiers that do not contain the request. *)
Lemma create_estimator_list_unavailable_match :
  "backdoor.auto_causality.models.Dummy" ∈ demo_registry
  ∧ is_substring "Dummy" "backdoor.auto_causality.models.Dummy"
  ∧ ("backdoor.auto_causality.models.Dummy"
     ∉ available_estimators demo_registry)
  ∧ _create_estimator_list demo_registry (PyList [PyStr "Dummy"])
    = Ok (["requested estimators not implemented, continuing with defaults"],
          available_estimators demo_registry)
  ∧ "backdoor.econml.dml.LinearDML" ∈ available_estimators demo_registry
  ∧ ¬ is_substring "Dummy" "backdoor.econml.dml.LinearDML".
Proof.
  split; [apply (bool_decide_unpack _); by vm_compute|].
  split; [apply str_in_spec; by vm_compute|].
  split; [apply (bool_decide_unpack _); by vm_compute|].
  split; [reflexivity|].
  split; [apply (bool_decide_unpack _); by vm_compute|].
  rewrite <-str_in_spec. by vm_compute.
Qed.

(** The resolution on the registry above: request order decides, the second
    match of [SparseLinearDML]'s sibling is dropped, and a lower-case request
    matches nothing (so the defaults come back with a warning). *)
Example create_estimator_list_demo :
  _create_estimator_list demo_registry
    (PyList [PyStr "LinearDML"; PyStr "DomainAdaptationLearner"; PyStr ".LinearDML"])
  = Ok ([], [ "backdoor.econml.dml.LinearDML";
              "backdoor.econml.dml.SparseLinearDML";
              "backdoor.econml.metalearners.DomainAdaptationLearner" ])
  ∧ _create_estimator_list demo_registry (PyList [PyStr "lineardml"])
    = Ok (["requested estimators not implemented, continuing with defaults"],
          available_estimators demo_registry).
Proof. split; reflexivity. Qed.

(** ** The scoring engine: the claims *)

(** The specification's arithmetic mean of a vector of finite values: the
    sum divided by the count, in exact arithmetic. *)
Definition arithmetic_mean (a : list Qc) : Qc :=
  (foldr Qcplus 0 a / Qc_of_Z (Z.of_nat (length a)))%Qc.

(** [s], with the interpretability artifact replaced. *)
Definition with_intrp {I J : Type} (i : option (J * list string))
  (s : Scores I) : Scores J :=
  mkScores (erupt s) (qini s) (auc s) (r_score s) (ate s) i (values s).

(** The facts about [make_scores] are stated over its collaborators one by
    one, as the function is, so that two interpreters can be compared. *)
Section ScoringFacts.

Context {Interp Propensity : Type}.
Variable interpret : list pyfloat → DataFrame → outcome Interp.
Variable ERUPT_fit : pyval → list string → DataFrame → outcome Propensity.
Variable predict_proba_1 : Propensity → DataFrame → outcome (list pyval).
Variable ERUPT_weights : Propensity → DataFrame → list bool → outcome array.
Variable ERUPT_score :
  Propensity → DataFrame → array → list bool → outcome pyfloat.
Variable qini_score : DataFrame → outcome (list (string * pyfloat)).
Variable auuc_score : DataFrame → outcome (list (string * pyfloat)).
Variable np_mean : list pyfloat → pyfloat.

Abbreviation scores_of := (make_scores interpret ERUPT_fit predict_proba_1
  ERUPT_weights ERUPT_score qini_score auuc_score np_mean).
Abbreviation table_of := (diagnostic_table ERUPT_fit predict_proba_1
  ERUPT_weights).

(** The result of the [r_score] entry's conditional expression. *)
Definition r_score_entry (cate_estimate : list pyfloat)
  (r_scorer : option (list pyfloat → outcome pyfloat)) : outcome pyval :=
  match r_scorer with
  | None => Ok (PyInt 0)
  | Some scorer => PyFloat <$> r_make_score cate_estimate scorer
  end.

(** [make_scores] returns exactly when every step after the interpreter
    succeeds and the assertion holds; the dictionary is then made of the
    results of the steps. *)
Lemma make_scores_Ok estimate df cate r_scorer (s : Scores Interp) :
  scores_of estimate df cate r_scorer = Ok s ↔
  ∃ treatment_name table e q a r,
    first_treatment_name (_treatment_name (estimator estimate))
    = Ok treatment_name
    ∧ table_of (estimator estimate) treatment_name df cate = Ok table
    ∧ len table = len df
    ∧ erupt_make_scores ERUPT_fit ERUPT_score estimate df cate = Ok e
    ∧ qini_make_score qini_score estimate df cate = Ok q
    ∧ auc_make_score auuc_score estimate df cate = Ok a
    ∧ r_score_entry cate r_scorer = Ok r
    ∧ s = mkScores e q a r (np_mean cate)
            (fit_interpreter interpret (estimator estimate) df cate) table.
Proof.
  unfold make_scores, r_score_entry. split.
  - destruct (first_treatment_name _) as [t|]; [|done].
    cbn [mbind outcome_bind].
    destruct (diagnostic_table _ _ _ _ _ _ _) as [table|] eqn:Htable; [|done].
    cbn [mbind outcome_bind]. unfold py_assert.
    destruct (bool_decide (len table = len df)) eqn:Hlen; [|done].
    apply bool_decide_eq_true in Hlen. cbn [mbind outcome_bind].
    destruct (erupt_make_scores _ _ _ _ _) as [e|]; [|done].
    cbn [mbind outcome_bind].
    destruct (qini_make_score _ _ _ _) as [q|]; [|done].
    cbn [mbind outcome_bind].
    destruct (auc_make_score _ _ _ _) as [a|]; [|done].
    cbn [mbind outcome_bind].
    destruct (match r_scorer with None => _ | Some _ => _ end) as [r|]; [|done].
    cbn [mbind outcome_bind]. intros [= <-].
    exists t, table, e, q, a, r. repeat split; done.
  - intros (t & table & e & q & a & r & Ht & Htab & Hlen & He & Hq & Ha & Hr & ->).
    cbv zeta. rewrite Ht. cbn [mbind outcome_bind]. rewrite Htab.
    cbn [mbind outcome_bind]. unfold py_assert.
    rewrite bool_decide_eq_true_2 by done. cbn [mbind outcome_bind].
    rewrite He. cbn [mbind outcome_bind]. rewrite Hq.
    cbn [mbind outcome_bind]. rewrite Ha. cbn [mbind outcome_bind].
    by rewrite Hr.
Qed.

(** A table of the wrong length makes [make_scores] fail its assertion. *)
Lemma make_scores_assert estimate df cate r_scorer treatment_name table :
  first_treatment_name (_treatment_name (estimator estimate))
  = Ok treatment_name →
  table_of (estimator estimate) treatment_name df cate = Ok table →
  len table ≠ len df →
  scores_of estimate df cate r_scorer
  = Raised (AssertionError "Index weirdness when adding columns!").
Proof.
  intros Ht Htable Hlen. unfold make_scores. cbv zeta. rewrite Ht.
  cbn [mbind outcome_bind]. rewrite Htable. cbn [mbind outcome_bind].
  unfold py_assert. by rewrite bool_decide_eq_false_2.
Qed.

End ScoringFacts.

(** *** float64 arithmetic

    The arithmetic numpy does on float64 values, over the exact rationals the
    finite values are: the result of an operation is the exact result rounded
    to the nearest float64, ties to even, and an infinity beyond the largest
    finite value.  (The sign of a zero is not kept.) *)

(** [num / den] rounded to the nearest integer, ties to even, for
    [0 ≤ num] and [0 < den]. *)
Definition round_half_even (num den : Z) : Z :=
  let q := (num / den)%Z in
  match (2 * (num mod den) ?= den)%Z with
  | Lt => q
  | Gt => (q + 1)%Z
  | Eq => if Z.even q then q else (q + 1)%Z
  end.

(** The largest [k] with [2 ^ k ≤ n / d], for [0 < n] and [0 < d]. *)
Definition floor_log2 (n d : Z) : Z :=
  let k := (Z.log2 n - Z.log2 d)%Z in
  if (if decide (0 ≤ k)%Z then bool_decide (2 ^ k * d ≤ n)%Z
      else bool_decide (d ≤ n * 2 ^ (- k))%Z)
  then k else (k - 1)%Z.

(** The float64 nearest to [n / d], for [0 < n] and [0 < d]: 53 significant
    bits, the exponent of the last bit between -1074 and 971. *)
Definition float64_of_pos (n d : Z) : pyfloat :=
  let e := Z.max (floor_log2 n d - 52) (-1074) in
  let m := if decide (0 ≤ e)%Z then round_half_even n (d * 2 ^ e)
           else round_half_even (n * 2 ^ (- e)) d in
  if decide (0 ≤ e)%Z then
    if decide (2 ^ 1024 ≤ m * 2 ^ e)%Z then PosInf
    else Fin (Qc_of_Z (m * 2 ^ e))
  else Fin (Q2Qc (m # Z.to_pos (2 ^ (- e)))).

Definition float64_neg (x : pyfloat) : pyfloat :=
  match x with
  | Fin q => Fin (- q)%Qc
  | PosInf => NegInf
  | NegInf => PosInf
  | NaN => NaN
  end.

Definition float64_round (q : Qc) : pyfloat :=
  match (Qnum q ?= 0)%Z with
  | Eq => Fin 0%Qc
  | Gt => float64_of_pos (Qnum q) (Z.pos (Qden q))
  | Lt => float64_neg (float64_of_pos (- Qnum q) (Z.pos (Qden q)))
  end.

Definition float64_add (x y : pyfloat) : pyfloat :=
  match x, y with
  | NaN, _ | _, NaN => NaN
  | PosInf, NegInf | NegInf, PosInf => NaN
  | PosInf, _ | _, PosInf => PosInf
  | NegInf, _ | _, NegInf => NegInf
  | Fin a, Fin b => float64_round (a + b)%Qc
  end.

(** [x / n] for a count [n] that is not 0. *)
Definition float64_div_count (x : pyfloat) (n : nat) : pyfloat :=
  match x with
  | Fin a => float64_round (a / Qc_of_Z (Z.of_nat n))%Qc
  | _ => x
  end.

(** [np.mean] on a one-dimensional float64 array of fewer than eight
    elements: the elements are added up in array order (longer arrays are
    summed pairwise in blocks), the sum is divided by the count; NaN on an
    empty array. *)
Definition float64_mean (a : list pyfloat) : pyfloat :=
  match a with
  | [] => NaN
  | _ => float64_div_count (foldl float64_add (Fin 0%Qc) a) (length a)
  end.

Global Instance pyfloat_eq_dec : EqDecision pyfloat.
Proof. solve_decision. Defined.

(** A rational that a float64 holds exactly. *)
Definition is_float64 (q : Qc) : Prop := float64_round q = Fin q.

(** The sums of the non-empty prefixes of [a], started from [acc]. *)
Fixpoint running_sums (acc : Qc) (a : list Qc) : list Qc :=
  match a with
  | [] => []
  | x :: a' => (acc + x)%Qc :: running_sums (acc + x)%Qc a'
  end.

Lemma float64_sum_exact (acc : Qc) (a : list Qc) :
  Forall is_float64 (running_sums acc a) →
  foldl float64_add (Fin acc) (Fin <$> a) = Fin (foldl Qcplus acc a).
Proof.
  revert acc. induction a as [|x a IH]; intros acc Hexact; [done|].
  apply Forall_cons in Hexact as [Hx Hexact]. cbn [fmap list_fmap foldl].
  change (float64_add (Fin acc) (Fin x)) with (float64_round (acc + x)).
  rewrite Hx. by apply IH.
Qed.

Lemma foldl_Qcplus (acc : Qc) (a : list Qc) :
  foldl Qcplus acc a = (acc + foldr Qcplus 0 a)%Qc.
Proof.
  revert acc. induction a as [|x a IH]; intros acc; cbn [foldl foldr].
  - by rewrite Qcplus_0_r.
  - by rewrite IH, Qcplus_assoc.
Qed.

(** Where no operation rounds, the float64 mean of finite values is their
    arithmetic mean. *)
Lemma float64_mean_exact (a : list Qc) :
  a ≠ [] →
  Forall is_float64 (running_sums 0 a) →
  is_float64 (arithmetic_mean a) →
  float64_mean (Fin <$> a) = Fin (arithmetic_mean a).
Proof.
  intros Hne Hsums Hmean. destruct a as [|x a]; [done|].
  change (float64_mean (Fin <$> x :: a))
    with (float64_div_count
            (foldl float64_add (Fin 0%Qc) (Fin <$> x :: a))
            (length (Fin <$> x :: a))).
  rewrite float64_sum_exact by done. cbn [float64_div_count].
  rewrite foldl_Qcplus, Qcplus_0_l, length_fmap. exact Hmean.
Qed.

(** The float64 mean of an all-zero vector, of vectors of mixed sign and of
    an empty one; of a vector whose sum is rounded; of one whose sum
    overflows. *)
Example float64_mean_examples :
  float64_mean (Fin <$> [0; 0; 0; 0]%Qc) = Fin 0%Qc
  ∧ float64_mean (Fin <$> [Qc_of_Z 3; Qc_of_Z (-1); Qc_of_Z (-2)]) = Fin 0%Qc
  ∧ float64_mean (Fin <$> [Qc_of_Z 5; Qc_of_Z (-2)]) = Fin (Q2Qc (3 # 2))
  ∧ float64_mean [] = NaN
  ∧ float64_mean
      [float64_round (Q2Qc (1 # 10)); float64_round (Q2Qc (2 # 10));
       float64_round (Q2Qc (3 # 10))]
    = Fin (Q2Qc (7205759403792795 # 36028797018963968))
  ∧ float64_mean (Fin <$> [Qc_of_Z (2 ^ 1023); Qc_of_Z (2 ^ 1023)]) = PosInf.
Proof.
  repeat split; try reflexivity;
    vm_compute; f_equal; apply Qc_is_canon; reflexivity.
Qed.

(** *** A concrete scoring run

    Three rows in shuffled order, a propensity model that always answers
    one half, and a tree interpreter that gives up. *)

Definition fl (z : Z) : pyval := PyFloat (Fin (Qc_of_Z z)).

Definition demo_df : DataFrame :=
  mkDataFrame [4; 9; 2]%Z
    [ ("treatment", [PyInt 0; PyInt 1; PyInt 1]);
      ("outcome", [fl 1; fl 2; fl 0]);
      ("x", [fl 5; fl 6; fl 7]) ].

(** A frame with the same columns and no rows. *)
Definition demo_df_no_rows : DataFrame :=
  mkDataFrame [] [ ("treatment", []); ("outcome", []); ("x", []) ].

Definition demo_cate : list pyfloat :=
  Fin <$> [Qc_of_Z 3; Qc_of_Z (-1); Qc_of_Z (-2)].

Definition demo_estimate : CausalEstimate :=
  mkCausalEstimate (mkEstimator (PyList [PyStr "treatment"]) ["x"] "outcome")
    (Ok demo_cate) 0.

Definition demo_interpret_fails (cate : list pyfloat) (df : DataFrame)
  : outcome unit :=
  Raised (ValueError "degenerate predictions").

Definition demo_interpret_works (cate : list pyfloat) (df : DataFrame)
  : outcome unit :=
  Ok ().

Definition demo_ERUPT_fit (treatment_name : pyval) (X_names : list string)
  (df : DataFrame) : outcome unit :=
  Ok ().

Definition demo_predict_proba_1 (model : unit) (df : DataFrame)
  : outcome (list pyval) :=
  Ok (replicate (len df) (PyFloat (Fin (Q2Qc (1 # 2))))).

Definition demo_ERUPT_weights (model : unit) (df : DataFrame)
  (policy : list bool) : outcome array :=
  Ok (NdArray ((λ b : bool, if b then fl 2 else fl 0) <$> policy)).

Definition demo_ERUPT_score (model : unit) (df : DataFrame) (y : array)
  (policy : list bool) : outcome pyfloat :=
  Ok (Fin 1%Qc).

Definition demo_uplift_score (new_df : DataFrame)
  : outcome (list (string * pyfloat)) :=
  Ok [("model", Fin 0%Qc); ("Random", Fin 0%Qc)].

Definition demo_make_scores (interpret : list pyfloat → DataFrame → outcome unit) :=
  make_scores interpret demo_ERUPT_fit demo_predict_proba_1
    demo_ERUPT_weights demo_ERUPT_score demo_uplift_score demo_uplift_score
    float64_mean.

Definition demo_table : DataFrame :=
  mkDataFrame [0; 1; 2]%Z
    [ ("treated", [PyInt 0; PyInt 1; PyInt 1]);
      ("outcome", [fl 1; fl 2; fl 0]);
      ("p", replicate 3 (PyFloat (Fin (Q2Qc (1 # 2)))));
      ("policy", [PyBool true; PyBool false; PyBool false]);
      ("weights", [fl 2; fl 0; fl 0]) ].

Lemma demo_make_scores_fails_interpreter :
  demo_make_scores demo_interpret_fails demo_estimate demo_df demo_cate None
  = Ok (mkScores (Fin 1%Qc) (Fin 0%Qc) (Fin 0%Qc) (PyInt 0) (Fin 0%Qc) None
          demo_table).
Proof.
  apply make_scores_Ok.
  exists (PyStr "treatment"), demo_table, (Fin 1%Qc), (Fin 0%Qc), (Fin 0%Qc),
    (PyInt 0).
  repeat split; reflexivity.
Qed.

Section ScoringClaims.

Context {Interp Propensity : Type}.
Variable interpret : list pyfloat → DataFrame → outcome Interp.
Variable ERUPT_fit : pyval → list string → DataFrame → outcome Propensity.
Variable predict_proba_1 : Propensity → DataFrame → outcome (list pyval).
Variable ERUPT_weights : Propensity → DataFrame → list bool → outcome array.
Variable ERUPT_score :
  Propensity → DataFrame → array → list bool → outcome pyfloat.
Variable qini_score : DataFrame → outcome (list (string * pyfloat)).
Variable auuc_score : DataFrame → outcome (list (string * pyfloat)).
Variable np_mean : list pyfloat → pyfloat.

Abbreviation scores_of' := (make_scores interpret ERUPT_fit predict_proba_1
  ERUPT_weights ERUPT_score qini_score auuc_score np_mean).

(** C4: whenever [make_scores] returns, the [values] entry is the per-row
    table it built and has exactly as many rows as the input frame; and
    whenever the table it built has another number of rows, [make_scores]
    raises [AssertionError]. *)
Theorem make_scores_values_rows
  (estimate : CausalEstimate) (df : DataFrame) (cate_estimate : list pyfloat)
  (r_scorer : option (list pyfloat → outcome pyfloat)) :
  (∀ s, scores_of' estimate df cate_estimate r_scorer = Ok s →
        (∃ treatment_name,
           first_treatment_name (_treatment_name (estimator estimate))
           = Ok treatment_name
           ∧ diagnostic_table ERUPT_fit predict_proba_1 ERUPT_weights
               (estimator estimate) treatment_name df cate_estimate
             = Ok (values s))
        ∧ len (values s) = len df)
  ∧ (∀ treatment_name table,
        first_treatment_name (_treatment_name (estimator estimate))
        = Ok treatment_name →
        diagnostic_table ERUPT_fit predict_proba_1 ERUPT_weights
          (estimator estimate) treatment_name df cate_estimate
        = Ok table →
        len table ≠ len df →
        scores_of' estimate df cate_estimate r_scorer
        = Raised (AssertionError "Index weirdness when adding columns!")).
Proof.
  split.
  - intros s Hs. apply make_scores_Ok in Hs
      as (t & table & e & q & a & r & Ht & Htab & Hlen & _ & _ & _ & _ & ->).
    simpl. split; [by exists t|done].
  - intros t table. apply make_scores_assert.
Qed.

(** C6: without a reference scorer, the [r_score] entry of the dictionary
    [make_scores] returns is the integer 0. *)
Theorem make_scores_r_score_none
  (estimate : CausalEstimate) (df : DataFrame) (cate_estimate : list pyfloat)
  (s : Scores Interp) :
  scores_of' estimate df cate_estimate None = Ok s →
  r_score s = PyInt 0.
Proof.
  intros Hs. apply make_scores_Ok in Hs
    as (t & table & e & q & a & r & _ & _ & _ & _ & _ & _ & Hr & ->).
  simpl in *. by injection Hr.
Qed.


(** C8: when the tree interpreter raises, [make_scores] behaves as it would
    with any other interpreter, except that the [intrp] entry is [None]: it
    returns in the same cases, with the same other entries, and otherwise
    raises the same exception, which is never the interpreter's. *)
Theorem make_scores_interpreter_failure
  {Interp' : Type} (interpret' : list pyfloat → DataFrame → outcome Interp')
  (estimate : CausalEstimate) (df : DataFrame) (cate_estimate : list pyfloat)
  (r_scorer : option (list pyfloat → outcome pyfloat)) (e : exn) :
  interpret cate_estimate df = Raised e →
  scores_of' estimate df cate_estimate r_scorer
  = with_intrp None
      <$> make_scores interpret' ERUPT_fit predict_proba_1 ERUPT_weights
            ERUPT_score qini_score auuc_score np_mean
            estimate df cate_estimate r_scorer
  ∧ ∀ s, scores_of' estimate df cate_estimate r_scorer = Ok s →
         intrp s = None.
Proof.
  intros Hi.
  assert (fit_interpreter interpret (estimator estimate) df cate_estimate
          = None) as Hnone.
  { unfold fit_interpreter. by rewrite Hi. }
  split.
  - unfold make_scores. cbv zeta. rewrite Hnone.
    repeat match goal with
    | |- context [mbind _ ?m] =>
        destruct m; cbn [mbind outcome_bind fmap outcome_fmap]; try done
    end.
  - intros s Hs. apply make_scores_Ok in Hs
      as (t & table & e' & q & a & r & _ & _ & _ & _ & _ & _ & _ & ->).
    by simpl.
Qed.

End ScoringClaims.

Lemma make_scores_values_rows_witness :
  (len (values (mkScores (Fin 1%Qc) (Fin 0%Qc) (Fin 0%Qc) (PyInt 0) (Fin 0%Qc)
                  (@None (unit * list string)) demo_table)) = len demo_df)
  ∧ demo_make_scores demo_interpret_fails demo_estimate demo_df_no_rows
      [Fin (Qc_of_Z 1)] None
    = Raised (AssertionError "Index weirdness when adding columns!").
Proof.
  split.
  - eapply (make_scores_values_rows demo_interpret_fails demo_ERUPT_fit
              demo_predict_proba_1 demo_ERUPT_weights demo_ERUPT_score
              demo_uplift_score demo_uplift_score float64_mean
             demo_estimate demo_df
              demo_cate None).
    exact demo_make_scores_fails_interpreter.
  - eapply (make_scores_values_rows demo_interpret_fails demo_ERUPT_fit
              demo_predict_proba_1 demo_ERUPT_weights demo_ERUPT_score
              demo_uplift_score demo_uplift_score float64_mean
             demo_estimate
              demo_df_no_rows [Fin (Qc_of_Z 1)] None).
    + reflexivity.
    + reflexivity.
    + vm_compute. lia.
Defined.

Lemma make_scores_r_score_none_witness :
  r_score (mkScores (Fin 1%Qc) (Fin 0%Qc) (Fin 0%Qc) (PyInt 0) (Fin 0%Qc)
             (@None (unit * list string)) demo_table)
  = PyInt 0.
Proof.
  apply (make_scores_r_score_none demo_interpret_fails demo_ERUPT_fit
           demo_predict_proba_1 demo_ERUPT_weights demo_ERUPT_score
           demo_uplift_score demo_uplift_score float64_mean
             demo_estimate demo_df demo_cate).
  exact demo_make_scores_fails_interpreter.
Defined.

(** A vector of mixed sign whose mean is 2. *)
Definition demo_predictions : list Qc := [Qc_of_Z 5; Qc_of_Z (-2); Qc_of_Z 3].


(** Three predictions that are float64 values, each the largest power of
    two a float64 holds. *)
Definition huge_predictions : list Qc :=
  [Qc_of_Z (2 ^ 1023); Qc_of_Z (2 ^ 1023); Qc_of_Z (2 ^ 1023)].


Lemma make_scores_interpreter_failure_witness :
  demo_make_scores demo_interpret_fails demo_estimate demo_df demo_cate None
  = with_intrp None
      <$> demo_make_scores demo_interpret_works demo_estimate demo_df
            demo_cate None
  ∧ ∀ s, demo_make_scores demo_interpret_fails demo_estimate demo_df
           demo_cate None = Ok s →
         intrp s = None.
Proof.
  apply (make_scores_interpreter_failure demo_interpret_fails demo_ERUPT_fit
           demo_predict_proba_1 demo_ERUPT_weights demo_ERUPT_score
           demo_uplift_score demo_uplift_score float64_mean
           demo_interpret_works
           demo_estimate demo_df demo_cate None
           (ValueError "degenerate predictions")).
  reflexivity.
Defined.

(** With a working interpreter the same run returns the artifact; with the
    failing one every other entry is unchanged. *)
Example demo_make_scores_works_interpreter :
  demo_make_scores demo_interpret_works demo_estimate demo_df demo_cate None
  = Ok (mkScores (Fin 1%Qc) (Fin 0%Qc) (Fin 0%Qc) (PyInt 0) (Fin 0%Qc)
          (Some ((), ["x"])) demo_table).
Proof.
  apply make_scores_Ok.
  exists (PyStr "treatment"), demo_table, (Fin 1%Qc), (Fin 0%Qc), (Fin 0%Qc),
    (PyInt 0).
  repeat split; reflexivity.
Qed.

(** ** The orchestrator: how the methods change [self] *)

Ltac run_M :=
  unfold log; unfold mbind, M_bind, mret, M_ret, get_self, modify, lift, raise;
  unfold attr; cbn beta iota.

(** One step of a computation whose result is being inverted. *)
Ltac step_M :=
  match goal with
  | |- match ?o with Ok _ => _ | Raised _ => _ end = _ → _ =>
      destruct o eqn:?; cbn beta iota
  | |- (let (_, _) := ?p in _) = _ → _ =>
      destruct p eqn:?; cbn beta iota
  | |- (let (_, _) := ?p in _) _ = _ → _ =>
      destruct p eqn:?; cbn beta iota
  end.

Section OrchestratorFacts.

Context {Interp Propensity : Type} `{W : Collaborators Interp Propensity}.

Implicit Types self : AutoCausality Interp.

Lemma set_events_id self : set_events (events self ++ []) self = self.
Proof. destruct self. unfold set_events. simpl. by rewrite app_nil_r. Qed.

Lemma _compute_metrics_state estimate self r self' :
  _compute_metrics estimate self = (r, self') → self' = self.
Proof.
  unfold _compute_metrics. run_M. repeat step_M; by intros [= _ <-].
Qed.

(** A trial only adds to the log: nothing if it stops before calling the
    estimator, else the one call. *)
Lemma _estimate_effect_state config self r self' :
  _estimate_effect config self = (r, self') →
  ∃ new, self' = set_events (events self ++ new) self
    ∧ match estimator_cfg self, estimator_name self, causal_model self with
      | Some cfg, Some name, Some _ =>
          new = [EstimateEffect name (params_to_tune (init_params cfg) config)]
      | _, _, _ => new = [] ∧ ∃ e, r = Raised e
      end.
Proof.
  unfold _estimate_effect. run_M.
  destruct (estimator_cfg self) as [cfg|]; cbn beta iota;
    [|intros [= <- <-]; exists []; rewrite set_events_id; eauto].
  destruct (estimator_name self) as [name|]; cbn beta iota;
    [|intros [= <- <-]; exists []; rewrite set_events_id; eauto].
  destruct (causal_model self) as [model|]; cbn beta iota;
    [|intros [= <- <-]; exists []; rewrite set_events_id; eauto].
  intros H. eexists. split; [|reflexivity]. revert H.
  step_M; [|by intros [= _ <-]].
  step_M. match goal with H : _compute_metrics _ _ = _ |- _ =>
    apply _compute_metrics_state in H as -> end.
  repeat step_M; by intros [= _ <-].
Qed.

(** The attributes the loop of [fit] never assigns. *)
Definition same_inputs self self' : Prop :=
  _settings self' = _settings self
  ∧ estimator_list self' = estimator_list self
  ∧ data_df self' = data_df self
  ∧ train_df self' = train_df self
  ∧ test_df self' = test_df self
  ∧ causal_model self' = causal_model self
  ∧ identified_estimand self' = identified_estimand self
  ∧ r_scorer self' = r_scorer self
  ∧ trained_estimators_dict self' = trained_estimators_dict self.

Lemma same_inputs_refl self : same_inputs self self.
Proof. by repeat split. Qed.

Lemma same_inputs_trans self1 self2 self3 :
  same_inputs self1 self2 → same_inputs self2 self3 → same_inputs self1 self3.
Proof.
  unfold same_inputs. intros (?&?&?&?&?&?&?&?&?) (?&?&?&?&?&?&?&?&?).
  repeat split; congruence.
Qed.

Lemma record_result_state name last_result self r self' :
  record_result name last_result self = (r, self') →
  same_inputs self self'
  ∧ events self' = events self
  ∧ tune_results self' = tune_results self
  ∧ ∀ k, k ≠ name →
         PyDict.get k (scores self') = PyDict.get k (scores self).
Proof.
  unfold record_result. run_M.
  repeat first
    [ step_M
    | match goal with
      | |- (if ?d then _ else _) _ = _ → _ => destruct d; cbn beta iota
      end ];
  intros [= _ <-]; (split; [by repeat split|]); (do 2 (split; [done|]));
  intros k Hk; simpl; by rewrite ?PyDictFacts.get_set_ne.
Qed.

Lemma search_estimator_state name cfg self r self' :
  search_estimator name cfg self = (r, self') →
  same_inputs self self'
  ∧ estimates self' = estimates self
  ∧ full_scores self' = full_scores self
  ∧ (∀ k, k ≠ name →
          PyDict.get k (scores self') = PyDict.get k (scores self))
  ∧ if decide (search_space cfg = ∅) then
      match tune_results self with
      | None => ∃ e, r = Raised e
      | Some found =>
          tune_results self' = Some (<[name := Some ∅]> found)
          ∧ scores self' = scores self
          ∧ ∃ new, events self' = events self ++ new
              ∧ match estimator_cfg self, estimator_name self,
                      causal_model self with
                | Some cfg', Some name', Some _ =>
                    new = [EstimateEffect name'
                             (params_to_tune (init_params cfg')
                                (init_params cfg))]
                | _, _, _ => new = [] ∧ ∃ e, r = Raised e
                end
      end
    else
      events self' = events self ++ [TuneRun (search_space cfg)]
                     ++ match r with
                        | Ok None =>
                            [Printed ("OPTIMIZATION FAILED FOR " +:+ name)]
                        | _ => []
                        end
      ∧ match tune_run (_tune_with_config self) (search_space cfg)
                (metric (_settings self)) (tuner (_settings self)),
              tune_results self with
        | Raised e, _ =>
            r = Raised e
            ∧ tune_results self' = tune_results self
            ∧ scores self' = scores self
        | Ok results, None => ∃ e, r = Raised e
        | Ok results, Some found =>
            tune_results self'
            = Some (<[name := results_best_config results]> found)
            ∧ match results_get_best_trial results with
              | None =>
                  r = Ok None
                  ∧ scores self' = PyDict.set name INone (scores self)
              | Some last_result =>
                  r = Ok (Some last_result) ∧ scores self' = scores self
              end
        end.
Proof.
  unfold search_estimator.
  destruct (decide (search_space cfg = ∅)) as [Hempty|Hspace]; run_M.
  - destruct (tune_results self) as [found|] eqn:Hfound; cbn beta iota;
      [|intros [= <- <-]; repeat split; eauto].
    step_M.
    match goal with H : _estimate_effect _ _ = _ |- _ =>
      apply _estimate_effect_state in H as (new & -> & Hnew) end.
    simpl in Hnew.
    repeat step_M; intros [= <- <-];
      (split; [by repeat split|]); simpl; (do 5 (split; [done|]));
      exists new; (split; [done|]);
      destruct (estimator_cfg self), (estimator_name self),
        (causal_model self); try done;
      destruct Hnew as [-> [? Hr]]; [discriminate Hr || eauto ..].
  - destruct (tune_run _ _ _ _) as [results|e]; cbn beta iota;
      [|intros [= <- <-]; split; [by repeat split|]; simpl;
        destruct (tune_results self); by repeat split].
    change (tune_results (set_events _ self)) with (tune_results self).
    destruct (tune_results self) as [found|]; cbn beta iota;
      [|intros [= <- <-]; repeat split; eauto].
    destruct (results_get_best_trial results); cbn beta iota;
      intros [= <- <-]; (split; [by repeat split|]); simpl.
    + by repeat split.
    + do 2 (split; [done|]). split; [by intros; rewrite PyDictFacts.get_set_ne|].
      split; [by rewrite <-app_assoc|]. by repeat split.
Qed.

(** What one round of the loop does to [self]. *)
Lemma fit_estimator_state name self r self' :
  fit_estimator name self = (r, self') →
  same_inputs self self'
  ∧ (∀ k, k ≠ name →
          PyDict.get k (scores self') = PyDict.get k (scores self))
  ∧ match cfg_method_params name, tune_results self with
    | Ok cfg, Some found =>
        ∃ new found',
          events self' = events self ++ new
          ∧ tune_results self' = Some found'
          ∧ (∀ k, k ≠ name → found' !! k = found !! k)
          ∧ if decide (search_space cfg = ∅) then
              found' !! name = Some (Some ∅)
              ∧ match causal_model self with
                | Some _ =>
                    new = [EstimateEffect name
                             (params_to_tune (init_params cfg)
                                (init_params cfg))]
                | None => new = [] ∧ ∃ e, r = Raised e
                end
            else
              match tune_run
                      (_tune_with_config
                         (set_estimator_cfg (Some cfg)
                            (set_estimator_name (Some name) self)))
                      (search_space cfg) (metric (_settings self))
                      (tuner (_settings self)) with
              | Raised e =>
                  r = Raised e ∧ new = [TuneRun (search_space cfg)]
              | Ok results =>
                  found' !! name = Some (results_best_config results)
                  ∧ match results_get_best_trial results with
                    | None =>
                        r = Ok ()
                        ∧ new = [TuneRun (search_space cfg);
                                 Printed ("OPTIMIZATION FAILED FOR " +:+ name)]
                        ∧ scores self' = PyDict.set name INone (scores self)
                        ∧ estimates self' = estimates self
                        ∧ full_scores self' = full_scores self
                    | Some _ => new = [TuneRun (search_space cfg)]
                    end
              end
    | _, _ => ∃ e, r = Raised e
    end.
Proof.
  unfold fit_estimator. run_M.
  destruct (cfg_method_params name) as [cfg|e]; cbn beta iota;
    [|intros [= <- <-]; split; [by repeat split|]; simpl; eauto 10].
  set (self2 := set_estimator_cfg (Some cfg) (set_estimator_name (Some name) self)).
  destruct (search_estimator name cfg self2) as [o self3] eqn:Hsearch.
  apply search_estimator_state in Hsearch
    as (Hin & Hest & Hfull & Hscores & Hsearch).
  change (tune_results self2) with (tune_results self) in Hsearch.
  change (_settings self2) with (_settings self) in Hsearch.
  assert (Hin2 : same_inputs self self2) by (by repeat split).
  intros Hrun.
  assert (same_inputs self self'
    ∧ (∀ k, k ≠ name →
            PyDict.get k (scores self') = PyDict.get k (scores self))
    ∧ events self' = events self3
    ∧ tune_results self' = tune_results self3
    ∧ (o = Ok None ∨ (∃ e, o = Raised e) → self' = self3)
    ∧ match o with
      | Ok None => r = Ok ()
      | Ok (Some _) => True
      | Raised e => r = Raised e
      end) as (Hin' & Hsc' & Hev' & Htr' & Hsame & Hr).
  { revert Hrun. destruct o as [[last_result|]|e]; cbn beta iota.
    - intros (Hin' & Hev & Htr & Hsc)%record_result_state.
      split; [eauto using same_inputs_trans|].
      split; [by intros k Hk; rewrite Hsc, Hscores|].
      do 2 (split; [done|]). split; [|done]. by intros [[=]|[? [=]]].
    - intros [= <- <-]. split; [eauto using same_inputs_trans|]. by repeat split.
    - intros [= <- <-]. split; [eauto using same_inputs_trans|]. by repeat split. }
  clear Hrun.
  do 2 (split; [done|]).
  destruct (decide (search_space cfg = ∅)) as [Hempty|Hspace].
  - destruct (tune_results self) as [found|];
      [|destruct Hsearch as [e ->]; eauto].
    destruct Hsearch as (Htr & _ & new & Hev & Hnew). simpl in Hnew.
    exists new, (<[name:=Some ∅]> found).
    rewrite Hev', Htr'. do 2 (split; [done|]).
    split; [by intros; rewrite lookup_insert_ne|].
    split; [by rewrite lookup_insert_eq|].
    destruct (causal_model self); [done|]. destruct Hnew as [-> [e ->]]. eauto.
  - destruct Hsearch as [Hev Hsearch].
    destruct (tune_run _ _ _ _) as [results|e].
    + destruct (tune_results self) as [found|];
        [|destruct Hsearch as [e ->]; eauto].
      destruct Hsearch as [Htr Hsearch].
      destruct (results_get_best_trial results) as [last_result|];
        destruct Hsearch as [-> Hsc].
      * exists [TuneRun (search_space cfg)],
          (<[name:=results_best_config results]> found).
        rewrite Hev', Htr'. rewrite app_nil_r in Hev. do 2 (split; [done|]).
        split; [by intros; rewrite lookup_insert_ne|].
        by rewrite lookup_insert_eq.
      * rewrite (Hsame (or_introl eq_refl)) in *.
        exists [TuneRun (search_space cfg);
                Printed ("OPTIMIZATION FAILED FOR " +:+ name)],
          (<[name:=results_best_config results]> found).
        do 2 (split; [done|]).
        split; [by intros; rewrite lookup_insert_ne|].
        split; [by rewrite lookup_insert_eq|]. by repeat split.
    + assert (∃ e', o = Raised e') as Hraised
        by (destruct (tune_results self); destruct Hsearch as [-> _]; eauto).
      rewrite (Hsame (or_intror Hraised)) in *.
      destruct (tune_results self) as [found|] eqn:Hfound;
        destruct Hsearch as (-> & Htr & Hsc); [|eauto].
      exists [TuneRun (search_space cfg)], found. rewrite app_nil_r in Hev.
      by repeat split.
Qed.

(** The logged estimator calls made for one estimator name. *)
Definition is_trial_of (name : string) (ev : event) : Prop :=
  match ev with
  | EstimateEffect method_name _ => method_name = name
  | _ => False
  end.

Global Instance is_trial_of_dec name ev : Decision (is_trial_of name ev).
Proof. destruct ev; simpl; apply _. Defined.

Lemma for_M_cons {S A} (x : A) (l : list A) (body : A → M S unit) (s : S) :
  for_M (x :: l) body s
  = match body x s with
    | (Ok _, s1) => for_M l body s1
    | (Raised e, s1) => (Raised e, s1)
    end.
Proof. reflexivity. Qed.

Lemma for_M_Ok_cons {S A} (x : A) (l : list A) (body : A → M S unit)
  (s s' : S) :
  for_M (x :: l) body s = (Ok (), s') →
  ∃ s1, body x s = (Ok (), s1) ∧ for_M l body s1 = (Ok (), s').
Proof.
  rewrite for_M_cons. destruct (body x s) as [[[]|e] s1]; [|done].
  intros H. by exists s1.
Qed.

(** A round that returns: what it logged and what it recorded. *)
Lemma fit_estimator_Ok name self self' found :
  fit_estimator name self = (Ok (), self') →
  tune_results self = Some found →
  same_inputs self self'
  ∧ (∀ k, k ≠ name →
          PyDict.get k (scores self') = PyDict.get k (scores self))
  ∧ ∃ cfg new found',
      cfg_method_params name = Ok cfg
      ∧ events self' = events self ++ new
      ∧ tune_results self' = Some found'
      ∧ (∀ k, k ≠ name → found' !! k = found !! k)
      ∧ (∀ other, other ≠ name → filter (is_trial_of other) new = [])
      ∧ if decide (search_space cfg = ∅) then
          found' !! name = Some (Some ∅)
          ∧ new = [EstimateEffect name
                     (params_to_tune (init_params cfg) (init_params cfg))]
        else
          filter (is_trial_of name) new = []
          ∧ ∃ self2 results,
              estimator_name self2 = Some name
              ∧ tune_run (_tune_with_config self2) (search_space cfg)
                  (metric (_settings self2)) (tuner (_settings self2))
                = Ok results
              ∧ (results_get_best_trial results = None →
                 scores self' = PyDict.set name INone (scores self)
                 ∧ estimates self' = estimates self
                 ∧ full_scores self' = full_scores self).
Proof.
  intros (Hin & Hsc & Hstep)%fit_estimator_state Hfound.
  do 2 (split; [done|]). rewrite Hfound in Hstep.
  destruct (cfg_method_params name) as [cfg|e];
    [|by destruct Hstep as [? ?]].
  destruct Hstep as (new & found' & Hev & Htr & Hother & Hstep).
  exists cfg, new, found'. do 4 (split; [done|]).
  destruct (decide (search_space cfg = ∅)) as [Hempty|Hspace].
  - destruct Hstep as [Hname Hnew].
    destruct (causal_model self); [|by destruct Hnew as [_ [? ?]]].
    subst new. split; [|done]. intros other Hne.
    rewrite filter_cons_False; [done|]. simpl. congruence.
  - destruct (tune_run _ _ _ _) as [results|e] eqn:Hrun;
      [|by destruct Hstep as [? _]].
    destruct Hstep as [Hname Hstep].
    assert (∀ other, filter (is_trial_of other) new = []) as Hnone.
    { intros other.
      destruct (results_get_best_trial results);
        [subst new|destruct Hstep as (_ & -> & _)]; done. }
    do 2 (split; [done|]). eexists _, results. split; [|split; [exact Hrun|]].
    { reflexivity. }
    intros Hbest. rewrite Hbest in Hstep. by destruct Hstep as (_ & _ & ?).
Qed.

(** The single trial of an estimator without a search space. *)
Definition own_trial (name : string) (cfg : Descriptor) : event :=
  EstimateEffect name (params_to_tune (init_params cfg) (init_params cfg)).

(** Every tuning run for the estimator [name] ends without a best trial. *)
Definition all_trials_fail (name : string) (cfg : Descriptor) : Prop :=
  ∀ self results,
    estimator_name self = Some name →
    tune_run (_tune_with_config self) (search_space cfg)
      (metric (_settings self)) (tuner (_settings self)) = Ok results →
    results_get_best_trial results = None.

(** The loop of [fit], when it runs to its end. *)
Lemma fit_loop_Ok (l : list string) self self' found :
  for_M l fit_estimator self = (Ok (), self') →
  tune_results self = Some found →
  same_inputs self self'
  ∧ (∀ k, k ∉ l →
          PyDict.get k (scores self') = PyDict.get k (scores self))
  ∧ ∃ new found',
      events self' = events self ++ new
      ∧ tune_results self' = Some found'
      ∧ (∀ k, k ∉ l → found' !! k = found !! k)
      ∧ ∀ name cfg,
          cfg_method_params name = Ok cfg →
          if decide (search_space cfg = ∅) then
            filter (is_trial_of name) new
            = (n ← l; if decide (n = name) then [own_trial name cfg] else [])
            ∧ (name ∈ l → found' !! name = Some (Some ∅))
          else
            filter (is_trial_of name) new = []
            ∧ (all_trials_fail name cfg → name ∈ l →
               PyDict.get name (scores self') = Some INone).
Proof.
  revert self found. induction l as [|n l IH]; intros self found.
  - intros [= <-] Hfound. split; [apply same_inputs_refl|]. split; [done|].
    exists [], found. rewrite app_nil_r. do 3 (split; [done|]).
    intros name cfg _. case_decide; (split; [done|]).
    + by intros ?%elem_of_nil.
    + by intros _ ?%elem_of_nil.
  - intros (self1 & Hstep & Hloop)%for_M_Ok_cons Hfound.
    destruct (fit_estimator_Ok _ _ _ _ Hstep Hfound)
      as (Hin1 & Hsc1 & cfg1 & new1 & found1 & Hcfg1 & Hev1 & Htr1 & Hoth1
          & Hnone1 & Hbranch1).
    destruct (IH _ _ Hloop Htr1)
      as (Hin2 & Hsc2 & new2 & found2 & Hev2 & Htr2 & Hoth2 & Hnames).
    split; [eauto using same_inputs_trans|]. split.
    { intros k [Hk1 Hk2]%not_elem_of_cons. by rewrite Hsc2, Hsc1. }
    exists (new1 ++ new2), found2. split; [by rewrite Hev2, Hev1, app_assoc|].
    split; [done|]. split.
    { intros k [Hk1 Hk2]%not_elem_of_cons. by rewrite Hoth2, Hoth1. }
    intros name cfg Hcfg. specialize (Hnames name cfg Hcfg).
    rewrite filter_app. cbn [mbind list_bind].
    destruct (decide (n = name)) as [->|Hne].
    + rewrite Hcfg in Hcfg1. injection Hcfg1 as <-.
      destruct (decide (search_space cfg = ∅)) as [Hempty|Hspace].
      * destruct Hbranch1 as [Hf1 ->]. destruct Hnames as [-> Hf2].
        split; [by rewrite filter_cons_True|].
        intros _. destruct (decide (name ∈ l)); [by apply Hf2|].
        by rewrite Hoth2.
      * destruct Hbranch1 as (-> & self2 & results & Hname & Hrun & Hfail).
        destruct Hnames as [-> Hsc]. split; [done|].
        intros Hall _. destruct (decide (name ∈ l)); [by apply Hsc|].
        rewrite Hsc2 by done. apply Hall in Hrun; [|done].
        destruct (Hfail Hrun) as (-> & _). apply PyDictFacts.get_set_eq.
    + rewrite (Hnone1 name) by done.
      case_decide; destruct Hnames as [-> Hin]; (split; [done|]).
      * intros [?|?]%elem_of_cons; [done|by apply Hin].
      * intros Hall [?|?]%elem_of_cons; [done|by apply Hin].
Qed.

Lemma save_model_raises path name self :
  ∃ e self', save_model path name self = (Raised e, self').
Proof.
  unfold save_model. run_M.
  destruct (open_snapshot path name); cbn beta iota; [|eauto].
  destruct (best_model_for_estimator _ name); cbn beta iota; eauto.
Qed.

Lemma save_loop_Ok path (l : list string) self self' :
  for_M l (save_model path) self = (Ok (), self') → self' = self.
Proof.
  destruct l as [|name l]; [by intros [= <-]|].
  rewrite for_M_cons.
  by destruct (save_model_raises path name self) as (e & s & ->).
Qed.

(** A call of [fit] that returns has run the loop to its end, from a state
    that differs from the one before the call in the data, the causal model
    and an empty [tune_results]. *)
Lemma fit_Ok data treatment outcome_ common_causes effect_modifiers self self' :
  fit data treatment outcome_ common_causes effect_modifiers self
  = (Ok (), self') →
  ∃ self1,
    scores self1 = scores self
    ∧ events self1 = events self
    ∧ estimator_list self1 = estimator_list self
    ∧ _settings self1 = _settings self
    ∧ tune_results self1 = Some ∅
    ∧ for_M (estimator_list self) fit_estimator self1 = (Ok (), self').
Proof.
  unfold fit. run_M. step_M; [|done]. step_M.
  change (_settings (set_data_df data self)) with (_settings self).
  change (estimator_list (set_data_df data self)) with (estimator_list self).
  destruct (test_size (_settings self)) as [n|]; cbn beta iota;
    [destruct (df_sample _ n) as [test|]; cbn beta iota; [|done]|];
    repeat (step_M; try done);
    (destruct (truthy _);
      [intros ->%save_loop_Ok|intros [= <-]]);
    match goal with
    | H : for_M _ fit_estimator ?s = (Ok ?u, _) |- _ =>
        exists s; destruct u; by repeat split
    end.
Qed.

Lemma for_each_Ok_fmap {A B : Type} (g : A → B) (l : list A) :
  for_each (λ x, Ok (g x)) l = Ok (g <$> l).
Proof.
  induction l as [|x l IH]; [done|]. cbn [for_each mbind outcome_bind].
  by rewrite IH.
Qed.

(** [best_config_per_estimator] once [tune_results] is assigned: the
    recorded results of the estimators of the list. *)
Lemma best_config_per_estimator_found self found :
  tune_results self = Some found →
  best_config_per_estimator self
  = Ok (fold_left
          (λ d estimator,
             match found !! estimator with
             | Some config => <[estimator := config]> d
             | None => d
             end)
          (estimator_list self) ∅).
Proof.
  intros Hfound. unfold best_config_per_estimator. rewrite Hfound.
  cbn [attr mbind outcome_bind].
  rewrite (for_each_Ok_fmap (λ estimator, (estimator, found !! estimator))).
  cbn [mbind outcome_bind]. f_equal.
  generalize (∅ : gmap string (option (gmap string pyval))).
  induction (estimator_list self) as [|n l IH]; intros d; [done|].
  cbn [fmap list_fmap fold_left fst snd]. apply IH.
Qed.

(** Before [tune_results] is assigned, the first estimator of the list makes
    the comprehension raise; an empty list gives an empty dictionary. *)
Lemma best_config_per_estimator_unset self :
  tune_results self = None →
  best_config_per_estimator self
  = match estimator_list self with
    | [] => Ok ∅
    | _ :: _ => Raised (AttributeError "tune_results")
    end.
Proof.
  intros Hunset. unfold best_config_per_estimator. rewrite Hunset.
  by destruct (estimator_list self).
Qed.

End OrchestratorFacts.

(** ** A concrete search

    Two estimators: a linear DML learner with a search space, every trial of
    which fails because the estimator raises, and an S-learner without a
    search space, whose single trial succeeds. *)

Definition LinearDML : string := "backdoor.econml.dml.LinearDML".
Definition SLearner : string := "backdoor.econml.metalearners.SLearner".

Definition demo_method_params (name : string) : outcome Descriptor :=
  if decide (name = LinearDML) then
    Ok (mkDescriptor
          {[ "model_y" := PyObject 1; "fit_cate_intercept" := PyBool true ]}
          {[ "fit_cate_intercept" := PyList [PyBool true; PyBool false] ]})
  else if decide (name = SLearner) then
    Ok (mkDescriptor {[ "overall_model" := PyObject 1 ]} ∅)
  else Raised (KeyError name).

Definition demo_estimate_effect (model : nat) (estimand : option nat)
  (method_name : string) (method_params : gmap string pyval)
  : outcome CausalEstimate :=
  if decide (method_name = LinearDML) then
    Raised (ExternalError "singular matrix")
  else Ok demo_estimate.

(** A tuner that tries the one configuration [{}]. *)
Definition demo_tune_run
  (trainable : gmap string pyval → outcome (gmap string (item unit)))
  (space : gmap string pyval) (metric : string) (tuner : TunerSettings)
  : outcome (Analysis unit) :=
  match trainable ∅ with
  | Ok last_result => Ok (mkAnalysis (Some ∅) (Some last_result))
  | Raised _ => Ok (mkAnalysis None None)
  end.

Global Instance demo_world : Collaborators unit unit := {|
  cfg_estimators := demo_registry;
  cfg_method_params := demo_method_params;
  clean_config := id;
  train_test_split := λ data _, Ok (data, data);
  df_sample := λ df _, Ok df;
  CausalModel := λ _ _ _ _ _, Ok 1;
  identify_effect := λ _, Ok 2;
  estimate_effect := demo_estimate_effect;
  econml_effect := λ _ _, Ok demo_cate;
  wrapper_effect := λ _ _, Ok demo_cate;
  make_r_scorer := λ _ _ _ _ _ _,
    Ok (mkRScoreWrapper (λ _, Ok (Fin 0%Qc)) (λ _, Ok (Fin 0%Qc)));
  interpret := demo_interpret_fails;
  ERUPT_fit := demo_ERUPT_fit;
  predict_proba_1 := demo_predict_proba_1;
  ERUPT_weights := demo_ERUPT_weights;
  ERUPT_score := demo_ERUPT_score;
  qini_score := demo_uplift_score;
  auuc_score := demo_uplift_score;
  np_mean := float64_mean;
  tune_run := demo_tune_run;
  open_snapshot := λ _ _, Ok ()
|}.

Definition demo_settings : Settings :=
  mkSettings (mkTunerSettings 60 10 3 false) "erupt"
    ["qini"; "auc"; "ate"; "r_score"]
    (PyList [PyStr ".LinearDML"; PyStr "SLearner"])
    (Q2Qc (4 # 5)) None None.

(** The object after [__init__]. *)
Definition demo_self : AutoCausality unit :=
  mkAutoCausality demo_settings ∅ [] ∅ [LinearDML; SLearner] empty_frame
    None None None None None None None None ∅ [].

Example demo_init : __init__ None demo_settings = Ok demo_self.
Proof. reflexivity. Qed.

(** The constructor with a request that is not a list: an object with every
    available estimator and a warning, no exception. *)
Example demo_init_invalid_request :
  __init__ None
    (mkSettings (mkTunerSettings 60 10 3 false) "erupt" [] (PyInt 5)
       (Q2Qc (4 # 5)) None None)
  = Ok (mkAutoCausality
          (mkSettings (mkTunerSettings 60 10 3 false) "erupt" [] (PyInt 5)
             (Q2Qc (4 # 5)) None None)
          ∅ [] ∅ (available_estimators demo_registry) empty_frame
          None None None None None None None None ∅
          [Warned "invalid estimator list requested, continuing with defaults"]).
Proof. reflexivity. Qed.

Definition demo_fit : outcome unit * AutoCausality unit :=
  fit demo_df "treatment" "outcome" [] ["x"] demo_self.

Definition demo_after : AutoCausality unit := demo_fit.2.

Lemma demo_fit_returns :
  fit demo_df "treatment" "outcome" [] ["x"] demo_self = (Ok (), demo_after).
Proof. by vm_compute. Qed.

(** ** The orchestrator: the claims *)

Section OrchestratorClaims.

Context {Interp Propensity : Type} `{W : Collaborators Interp Propensity}.

Implicit Types self : AutoCausality Interp.

Lemma best_config_lookup self found name config :
  tune_results self = Some found →
  found !! name = Some config →
  name ∈ estimator_list self →
  ∃ per_estimator,
    best_config_per_estimator self = Ok per_estimator
    ∧ per_estimator !! name = Some config.
Proof.
  intros Hfound Hname Hin.
  rewrite (best_config_per_estimator_found self found Hfound).
  eexists. split; [done|].
  generalize (∅ : gmap string (option (gmap string pyval))).
  revert Hin. induction (estimator_list self) as [|n l IH]; intros Hin d.
  { by apply elem_of_nil in Hin. }
  cbn [fold_left]. destruct (decide (name ∈ l)) as [Hl|Hl]; [by apply IH|].
  apply elem_of_cons in Hin as [->|?]; [|done]. rewrite Hname.
  assert (Hkeep : ∀ d' : gmap string (option (gmap string pyval)),
    d' !! n = Some config →
    fold_left (λ d estimator,
                 match found !! estimator with
                 | Some config => <[estimator:=config]> d
                 | None => d
                 end) l d' !! n = Some config).
  { clear IH. induction l as [|m l IH]; intros d' Hd'; [done|].
    cbn [fold_left]. apply not_elem_of_cons in Hl as [Hne Hl].
    apply IH; [done|]. destruct (found !! m); [|done].
    by rewrite lookup_insert_ne. }
  apply Hkeep. by rewrite lookup_insert_eq.
Qed.


(** C5: when [fit] returns, an estimator of the (duplicate-free) list whose
    search space is empty has had exactly one estimator call, made with its
    [init_params] as the configuration, and its entry in
    [best_config_per_estimator] is the empty mapping; the round of the loop
    for such an estimator makes that one call and records the empty mapping
    whether or not the trial succeeds. *)
Theorem fit_empty_search_space_single_trial (name : string) (cfg : Descriptor) :
  cfg_method_params name = Ok cfg →
  search_space cfg = ∅ →
  (∀ data treatment outcome_ common_causes effect_modifiers self self',
     fit data treatment outcome_ common_causes effect_modifiers self
     = (Ok (), self') →
     name ∈ estimator_list self →
     NoDup (estimator_list self) →
     ∃ new per_estimator,
       events self' = events self ++ new
       ∧ filter (is_trial_of name) new
         = [EstimateEffect name
              (params_to_tune (init_params cfg) (init_params cfg))]
       ∧ best_config_per_estimator self' = Ok per_estimator
       ∧ per_estimator !! name = Some (Some ∅))
  ∧ (∀ self found model r self1,
       tune_results self = Some found →
       causal_model self = Some model →
       fit_estimator name self = (r, self1) →
       events self1
       = events self
         ++ [EstimateEffect name
               (params_to_tune (init_params cfg) (init_params cfg))]
       ∧ tune_results self1 = Some (<[name := Some ∅]> found)).
Proof.
  intros Hcfg Hempty. split.
  - intros data treatment outcome_ common_causes effect_modifiers self self'.
    intros (self1 & _ & Hev & Hlist & _ & Htr & Hloop)%fit_Ok Hin Hnodup.
    destruct (fit_loop_Ok _ _ _ _ Hloop Htr)
      as (Hsame & _ & new & found' & Hev' & Htr' & _ & Hnames).
    specialize (Hnames name cfg Hcfg). rewrite decide_True in Hnames by done.
    destruct Hnames as [Htrials Hconfig].
    destruct (best_config_lookup self' found' name (Some ∅))
      as (per_estimator & Hper & Hlookup); [done|by apply Hconfig|..].
    { destruct Hsame as (_ & -> & _). by rewrite Hlist. }
    exists new, per_estimator. rewrite Hev', Hev. split; [done|].
    split; [|done]. rewrite Htrials. clear -Hin Hnodup.
    induction (estimator_list self) as [|n l IH]; [by apply elem_of_nil in Hin|].
    apply NoDup_cons in Hnodup as [Hn Hnodup]. cbn [mbind list_bind].
    destruct (decide (n = name)) as [->|Hne].
    + assert ((l ≫= λ n, if decide (n = name)
                          then [own_trial name cfg] else []) = []) as ->; [|done].
      clear -Hn. induction l as [|m l IH]; [done|].
      apply not_elem_of_cons in Hn as [Hne Hn]. cbn [mbind list_bind].
      rewrite decide_False by done. by apply IH.
    + apply elem_of_cons in Hin as [?|Hin]; [done|]. by apply IH.
  - intros self found model r self1 Hfound Hmodel Hstep.
    pose proof (fit_estimator_state _ _ _ _ Hstep) as (_ & _ & Hst).
    rewrite Hcfg, Hfound in Hst.
    destruct Hst as (new & found' & Hev & Htr & Hother & Hst).
    rewrite decide_True, Hmodel in Hst by done. destruct Hst as [Hname ->].
    split; [done|]. rewrite Htr. f_equal. apply map_eq. intros k.
    destruct (decide (k = name)) as [->|Hne].
    + by rewrite lookup_insert_eq.
    + by rewrite lookup_insert_ne, Hother.
Qed.


End OrchestratorClaims.

(** *** The claims on the concrete search *)

Definition demo_linear_cfg : Descriptor :=
  mkDescriptor
    {[ "model_y" := PyObject 1; "fit_cate_intercept" := PyBool true ]}
    {[ "fit_cate_intercept" := PyList [PyBool true; PyBool false] ]}.

Definition demo_slearner_cfg : Descriptor :=
  mkDescriptor {[ "overall_model" := PyObject 1 ]} ∅.

(** The object as the loop of [fit] finds it. *)
Definition demo_ready : AutoCausality unit :=
  set_tune_results (Some ∅)
    (set_r_scorer
       (Some (mkRScoreWrapper (λ _, Ok (Fin 0%Qc)) (λ _, Ok (Fin 0%Qc))))
       (set_identified_estimand (Some 2)
          (set_causal_model (Some 1)
             (set_test_df (Some demo_df)
                (set_train_df (Some demo_df)
                   (set_data_df demo_df demo_self)))))).

(** Every trial of the linear DML learner raises, whatever the
    configuration. *)
Lemma demo_linear_trials_fail : all_trials_fail LinearDML demo_linear_cfg.
Proof.
  intros self results Hname. cbn [tune_run demo_world]. unfold demo_tune_run.
  assert (∃ e, _tune_with_config self ∅ = Raised e) as [e ->].
  { unfold _tune_with_config, _estimate_effect. run_M. rewrite Hname.
    destruct (estimator_cfg self); cbn beta iota; [|eauto].
    destruct (causal_model self); cbn beta iota; eauto. }
  by intros [= <-].
Qed.

Lemma demo_linear_space : search_space demo_linear_cfg ≠ ∅.
Proof. by vm_compute. Qed.

Lemma demo_linear_params : cfg_method_params LinearDML = Ok demo_linear_cfg.
Proof. by vm_compute. Qed.

Lemma demo_slearner_params : cfg_method_params SLearner = Ok demo_slearner_cfg.
Proof. by vm_compute. Qed.



Lemma fit_empty_search_space_single_trial_witness :
  (∃ new per_estimator,
     events demo_after = events demo_self ++ new
     ∧ filter (is_trial_of SLearner) new
       = [EstimateEffect SLearner
            (params_to_tune (init_params demo_slearner_cfg)
               (init_params demo_slearner_cfg))]
     ∧ best_config_per_estimator demo_after = Ok per_estimator
     ∧ per_estimator !! SLearner = Some (Some ∅))
  ∧ events (fit_estimator SLearner demo_ready).2
    = events demo_ready
      ++ [EstimateEffect SLearner
            (params_to_tune (init_params demo_slearner_cfg)
               (init_params demo_slearner_cfg))]
  ∧ tune_results (fit_estimator SLearner demo_ready).2
    = Some (<[SLearner := Some ∅]> ∅).
Proof.
  destruct (fit_empty_search_space_single_trial SLearner demo_slearner_cfg
              demo_slearner_params eq_refl) as [Hfit Hround].
  split.
  - apply (Hfit demo_df "treatment" "outcome" [] ["x"] demo_self demo_after
             demo_fit_returns).
    + apply list_elem_of_further, list_elem_of_here.
    + by apply (bool_decide_unpack _); vm_compute.
  - apply (Hround demo_ready ∅ 1 (fit_estimator SLearner demo_ready).1);
      [reflexivity|reflexivity|].
    by destruct (fit_estimator SLearner demo_ready).
Defined.

(** A trial of the linear DML learner in the middle of its tuning run. *)
Definition demo_tuning : AutoCausality unit :=
  set_estimator_cfg (Some demo_linear_cfg)
    (set_estimator_name (Some LinearDML) demo_ready).


(** The merged parameters of that trial: the configuration's value for the
    key both have, the fixed value for the other. *)
Example demo_params_to_tune :
  params_to_tune (init_params demo_linear_cfg)
    {[ "fit_cate_intercept" := PyBool false ]}
  = {[ "model_y" := PyObject 1; "fit_cate_intercept" := PyBool false ]}.
Proof. by vm_compute. Qed.

(** C3, at a search in which one estimator failed: the linear DML learner
    has the score [None], the S-learner completed with the score 1, and
    [best_estimator] raises [TypeError] instead of returning the S-learner. *)
Theorem best_estimator_raises_after_failed_estimator :
  fit demo_df "treatment" "outcome" [] ["x"] demo_self = (Ok (), demo_after)
  ∧ best_score_per_estimator demo_after
    = [(LinearDML, INone); (SLearner, IFloat (Fin 1%Qc))]
  ∧ best_estimator demo_after
    = Raised (TypeError "'>' not supported between instances").
Proof.
  split; [exact demo_fit_returns|]. split; [|by vm_compute].
  unfold best_score_per_estimator.
  assert (scores demo_after
          = [(LinearDML, INone); (SLearner, IFloat (Fin (Q2Qc 1)))]) as ->
    by (by vm_compute).
  reflexivity.
Qed.

(** *** [best_estimator] when every estimator completed

    With only finite scores in the mapping, the strict-greater-than scan
    returns the first key that attains the maximum. *)

Definition score_value {Interp : Type} (d : list (string * item Interp))
  (k : string) : Qc :=
  match PyDict.get k d with
  | Some (IFloat (Fin q)) => q
  | _ => 0%Qc
  end.

Lemma max_scan_first_max {Interp : Type} (f : string → Qc)
  (key : string → item Interp) (rest : list string) (best : string) :
  (∀ k, k ∈ best :: rest → key k = IFloat (Fin (f k))) →
  ∃ k pre post,
    max_scan key best rest = Ok k
    ∧ best :: rest = pre ++ k :: post
    ∧ (∀ k', k' ∈ pre → (f k' < f k)%Qc)
    ∧ (∀ k', k' ∈ post → (f k' ≤ f k)%Qc).
Proof.
  revert best. induction rest as [|x rest IH]; intros best Hkey.
  - exists best, [], []. repeat split; by intros k' ?%elem_of_nil.
  - cbn [max_scan]. rewrite (Hkey x), (Hkey best)
      by (rewrite !elem_of_cons; auto).
    cbn [py_gt float_gt mbind outcome_bind].
    destruct (bool_decide (f best < f x)%Qc) eqn:Hgt.
    + apply bool_decide_eq_true in Hgt.
      destruct (IH x) as (k & pre & post & -> & Heq & Hpre & Hpost).
      { intros k Hk. apply Hkey. by apply list_elem_of_further. }
      exists k, (best :: pre), post. split; [done|].
      split; [by rewrite Heq|]. split; [|done].
      intros k' [->|Hk']%elem_of_cons; [|by apply Hpre].
      destruct pre as [|y pre]; injection Heq as <- _; [done|].
      eapply Qclt_trans; [exact Hgt|]. apply Hpre, list_elem_of_here.
    + apply bool_decide_eq_false in Hgt. apply Qcnot_lt_le in Hgt.
      destruct (IH best) as (k & pre & post & -> & Heq & Hpre & Hpost).
      { intros k [->|Hk]%elem_of_cons; apply Hkey; rewrite !elem_of_cons; auto. }
      destruct pre as [|y pre]; injection Heq as <- Heq.
      * exists best, [], (x :: post). split; [done|].
        split; [by rewrite Heq|]. split; [by intros k' ?%elem_of_nil|].
        intros k' [->|Hk']%elem_of_cons; [done|by apply Hpost].
      * exists k, (best :: x :: pre), post. split; [done|].
        split; [by rewrite Heq|]. split; [|done].
        intros k' [->|[->|Hk']%elem_of_cons]%elem_of_cons.
        -- apply Hpre, list_elem_of_here.
        -- eapply Qcle_lt_trans; [exact Hgt|]. apply Hpre, list_elem_of_here.
        -- by apply Hpre, list_elem_of_further.
Qed.

Lemma best_estimator_all_completed {Interp : Type} (self : AutoCausality Interp) :
  scores self ≠ [] →
  (∀ k, k ∈ PyDict.keys (scores self) →
        ∃ q, PyDict.get k (scores self) = Some (IFloat (Fin q))) →
  ∃ k pre post,
    best_estimator self = Ok k
    ∧ PyDict.keys (scores self) = pre ++ k :: post
    ∧ (∀ k', k' ∈ pre →
             (score_value (scores self) k' < score_value (scores self) k)%Qc)
    ∧ (∀ k', k' ∈ post →
             (score_value (scores self) k' ≤ score_value (scores self) k)%Qc).
Proof.
  intros Hne Hfloat. unfold best_estimator, py_max.
  destruct (PyDict.keys (scores self)) as [|best rest] eqn:Hkeys.
  { by destruct (scores self). }
  apply max_scan_first_max. intros k Hk.
  destruct (Hfloat k Hk) as [q Hq]. unfold dict_get, score_value.
  by rewrite Hq.
Qed.

(** * Further properties of estimator-name resolution *)

Lemma verify_estimator_list_strings (estimator_list : pyval) :
  _verify_estimator_list estimator_list = true ↔
  ∃ strings, estimator_list = PyList (PyStr <$> strings).
Proof.
  split.
  - destruct estimator_list as [| | | | |l| |]; try done. simpl. intros Hall.
    assert (∃ strings, l = PyStr <$> strings) as [strings ->];
      [|by eexists].
    induction l as [|v l IH]; [by exists []|].
    simpl in Hall. apply andb_true_iff in Hall as [Hv Hall].
    destruct (IH Hall) as [strings ->].
    destruct v; try done. by exists (s :: strings).
  - intros [strings ->]. apply verify_strings.
Qed.

Lemma available_estimators_subseteq (registry : list string) :
  available_estimators registry ⊆ registry.
Proof.
  intros a Ha. unfold available_estimators in Ha.
  apply list_elem_of_In, filter_In in Ha as [Ha _]. by apply list_elem_of_In.
Qed.

Lemma available_estimators_NoDup (registry : list string) :
  NoDup registry → NoDup (available_estimators registry).
Proof.
  unfold available_estimators.
  induction 1 as [|a l Ha Hl IH]; cbn [List.filter]; [constructor|].
  destruct (existsb (λ e, str_in e a) supported_patterns); [|done].
  constructor; [|done].
  intros Hin. apply Ha.
  apply list_elem_of_In, filter_In in Hin as [Hin _]. by apply list_elem_of_In.
Qed.

(** The truth test of the first [if] raises only for an object with an
    [__eq__] of its own, and then what one of its two tests raises. *)
Lemma is_auto_or_empty_raises (estimator_list : pyval) (e : exn) :
  is_auto_or_empty estimator_list = Raised e
  ↔ ∃ eq_auto eq_empty,
      estimator_list = PyCustom eq_auto eq_empty
      ∧ (eq_auto = Raised e ∨ (eq_auto = Ok false ∧ eq_empty = Raised e)).
Proof.
  split.
  - destruct estimator_list as [| | | | |[|v l]| |[[]|e1] eq_empty];
      try done; cbn [is_auto_or_empty mbind outcome_bind].
    + intros ->. eauto 10.
    + intros [= ->]. eauto 10.
  - intros (eq_auto & eq_empty & -> & [->|[-> ->]]); done.
Qed.

(** The shapes of a result of [_create_estimator_list]: the exception of the
    first truth test, all available estimators with a warning, or the
    de-duplicated matches, which are then not empty. *)
Lemma create_estimator_list_cases (registry : list string)
  (estimator_list : pyval) :
  (∃ e,
     is_auto_or_empty estimator_list = Raised e
     ∧ _create_estimator_list registry estimator_list = Raised e)
  ∨ (∃ warning,
       _create_estimator_list registry estimator_list
       = Ok ([warning], available_estimators registry))
  ∨ (∃ requested,
       estimator_list = PyList (PyStr <$> requested)
       ∧ dedup_first (matches_in_order registry requested) ≠ []
       ∧ _create_estimator_list registry estimator_list
         = Ok ([], dedup_first (matches_in_order registry requested))).
Proof.
  unfold _create_estimator_list.
  destruct (is_auto_or_empty estimator_list) as [[]|e];
    cbn [mbind outcome_bind]; [right; left; eauto| |left; eauto].
  destruct (_verify_estimator_list estimator_list) eqn:Hverify;
    [|right; left; eauto].
  apply verify_estimator_list_strings in Hverify as [requested ->].
  cbn [py_iter mbind outcome_bind].
  rewrite matches_of_strings. cbn [mbind outcome_bind].
  rewrite keys_fromkeys.
  destruct (dedup_first _) as [|x xs] eqn:Hd; [right; left; eauto|].
  right; right. exists requested. by rewrite Hd.
Qed.

(** X1: resolution raises only for a request that is an object with an
    [__eq__] of its own, and then the exception of its first truth test that
    raises; for every other request it returns.  The list it returns lies
    within the available estimators, is empty only when no estimator is
    available at all, and is duplicate-free when the registry is. *)
Theorem create_estimator_list_total (registry : list string)
  (estimator_list : pyval) :
  (∀ e,
     _create_estimator_list registry estimator_list = Raised e
     ↔ ∃ eq_auto eq_empty,
         estimator_list = PyCustom eq_auto eq_empty
         ∧ (eq_auto = Raised e ∨ (eq_auto = Ok false ∧ eq_empty = Raised e)))
  ∧ (∀ warnings resolved,
       _create_estimator_list registry estimator_list = Ok (warnings, resolved) →
       resolved ⊆ available_estimators registry
       ∧ (resolved = [] → available_estimators registry = [])
       ∧ (NoDup registry → NoDup resolved)).
Proof.
  destruct (create_estimator_list_cases registry estimator_list)
    as [(e' & Htest & Hraise)|[[warning Hdefault]|(requested & _ & Hne & Hlist)]].
  - split; [|by rewrite Hraise].
    intros e. rewrite Hraise, <-is_auto_or_empty_raises, Htest.
    split; by intros [= ->].
  - split.
    + intros e. rewrite Hdefault, <-is_auto_or_empty_raises. split; [done|].
      intros Htest. revert Hdefault. unfold _create_estimator_list.
      by rewrite Htest.
    + rewrite Hdefault. intros warnings resolved [= <- <-].
      split; [done|]. split; [done|]. apply available_estimators_NoDup.
  - split.
    + intros e. rewrite Hlist, <-is_auto_or_empty_raises. split; [done|].
      intros Htest. revert Hlist. unfold _create_estimator_list.
      by rewrite Htest.
    + rewrite Hlist. intros warnings resolved [= <- <-].
      split; [|split; [done|]].
      * intros a. rewrite elem_of_dedup_first, elem_of_matches_in_order.
        tauto.
      * intros _. apply NoDup_dedup_first.
Qed.

(** X2: a request made of strings none of which occurs in any available
    estimator is answered with all available estimators and the warning
    "requested estimators not implemented, continuing with defaults". *)
Theorem create_estimator_list_no_match (registry : list string)
  (requested : list string) :
  requested ≠ [] →
  (∀ r a, r ∈ requested → a ∈ available_estimators registry →
          ¬ is_substring r a) →
  _create_estimator_list registry (PyList (PyStr <$> requested))
  = Ok (["requested estimators not implemented, continuing with defaults"],
        available_estimators registry).
Proof.
  intros Hne Hnone. unfold _create_estimator_list.
  destruct requested as [|r rs]; [done|].
  change (is_auto_or_empty (PyList (PyStr <$> r :: rs))) with (Ok false).
  cbn [mbind outcome_bind].
  rewrite verify_strings. cbn [py_iter mbind outcome_bind].
  rewrite matches_of_strings. cbn [mbind outcome_bind]. rewrite keys_fromkeys.
  destruct (dedup_first _) as [|x xs] eqn:Hd; [done|].
  assert (x ∈ dedup_first (matches_in_order registry (r :: rs))) as Hx
    by (rewrite Hd; apply list_elem_of_here).
  apply elem_of_dedup_first, elem_of_matches_in_order in Hx
    as (Ha & r' & Hr' & Hsub).
  by destruct (Hnone r' x).
Qed.

Lemma create_estimator_list_no_match_witness :
  _create_estimator_list demo_registry
    (PyList (PyStr <$> ["linear_regression"; "pasta"]))
  = Ok (["requested estimators not implemented, continuing with defaults"],
        available_estimators demo_registry).
Proof.
  apply create_estimator_list_no_match; [discriminate|].
  intros r a Hr Ha.
  assert (Hdec : Forall
    (λ r, Forall (λ a, ¬ is_substring r a) (available_estimators demo_registry))
    ["linear_regression"; "pasta"]).
  { apply (bool_decide_unpack _). by vm_compute. }
  rewrite Forall_forall in Hdec. apply Hdec in Hr.
  rewrite Forall_forall in Hr. by apply Hr.
Defined.

Lemma dedup_first_app_seen (l extra : list string) :
  (∀ x, x ∈ extra → x ∈ l) → dedup_first (l ++ extra) = dedup_first l.
Proof.
  intros Hextra. rewrite <-!keys_fromkeys. unfold fromkeys.
  rewrite fold_left_app, keys_fold_set. fold (fromkeys l).
  rewrite keys_fromkeys.
  assert (filter (λ y, y ∉ dedup_first l) (dedup_first extra) = []) as ->;
    [|by rewrite app_nil_r].
  assert (∀ x, x ∈ dedup_first extra → x ∈ dedup_first l) as Hseen.
  { intros x. rewrite !elem_of_dedup_first. apply Hextra. }
  induction (dedup_first extra) as [|x xs IH]; [done|].
  rewrite filter_cons_False.
  - apply IH. intros y Hy. by apply Hseen, list_elem_of_further.
  - intros Hx. apply Hx, Hseen, list_elem_of_here.
Qed.

(** X3: repeating the requested names changes nothing: the request followed
    by itself resolves exactly as the request alone. *)
Theorem create_estimator_list_repeated (registry : list string)
  (requested : list string) :
  _create_estimator_list registry (PyList (PyStr <$> requested ++ requested))
  = _create_estimator_list registry (PyList (PyStr <$> requested)).
Proof.
  destruct requested as [|r rs]; [done|].
  unfold _create_estimator_list.
  change (is_auto_or_empty (PyList (PyStr <$> (r :: rs) ++ r :: rs)))
    with (Ok false).
  change (is_auto_or_empty (PyList (PyStr <$> r :: rs))) with (Ok false).
  cbn [mbind outcome_bind]. rewrite !verify_strings. cbn [py_iter mbind outcome_bind].
  rewrite !matches_of_strings. cbn [mbind outcome_bind].
  rewrite !keys_fromkeys.
  assert (dedup_first (matches_in_order registry ((r :: rs) ++ r :: rs))
          = dedup_first (matches_in_order registry (r :: rs))) as ->; [|done].
  unfold matches_in_order. rewrite bind_app. by apply dedup_first_app_seen.
Qed.

(** * Further properties of the scoring engine *)

Lemma array_index_length (a : array) : length (array_index a) = array_len a.
Proof.
  destruct a as [cells|labels cells]; simpl; [|done].
  rewrite length_seqZ. lia.
Qed.

(** Assigning a column keeps the number of rows, except that a frame without
    rows takes the length of a non-empty value. *)
Lemma df_setitem_len (k : string) (value : array) (df df' : DataFrame) :
  df_setitem k value df = Ok df' →
  len df' = if decide (len df = 0 ∧ 0 < array_len value)
            then array_len value else len df.
Proof.
  unfold df_setitem.
  destruct (decide (len df = 0 ∧ 0 < array_len value)) as [Hadopt|Hkeep];
    destruct value as [cells|labels cells];
    repeat case_decide; try done; intros [= <-];
    unfold len; simpl; by rewrite ?array_index_length, ?length_seqZ, ?Nat2Z.id.
Qed.

Lemma df_setitem_ndarray (k : string) (cells : list pyval)
  (df df' : DataFrame) :
  df_setitem k (NdArray cells) df = Ok df' →
  length cells = len df' ∧ PyDict.get k (df_columns df') = Some cells.
Proof.
  unfold df_setitem.
  destruct (decide (len df = 0 ∧ 0 < array_len (NdArray cells)));
    case_decide; try done; intros [= <-]; simpl;
    (split; [done|apply PyDictFacts.get_set_eq]).
Qed.

Lemma df_setitem_other (k k' : string) (value : array) (df df' : DataFrame) :
  df_setitem k value df = Ok df' →
  len df' = len df →
  k' ≠ k →
  PyDict.get k' (df_columns df') = PyDict.get k' (df_columns df).
Proof.
  intros Hset Hlen Hk. pose proof (df_setitem_len _ _ _ _ Hset) as Hlen'.
  revert Hset. unfold df_setitem.
  destruct (decide (len df = 0 ∧ 0 < array_len value)) as [Hadopt|_];
    [lia|].
  destruct value as [cells|labels cells]; repeat case_decide; try done;
    intros [= <-]; simpl; by rewrite PyDictFacts.get_set_ne.
Qed.

Lemma df_rename_len (old : pyval) (new : string) (df : DataFrame) :
  len (df_rename old new df) = len df.
Proof. reflexivity. Qed.

Lemma df_rename_other (old : pyval) (new k : string) (df : DataFrame) :
  old ≠ PyStr k → new ≠ k →
  PyDict.get k (df_columns (df_rename old new df))
  = PyDict.get k (df_columns df).
Proof.
  intros Hold Hnew. unfold df_rename. simpl.
  induction (df_columns df) as [|[k' cells] cols IH]; [done|].
  cbn [fmap list_fmap PyDict.get]. fold (@fmap _ list_fmap) in *.
  destruct old as [| | | |o| | |]; cbn [fst snd]; try by rewrite IH.
  destruct (decide (k' = o)) as [->|Hne]; cbn [PyDict.get].
  - rewrite (decide_False (P := k = new)) by done.
    rewrite (decide_False (P := k = o)) by congruence. apply IH.
  - by rewrite IH.
Qed.

Section ScoringExtras.

Context {Interp Propensity : Type}.
Variable interpret : list pyfloat → DataFrame → outcome Interp.
Variable ERUPT_fit : pyval → list string → DataFrame → outcome Propensity.
Variable predict_proba_1 : Propensity → DataFrame → outcome (list pyval).
Variable ERUPT_weights : Propensity → DataFrame → list bool → outcome array.
Variable ERUPT_score :
  Propensity → DataFrame → array → list bool → outcome pyfloat.
Variable qini_score : DataFrame → outcome (list (string * pyfloat)).
Variable auuc_score : DataFrame → outcome (list (string * pyfloat)).
Variable np_mean : list pyfloat → pyfloat.

Abbreviation scores_with := (make_scores interpret ERUPT_fit predict_proba_1
  ERUPT_weights ERUPT_score qini_score auuc_score np_mean).

(** What a per-row table that was built looks like. *)
Lemma diagnostic_table_Ok est treatment_name df cate table :
  diagnostic_table ERUPT_fit predict_proba_1 ERUPT_weights est treatment_name
    df cate = Ok table →
  (len df ≤ len table)%nat
  ∧ (len table = len df →
     length cate = len df
     ∧ (treatment_name ≠ PyStr "policy" →
        PyDict.get "policy" (df_columns table)
        = Some (PyBool <$> gt0 cate))).
Proof.
  unfold diagnostic_table.
  destruct (ERUPT_fit _ _ _) as [model|]; [|done]. cbn [mbind outcome_bind].
  destruct (df_select _ df) as [selected|] eqn:Hsel; [|done].
  cbn [mbind outcome_bind].
  assert (len (reset_index selected) = len df) as Hlen0.
  { revert Hsel. unfold df_select.
    destruct (for_each _ _); [|done]. intros [= <-].
    unfold reset_index, len. simpl. rewrite length_seqZ. lia. }
  destruct (predict_proba_1 _ _) as [p|]; [|done]. cbn [mbind outcome_bind].
  destruct (df_setitem "p" _ _) as [v1|] eqn:H1; [|done].
  cbn [mbind outcome_bind].
  destruct (df_setitem "policy" _ v1) as [v2|] eqn:H2; [|done].
  cbn [mbind outcome_bind].
  destruct (ERUPT_weights _ _ _) as [w|]; [|done]. cbn [mbind outcome_bind].
  destruct (df_setitem "weights" _ v2) as [v3|] eqn:H3; [|done].
  cbn [mbind outcome_bind]. intros [= <-]. rewrite df_rename_len.
  pose proof (df_setitem_len _ _ _ _ H1) as L1.
  pose proof (df_setitem_len _ _ _ _ H2) as L2.
  pose proof (df_setitem_len _ _ _ _ H3) as L3.
  pose proof (df_setitem_ndarray _ _ _ _ H2) as [Lp Hp].
  assert (length cate = len v2) as Lc
    by (by rewrite <-Lp; unfold gt0; rewrite !length_fmap).
  clear Lp. simpl in L1, L2, L3.
  repeat case_decide; (split; [lia|]); intros Heq; (split; [lia|]);
    intros Hname;
    (rewrite df_rename_other by done);
    (rewrite (df_setitem_other _ _ _ _ _ H3) by (done || lia)); done.
Qed.

(** X4: in a dictionary [make_scores] returns, the effect predictions are
    aligned with the rows: there is one prediction per row of the input
    frame, and (unless the treatment column is itself called "policy") the
    [policy] column of the [values] table holds, row by row, whether the
    prediction is greater than 0. *)
Theorem make_scores_predictions_aligned
  (estimate : CausalEstimate) (df : DataFrame) (cate_estimate : list pyfloat)
  (r_scorer : option (list pyfloat → outcome pyfloat)) (s : Scores Interp) :
  scores_with estimate df cate_estimate r_scorer = Ok s →
  length cate_estimate = len df
  ∧ (∀ treatment_name,
       first_treatment_name (_treatment_name (estimator estimate))
       = Ok treatment_name →
       treatment_name ≠ PyStr "policy" →
       PyDict.get "policy" (df_columns (values s))
       = Some (PyBool <$> gt0 cate_estimate)).
Proof.
  intros (t & table & e & q & a & r & Ht & Htab & Hlen & _ & _ & _ & _ & ->)
    %make_scores_Ok.
  apply diagnostic_table_Ok in Htab as [_ Htab].
  destruct (Htab Hlen) as [Hcate Hpolicy]. split; [done|].
  intros t' Ht' Hne. simpl. apply Hpolicy. congruence.
Qed.

(** X5: when the frame has the treatment column but not the outcome column
    and the propensity model can be fitted, [make_scores] raises [KeyError]
    for the outcome name. *)
Theorem make_scores_missing_outcome
  (estimate : CausalEstimate) (df : DataFrame) (cate_estimate : list pyfloat)
  (r_scorer : option (list pyfloat → outcome pyfloat))
  (treatment : string) (cells : list pyval) (model : Propensity) :
  first_treatment_name (_treatment_name (estimator estimate))
  = Ok (PyStr treatment) →
  PyDict.get treatment (df_columns df) = Some cells →
  PyDict.get (_outcome_name (estimator estimate)) (df_columns df) = None →
  ERUPT_fit (PyStr treatment) (_effect_modifier_names (estimator estimate)) df
  = Ok model →
  scores_with estimate df cate_estimate r_scorer
  = Raised (KeyError (_outcome_name (estimator estimate))).
Proof.
  intros Ht Hcells Hmissing Hfit. unfold make_scores. cbv zeta.
  rewrite Ht. cbn [mbind outcome_bind]. unfold diagnostic_table.
  rewrite Hfit. cbn [mbind outcome_bind]. unfold df_select.
  cbn [for_each mbind outcome_bind]. by rewrite Hcells, Hmissing.
Qed.

(** A treatment name given as a list stands for its first element:
    [make_scores] behaves the same for the list and for the bare name. *)
Theorem make_scores_treatment_name_list
  (treatment : string) (more : list pyval) (modifiers : list string)
  (outcome_ : string) (cates : outcome (list pyfloat)) (handle : nat)
  (df : DataFrame) (cate_estimate : list pyfloat)
  (r_scorer : option (list pyfloat → outcome pyfloat)) :
  scores_with
    (mkCausalEstimate
       (mkEstimator (PyList (PyStr treatment :: more)) modifiers outcome_)
       cates handle)
    df cate_estimate r_scorer
  = scores_with
      (mkCausalEstimate (mkEstimator (PyStr treatment) modifiers outcome_)
         cates handle)
      df cate_estimate r_scorer.
Proof. reflexivity. Qed.

(** X6: the frame both uplift metrics are computed from has exactly the
    columns [y], [w] and [model], the last holding the predictions, and one
    row per prediction; for a frame with rows that is one prediction per
    row of the frame. *)
Theorem uplift_frame_shape
  (estimate : CausalEstimate) (df new_df : DataFrame)
  (cate_estimate : list pyfloat) :
  uplift_frame estimate df cate_estimate = Ok new_df →
  PyDict.keys (df_columns new_df) = ["y"; "w"; "model"]
  ∧ PyDict.get "model" (df_columns new_df)
    = Some (PyFloat <$> cate_estimate)
  ∧ len new_df = length cate_estimate
  ∧ (len df ≠ 0 → length cate_estimate = len df).
Proof.
  unfold uplift_frame. cbv zeta.
  destruct (df_getitem _ df) as [y|] eqn:Hy; [|done].
  cbn [mbind outcome_bind].
  assert (∃ ycells, y = Series (df_index df) ycells) as [ycells ->].
  { revert Hy. unfold df_getitem. destruct (PyDict.get _ _); [|done].
    intros [= <-]. eauto. }
  assert (df_setitem "y" (Series (df_index df) ycells) empty_frame
          = Ok (mkDataFrame (df_index df) [("y", ycells)])) as ->.
  { unfold df_setitem, empty_frame, len. simpl.
    destruct (df_index df) as [|i idx] eqn:Hidx; simpl; [done|].
    repeat case_decide; simpl in *; done || lia. }
  cbn [mbind outcome_bind].
  destruct (first_treatment_name _) as [t|]; [|done].
  cbn [mbind outcome_bind].
  destruct (df_getitem t df) as [w|] eqn:Hw; [|done].
  cbn [mbind outcome_bind].
  assert (∃ wcells, w = Series (df_index df) wcells) as [wcells ->].
  { revert Hw. unfold df_getitem. destruct t; try done.
    destruct (PyDict.get _ _); [|done]. intros [= <-]. eauto. }
  assert (df_setitem "w" (Series (df_index df) wcells)
            (mkDataFrame (df_index df) [("y", ycells)])
          = Ok (mkDataFrame (df_index df) [("y", ycells); ("w", wcells)]))
    as ->.
  { unfold df_setitem, len. simpl.
    repeat case_decide; simpl in *; done || lia. }
  cbn [mbind outcome_bind]. intros Hset.
  pose proof (df_setitem_len _ _ _ _ Hset) as Hlen.
  pose proof (df_setitem_ndarray _ _ _ _ Hset) as [Hcells Hmodel].
  rewrite length_fmap in Hcells. split; [|split; [done|split; [done|]]].
  - revert Hset. unfold df_setitem.
    case_decide; case_decide; try done; by intros [= <-].
  - intros Hrows.
    change (len (mkDataFrame (df_index df) [("y", ycells); ("w", wcells)]))
      with (len df) in Hlen.
    rewrite decide_False in Hlen by lia. lia.
Qed.

End ScoringExtras.

Lemma make_scores_predictions_aligned_witness :
  length demo_cate = len demo_df
  ∧ (∀ treatment_name,
       first_treatment_name (_treatment_name (estimator demo_estimate))
       = Ok treatment_name →
       treatment_name ≠ PyStr "policy" →
       PyDict.get "policy" (df_columns demo_table)
       = Some (PyBool <$> gt0 demo_cate)).
Proof.
  apply (make_scores_predictions_aligned demo_interpret_fails demo_ERUPT_fit
           demo_predict_proba_1 demo_ERUPT_weights demo_ERUPT_score
           demo_uplift_score demo_uplift_score float64_mean
             demo_estimate demo_df demo_cate
           None
           (mkScores (Fin 1%Qc) (Fin 0%Qc) (Fin 0%Qc) (PyInt 0) (Fin 0%Qc)
              None demo_table)).
  exact demo_make_scores_fails_interpreter.
Defined.

(** The frame of the concrete run without its outcome column. *)
Definition demo_df_no_outcome : DataFrame :=
  mkDataFrame [4; 9; 2]%Z
    [ ("treatment", [PyInt 0; PyInt 1; PyInt 1]);
      ("x", [fl 5; fl 6; fl 7]) ].

Lemma make_scores_missing_outcome_witness :
  demo_make_scores demo_interpret_fails demo_estimate demo_df_no_outcome
    demo_cate None
  = Raised (KeyError "outcome").
Proof.
  apply (make_scores_missing_outcome demo_interpret_fails demo_ERUPT_fit
           demo_predict_proba_1 demo_ERUPT_weights demo_ERUPT_score
           demo_uplift_score demo_uplift_score float64_mean
             demo_estimate
           demo_df_no_outcome demo_cate None "treatment"
           [PyInt 0; PyInt 1; PyInt 1] ());
    reflexivity.
Defined.

Lemma uplift_frame_shape_witness :
  PyDict.keys
    (df_columns
       (mkDataFrame [4; 9; 2]%Z
          [ ("y", [fl 1; fl 2; fl 0]);
            ("w", [PyInt 0; PyInt 1; PyInt 1]);
            ("model", PyFloat <$> demo_cate) ]))
  = ["y"; "w"; "model"]
  ∧ PyDict.get "model"
      (df_columns
         (mkDataFrame [4; 9; 2]%Z
            [ ("y", [fl 1; fl 2; fl 0]);
              ("w", [PyInt 0; PyInt 1; PyInt 1]);
              ("model", PyFloat <$> demo_cate) ]))
    = Some (PyFloat <$> demo_cate)
  ∧ len (mkDataFrame [4; 9; 2]%Z
           [ ("y", [fl 1; fl 2; fl 0]);
             ("w", [PyInt 0; PyInt 1; PyInt 1]);
             ("model", PyFloat <$> demo_cate) ])
    = length demo_cate
  ∧ (len demo_df ≠ 0 → length demo_cate = len demo_df).
Proof.
  apply (uplift_frame_shape demo_estimate demo_df). reflexivity.
Defined.

(** * Further properties of the orchestrator *)

Section OrchestratorExtras.

Context {Interp Propensity : Type} `{W : Collaborators Interp Propensity}.

Implicit Types self : AutoCausality Interp.

(** The [model] property: [best_model_for_estimator] of [best_estimator]. *)
Definition model self : outcome nat :=
  best ← best_estimator self;
  best_model_for_estimator self best.

(** The metric names [make_scores] has a number for. *)
Definition scored_metrics : list string :=
  ["erupt"; "qini"; "auc"; "r_score"; "ate"].

Lemma scores_float_Ok (s : Scores Interp) (k : string) (x : pyfloat) :
  scores_float s k = Ok x → k ∈ scored_metrics.
Proof.
  unfold scores_float, scored_metrics.
  repeat case_decide; subst; try done; intros _; repeat constructor.
Qed.

Lemma for_each_pairs {A B : Type} (g : A → outcome B) (l : list A)
  (pairs : list (A * B)) :
  for_each (λ k, x ← g k; Ok (k, x)) l = Ok pairs →
  pairs.*1 = l ∧ ∀ kv, kv ∈ pairs → g kv.1 = Ok kv.2.
Proof.
  revert pairs. induction l as [|k l IH]; intros pairs; cbn [for_each].
  - intros [= <-]. split; [done|]. by intros kv ?%elem_of_nil.
  - destruct (g k) as [x|] eqn:Hg; [|done]. cbn [mbind outcome_bind].
    destruct (for_each _ l) as [rest|]; [|done]. cbn [mbind outcome_bind].
    intros [= <-]. destruct (IH rest eq_refl) as [Hkeys Hvals].
    split; [by rewrite fmap_cons, Hkeys|].
    intros kv [->|Hin]%elem_of_cons; [done|by apply Hvals].
Qed.

Lemma fold_insert_lookup {B : Type} (F : B → item Interp)
  (pairs : list (string * B)) (d : gmap string (item Interp)) (k : string) :
  fold_left (λ d (kv : string * B), <[kv.1 := F kv.2]> d) pairs d !! k
  = match last (filter (λ kv, kv.1 = k) pairs) with
    | Some kv => Some (F kv.2)
    | None => d !! k
    end.
Proof.
  revert d. induction pairs as [|[k' x] pairs IH]; intros d; [done|].
  cbn [fold_left]. rewrite IH. cbn [fst snd].
  destruct (decide (k' = k)) as [->|Hne].
  - rewrite filter_cons_True by done.
    destruct (filter _ pairs) as [|kv rest] eqn:Hf.
    + simpl. by rewrite lookup_insert_eq.
    + change (last ((k, x) :: kv :: rest)) with (last (kv :: rest)).
      destruct (last (kv :: rest)) eqn:Hl; [done|]. by apply last_None in Hl.
  - rewrite filter_cons_False by done.
    destruct (last _); [done|]. by rewrite lookup_insert_ne.
Qed.

(** The flattened metrics of a trial: one float entry per requested metric,
    its value on the train split. *)
Lemma flat_results_Ok (settings : Settings) (full : FullScores Interp)
  (flat : gmap string (item Interp)) :
  flat_results settings full = Ok flat →
  ∀ k,
    (k ∈ metric settings :: metrics_to_report settings →
     ∃ x, scores_float (train full) k = Ok x ∧ flat !! k = Some (IFloat x))
    ∧ (k ∉ metric settings :: metrics_to_report settings → flat !! k = None).
Proof.
  unfold flat_results.
  destruct (for_each _ _) as [pairs|] eqn:Hpairs; [|done].
  cbn [mbind outcome_bind]. intros [= <-] k.
  apply for_each_pairs in Hpairs as [Hkeys Hvals].
  rewrite fold_insert_lookup, <-Hkeys. split.
  - intros Hk.
    destruct (last (filter (λ kv, kv.1 = k) pairs)) as [kv|] eqn:Hlast.
    + apply last_Some_elem_of, list_elem_of_filter in Hlast as [<- Hin].
      exists kv.2. by rewrite Hvals.
    + apply last_None in Hlast.
      apply list_elem_of_fmap in Hk as (kv & -> & Hin).
      assert (kv ∈ filter (λ kv', kv'.1 = kv.1) pairs) as Hf
        by (by apply list_elem_of_filter).
      rewrite Hlast in Hf. by apply elem_of_nil in Hf.
  - intros Hk.
    destruct (last (filter (λ kv, kv.1 = k) pairs)) as [kv|] eqn:Hlast;
      [|done].
    apply last_Some_elem_of, list_elem_of_filter in Hlast as [<- Hin].
    destruct Hk. apply list_elem_of_fmap. by exists kv.
Qed.

(** A trial that returns: the steps it went through. *)
Lemma _estimate_effect_Ok config self result self' :
  _estimate_effect config self = (Ok result, self') →
  ∃ cfg name model_ estimate full flat,
    estimator_cfg self = Some cfg
    ∧ estimator_name self = Some name
    ∧ causal_model self = Some model_
    ∧ estimate_effect model_ (identified_estimand self) name
        (params_to_tune (init_params cfg) config) = Ok estimate
    ∧ flat_results (_settings self) full = Ok flat
    ∧ result = <["scores" := IScores full]>
                 (<["estimator" := IEstimate estimate]> flat).
Proof.
  unfold _estimate_effect. run_M.
  destruct (estimator_cfg self) as [cfg|]; cbn beta iota; [|done].
  destruct (estimator_name self) as [name|]; cbn beta iota; [|done].
  destruct (causal_model self) as [model_|]; cbn beta iota; [|done].
  destruct (estimate_effect _ _ _ _) as [estimate|] eqn:Hest;
    cbn beta iota; [|done].
  destruct (_compute_metrics _ _) as [[full|] s]; cbn beta iota; [|done].
  destruct (flat_results _ _) as [flat|] eqn:Hflat; cbn beta iota; [|done].
  intros [= <- <-]. by exists cfg, name, model_, estimate, full, flat.
Qed.

Lemma scored_metrics_not_reserved (k : string) :
  k ∈ scored_metrics → k ≠ "estimator" ∧ k ≠ "scores".
Proof.
  assert ("estimator" ∉ scored_metrics)
    by (apply (bool_decide_unpack _); by vm_compute).
  assert ("scores" ∉ scored_metrics)
    by (apply (bool_decide_unpack _); by vm_compute).
  intros Hk. by split; intros ->.
Qed.

(** [_compute_metrics] when it returns: the attributes it read and the two
    calls of [make_scores]. *)
Lemma _compute_metrics_Ok estimate self full self' :
  _compute_metrics estimate self = (Ok full, self') →
  ∃ name train_df_ test_df_ scorer te_train te_test,
    estimator_name self = Some name
    ∧ train_df self = Some train_df_
    ∧ test_df self = Some test_df_
    ∧ r_scorer self = Some scorer
    ∧ effect_predictions self estimate = Ok (te_train, te_test)
    ∧ scoring estimate train_df_ te_train (Some (r_train scorer))
      = Ok (train full)
    ∧ scoring estimate test_df_ te_test (Some (r_test scorer))
      = Ok (test full)
    ∧ scored_estimator_name full = name.
Proof.
  unfold _compute_metrics. run_M.
  destruct (effect_predictions self estimate) as [[te_train te_test]|];
    cbn beta iota; [|done].
  destruct (estimator_name self) as [name|]; cbn beta iota; [|done].
  destruct (train_df self) as [train_df_|]; cbn beta iota; [|done].
  destruct (r_scorer self) as [scorer|]; cbn beta iota; [|done].
  destruct (scoring estimate train_df_ _ _) as [train_scores|] eqn:Htrain;
    cbn beta iota; [|done].
  destruct (test_df self) as [test_df_|]; cbn beta iota; [|done].
  destruct (scoring estimate test_df_ _ _) as [test_scores|] eqn:Htest;
    cbn beta iota; [|done].
  intros [= <- _].
  by exists name, train_df_, test_df_, scorer, te_train, te_test.
Qed.

(** X7: a trial assigns no attribute of [self]: apart from the log of calls,
    the object after [_estimate_effect] is the object before it, whether the
    trial returns or raises. *)
Theorem estimate_effect_assigns_nothing config self :
  set_events (events self) (_estimate_effect config self).2 = self.
Proof.
  destruct (_estimate_effect config self) as [r self'] eqn:Htrial.
  apply _estimate_effect_state in Htrial as (new & -> & _).
  by destruct self.
Qed.

(** X8: the dictionary a trial returns has exactly the keys [estimator],
    [scores] and the requested metric names; [estimator] is the estimate the
    estimator call returned for the merged parameters, and each metric entry
    is the float of that metric on the train split of [scores]. *)
Theorem estimate_effect_result_entries config self result self' :
  _estimate_effect config self = (Ok result, self') →
  ∃ cfg name model_ estimate full,
    estimator_cfg self = Some cfg
    ∧ estimator_name self = Some name
    ∧ causal_model self = Some model_
    ∧ estimate_effect model_ (identified_estimand self) name
        (params_to_tune (init_params cfg) config) = Ok estimate
    ∧ result !! "estimator" = Some (IEstimate estimate)
    ∧ result !! "scores" = Some (IScores full)
    ∧ (∀ k, k ∈ metric (_settings self) :: metrics_to_report (_settings self) →
            ∃ x, scores_float (train full) k = Ok x
                 ∧ result !! k = Some (IFloat x))
    ∧ (∀ k, is_Some (result !! k) ↔
            k = "estimator" ∨ k = "scores"
            ∨ k ∈ metric (_settings self) :: metrics_to_report (_settings self)).
Proof.
  intros Htrial. apply _estimate_effect_Ok in Htrial
    as (cfg & name & model_ & estimate & full & flat & Hcfg & Hname & Hmodel
        & Hest & Hflat & ->).
  exists cfg, name, model_, estimate, full. do 4 (split; [done|]).
  pose proof (flat_results_Ok _ _ _ Hflat) as Hentries.
  assert (Hmetric : ∀ k,
    k ∈ metric (_settings self) :: metrics_to_report (_settings self) →
    k ≠ "estimator" ∧ k ≠ "scores").
  { intros k Hk. destruct (Hentries k) as [Hin _].
    destruct (Hin Hk) as (x & Hx%scores_float_Ok & _).
    by apply scored_metrics_not_reserved. }
  split; [by rewrite lookup_insert_ne, lookup_insert_eq by done|].
  split; [by rewrite lookup_insert_eq|]. split.
  - intros k Hk. destruct (Hmetric k Hk) as [? ?].
    destruct (Hentries k) as [Hin _]. destruct (Hin Hk) as (x & Hx & Hflatk).
    exists x. by rewrite !lookup_insert_ne.
  - intros k. destruct (decide (k = "scores")) as [->|Hs].
    { rewrite lookup_insert_eq. split; eauto. }
    rewrite lookup_insert_ne by done.
    destruct (decide (k = "estimator")) as [->|He].
    { rewrite lookup_insert_eq. split; eauto. }
    rewrite lookup_insert_ne by done.
    destruct (Hentries k) as [Hin Hout]. split.
    + intros Hsome. do 2 right.
      destruct (decide (k ∈ metric (_settings self)
                           :: metrics_to_report (_settings self)));
        [done|].
      rewrite Hout in Hsome by done. by destruct Hsome.
    + intros [?|[?|Hk]]; [done..|]. destruct (Hin Hk) as (x & _ & ->). eauto.
Qed.

(** X9: with a selection or report metric that [make_scores] has no number
    for, no trial returns: every call of the trainable raises. *)
Theorem trial_unknown_metric_raises self (k : string) :
  k ∈ metric (_settings self) :: metrics_to_report (_settings self) →
  k ∉ scored_metrics →
  ∀ config, ∃ e, _tune_with_config self config = Raised e.
Proof.
  intros Hk Hunknown config. unfold _tune_with_config.
  destruct (_estimate_effect config self) as [[result|e] self'] eqn:Htrial;
    [|by exists e].
  apply _estimate_effect_Ok in Htrial
    as (cfg & name & model_ & estimate & full & flat & _ & _ & _ & _
        & Hflat & _).
  destruct (flat_results_Ok _ _ _ Hflat k) as [Hin _].
  destruct (Hin Hk) as (x & Hx%scores_float_Ok & _). done.
Qed.

(** X10: the full scores [_compute_metrics] returns carry the current
    estimator name, the scores of the train split under [train] and those of
    the test split under [test], each made with the reference scorer of its
    own split and the predictions made for it; the per-row table of each has
    as many rows as its split.  The object is left as it was. *)
Theorem compute_metrics_splits estimate self full self' :
  _compute_metrics estimate self = (Ok full, self') →
  self' = self
  ∧ ∃ name train_df_ test_df_ scorer te_train te_test,
      estimator_name self = Some name
      ∧ train_df self = Some train_df_
      ∧ test_df self = Some test_df_
      ∧ r_scorer self = Some scorer
      ∧ effect_predictions self estimate = Ok (te_train, te_test)
      ∧ scored_estimator_name full = name
      ∧ scoring estimate train_df_ te_train (Some (r_train scorer))
        = Ok (train full)
      ∧ scoring estimate test_df_ te_test (Some (r_test scorer))
        = Ok (test full)
      ∧ len (values (train full)) = len train_df_
      ∧ len (values (test full)) = len test_df_.
Proof.
  intros Hrun. split; [by apply _compute_metrics_state in Hrun|].
  apply _compute_metrics_Ok in Hrun
    as (name & train_df_ & test_df_ & scorer & te_train & te_test & Hname
        & Htrain & Htest & Hscorer & Hpred & Hstrain & Hstest & Hfull).
  exists name, train_df_, test_df_, scorer, te_train, te_test.
  do 8 (split; [done|]).
  unfold scoring in Hstrain, Hstest.
  apply make_scores_Ok in Hstrain
    as (t1 & table1 & e1 & q1 & a1 & r1 & _ & _ & Hlen1 & _ & _ & _ & _ & ->).
  apply make_scores_Ok in Hstest
    as (t2 & table2 & e2 & q2 & a2 & r2 & _ & _ & Hlen2 & _ & _ & _ & _ & ->).
  by repeat split.
Qed.

End OrchestratorExtras.

(** The S-learner of the concrete search, as its single trial finds the
    object. *)
Definition demo_slearner_trial : AutoCausality unit :=
  set_estimator_cfg (Some demo_slearner_cfg)
    (set_estimator_name (Some SLearner) demo_ready).

Lemma estimate_effect_result_entries_witness :
  ∃ result cfg name model_ estimate full,
    (_estimate_effect (init_params demo_slearner_cfg) demo_slearner_trial).1
    = Ok result
    ∧ estimator_cfg demo_slearner_trial = Some cfg
    ∧ estimator_name demo_slearner_trial = Some name
    ∧ causal_model demo_slearner_trial = Some model_
    ∧ estimate_effect model_ (identified_estimand demo_slearner_trial) name
        (params_to_tune (init_params cfg) (init_params demo_slearner_cfg))
      = Ok estimate
    ∧ result !! "estimator" = Some (IEstimate estimate)
    ∧ result !! "scores" = Some (IScores full)
    ∧ (∀ k, k ∈ metric (_settings demo_slearner_trial)
                :: metrics_to_report (_settings demo_slearner_trial) →
            ∃ x, scores_float (train full) k = Ok x
                 ∧ result !! k = Some (IFloat x))
    ∧ (∀ k, is_Some (result !! k) ↔
            k = "estimator" ∨ k = "scores"
            ∨ k ∈ metric (_settings demo_slearner_trial)
                  :: metrics_to_report (_settings demo_slearner_trial)).
Proof.
  destruct (_estimate_effect (init_params demo_slearner_cfg)
              demo_slearner_trial) as [[result|e] self'] eqn:Htrial.
  - destruct (estimate_effect_result_entries _ _ _ _ Htrial)
      as (cfg & name & model_ & estimate & full & Hrest).
    by exists result, cfg, name, model_, estimate, full.
  - vm_compute in Htrial. discriminate Htrial.
Defined.

(** The same object with the selection metric of the quick-start script,
    which the scoring engine does not compute. *)
Definition demo_norm_erupt : AutoCausality unit :=
  set_settings
    (mkSettings (mkTunerSettings 60 10 3 false) "norm_erupt"
       ["qini"; "auc"; "ate"; "r_score"]
       (PyList [PyStr ".LinearDML"; PyStr "SLearner"])
       (Q2Qc (4 # 5)) None None)
    demo_slearner_trial.

Lemma trial_unknown_metric_raises_witness :
  ∃ e, _tune_with_config demo_norm_erupt (init_params demo_slearner_cfg)
       = Raised e.
Proof.
  apply (trial_unknown_metric_raises demo_norm_erupt "norm_erupt").
  - apply list_elem_of_here.
  - apply (bool_decide_unpack _). by vm_compute.
Defined.

Lemma compute_metrics_splits_witness :
  ∃ full,
    (_compute_metrics demo_estimate demo_slearner_trial).1 = Ok full
    ∧ scored_estimator_name full = SLearner
    ∧ len (values (train full)) = len demo_df
    ∧ len (values (test full)) = len demo_df.
Proof.
  destruct (_compute_metrics demo_estimate demo_slearner_trial)
    as [[full|e] self'] eqn:Hrun.
  - destruct (compute_metrics_splits _ _ _ _ Hrun)
      as (_ & name & train_df_ & test_df_ & scorer & te_train & te_test
          & [= <-] & [= <-] & [= <-] & _ & [= <- <-] & Hname & _ & _
          & Hlen1 & Hlen2).
    by exists full.
  - by vm_compute in Hrun.
Defined.

(** * Further properties of the rounds of [fit] *)

Section OrchestratorRounds.

Context {Interp Propensity : Type} `{W : Collaborators Interp Propensity}.

Implicit Types self : AutoCausality Interp.

(** The object as the search of the round for [name] finds it. *)
Definition at_round (name : string) (cfg : Descriptor) self
  : AutoCausality Interp :=
  set_estimator_cfg (Some cfg) (set_estimator_name (Some name) self).

(** The bookkeeping of a round, when it returns. *)
Lemma record_result_Ok name last_result self self' :
  record_result name last_result self = (Ok (), self') →
  ∃ estimate scores_ score,
    last_result !! "estimator" = Some estimate
    ∧ delete "estimator" last_result !! "scores" = Some scores_
    ∧ delete "scores" (delete "estimator" last_result)
        !! metric (_settings self) = Some score
    ∧ estimates self' = <[name := estimate]> (estimates self)
    ∧ full_scores self' = <[name := scores_]> (full_scores self)
    ∧ scores self' = PyDict.set name score (scores self).
Proof.
  unfold record_result, pop, getitem. run_M.
  destruct (last_result !! "estimator") as [estimate|]; cbn beta iota; [|done].
  destruct (delete "estimator" last_result !! "scores") as [scores_|];
    cbn beta iota; [|done].
  cbn [_settings set_full_scores set_estimates].
  destruct (delete "scores" (delete "estimator" last_result)
              !! metric (_settings self)) as [score|] eqn:Hscore;
    cbn beta iota; [|done].
  destruct (decide _); [destruct (for_each _ _); [|done]|];
    intros [= <-]; by exists estimate, scores_, score.
Qed.

Lemma for_each_Ok_all {A B : Type} (f : A → outcome B) (l : list A) :
  (∀ x, x ∈ l → ∃ y, f x = Ok y) → ∃ ys, for_each f l = Ok ys.
Proof.
  induction l as [|x l IH]; intros Hall; [by exists []|].
  destruct (Hall x) as [y Hy]; [apply list_elem_of_here|].
  destruct IH as [ys Hys].
  { intros x' Hx'. by apply Hall, list_elem_of_further. }
  exists (y :: ys). cbn [for_each]. by rewrite Hy, Hys.
Qed.

(** The bookkeeping returns when the result has an [estimator], a [scores]
    and a float for each metric that is selected or reported. *)
Lemma record_result_returns name last_result self estimate scores_ :
  last_result !! "estimator" = Some estimate →
  last_result !! "scores" = Some scores_ →
  (∀ k, k ∈ metric (_settings self) :: metrics_to_report (_settings self) →
        k ≠ "estimator" ∧ k ≠ "scores"
        ∧ ∃ x, last_result !! k = Some (IFloat x)) →
  ∃ self', record_result name last_result self = (Ok (), self').
Proof.
  intros Hest Hsc Hmetrics.
  assert (Hlookup : ∀ k,
    k ∈ metric (_settings self) :: metrics_to_report (_settings self) →
    ∃ x, delete "scores" (delete "estimator" last_result) !! k
         = Some (IFloat x)).
  { intros k Hk. destruct (Hmetrics k Hk) as (? & ? & x & Hx).
    exists x. by rewrite !lookup_delete_ne. }
  unfold record_result, pop, getitem. run_M. rewrite Hest. cbn beta iota.
  rewrite lookup_delete_ne, Hsc by done. cbn beta iota.
  cbn [_settings set_full_scores set_estimates].
  destruct (Hlookup (metric (_settings self))) as [x ->];
    [apply list_elem_of_here|]. cbn beta iota.
  destruct (decide _); [|eauto].
  destruct (for_each_Ok_all
    (λ metric, v ← getitem metric
                     (delete "scores" (delete "estimator" last_result));
               format_f v)
    (metric (_settings self) :: metrics_to_report (_settings self)))
    as [ys Hys].
  { intros k Hk. destruct (Hlookup k Hk) as [y Hy]. exists ().
    unfold getitem. by rewrite Hy. }
  unfold getitem in Hys. unfold mbind in Hys. rewrite Hys. eauto.
Qed.

(** A round for an estimator without a search space: one trial, then the
    bookkeeping. *)
Lemma fit_estimator_direct name cfg self found :
  cfg_method_params name = Ok cfg →
  search_space cfg = ∅ →
  tune_results self = Some found →
  fit_estimator name self
  = match _estimate_effect (init_params cfg)
            (set_tune_results (Some (<[name := Some ∅]> found))
               (at_round name cfg self)) with
    | (Ok last_result, self1) => record_result name last_result self1
    | (Raised e, self1) => (Raised e, self1)
    end.
Proof.
  intros Hcfg Hspace Hfound. unfold fit_estimator, search_estimator. run_M.
  rewrite Hcfg. cbn beta iota. rewrite decide_True by done. run_M.
  cbn [tune_results set_estimator_cfg set_estimator_name]. rewrite Hfound.
  cbn beta iota. unfold at_round.
  by destruct (_estimate_effect _ _) as [[last_result|e] self1].
Qed.

(** A round for an estimator with a search space, when the tuner returns. *)
Lemma fit_estimator_tuned name cfg self found results :
  cfg_method_params name = Ok cfg →
  search_space cfg ≠ ∅ →
  tune_results self = Some found →
  tune_run (_tune_with_config (at_round name cfg self)) (search_space cfg)
    (metric (_settings self)) (tuner (_settings self)) = Ok results →
  fit_estimator name self
  = let self1 :=
      set_tune_results (Some (<[name := results_best_config results]> found))
        (set_events (events self ++ [TuneRun (search_space cfg)])
           (at_round name cfg self)) in
    match results_get_best_trial results with
    | None =>
        (Ok (),
         set_scores (PyDict.set name INone (scores self))
           (set_events
              (events self
               ++ [TuneRun (search_space cfg);
                   Printed ("OPTIMIZATION FAILED FOR " +:+ name)])
              self1))
    | Some last_result => record_result name last_result self1
    end.
Proof.
  intros Hcfg Hspace Hfound Hrun. unfold fit_estimator, search_estimator.
  run_M. rewrite Hcfg. cbn beta iota. rewrite decide_False by done. run_M.
  unfold at_round in Hrun.
  cbn [_settings set_events set_estimator_cfg set_estimator_name].
  rewrite Hrun. cbn beta iota.
  cbn [tune_results set_events set_estimator_cfg set_estimator_name].
  rewrite Hfound. cbn beta iota.
  destruct (results_get_best_trial results) as [last_result|];
    cbn beta iota; [done|].
  unfold at_round. cbn. by rewrite <-app_assoc.
Qed.

(** The entries of the dictionary a trial builds from the flattened metrics,
    the estimate and the full scores. *)
Lemma trial_result_lookup settings (full : FullScores Interp) flat estimate :
  flat_results settings full = Ok flat →
  (<["scores" := IScores full]> (<["estimator" := IEstimate estimate]> flat)
     : gmap string (item Interp)) !! "estimator" = Some (IEstimate estimate)
  ∧ (<["scores" := IScores full]> (<["estimator" := IEstimate estimate]> flat)
       : gmap string (item Interp)) !! "scores" = Some (IScores full)
  ∧ ∀ k, k ∈ metric settings :: metrics_to_report settings →
         k ≠ "estimator" ∧ k ≠ "scores"
         ∧ ∃ x, scores_float (train full) k = Ok x
                ∧ (<["scores" := IScores full]>
                     (<["estimator" := IEstimate estimate]> flat)
                     : gmap string (item Interp)) !! k = Some (IFloat x).
Proof.
  intros Hflat.
  split; [by rewrite lookup_insert_ne, lookup_insert_eq by done|].
  split; [by rewrite lookup_insert_eq|].
  intros k Hk. destruct (flat_results_Ok _ _ _ Hflat k) as [Hin _].
  destruct (Hin Hk) as (x & Hx & Hflatk).
  destruct (scored_metrics_not_reserved k) as [? ?];
    [by eapply scores_float_Ok|].
  do 2 (split; [done|]). exists x. by rewrite !lookup_insert_ne.
Qed.

(** The object as the single trial of an estimator without a search space
    finds it. *)
Definition at_direct_trial (name : string) (cfg : Descriptor)
  (found : gmap string (option (gmap string pyval))) self
  : AutoCausality Interp :=
  set_tune_results (Some (<[name := Some ∅]> found)) (at_round name cfg self).

(** X11: a round for an estimator without a search space returns whenever
    its single trial does, and it then records the trial under the
    estimator's name: the estimate the estimator call returned, the full
    scores, and as the best score the selection metric on the train split. *)
Theorem fit_round_direct_trial name cfg self found result :
  cfg_method_params name = Ok cfg →
  search_space cfg = ∅ →
  tune_results self = Some found →
  (_estimate_effect (init_params cfg) (at_direct_trial name cfg found self)).1
  = Ok result →
  ∃ self' model_ estimate full x,
    fit_estimator name self = (Ok (), self')
    ∧ causal_model self = Some model_
    ∧ estimate_effect model_ (identified_estimand self) name
        (params_to_tune (init_params cfg) (init_params cfg)) = Ok estimate
    ∧ result !! "scores" = Some (IScores full)
    ∧ scores_float (train full) (metric (_settings self)) = Ok x
    ∧ estimates self' = <[name := IEstimate estimate]> (estimates self)
    ∧ full_scores self' = <[name := IScores full]> (full_scores self)
    ∧ scores self' = PyDict.set name (IFloat x) (scores self)
    ∧ tune_results self' = Some (<[name := Some ∅]> found).
Proof.
  intros Hcfg Hspace Hfound Htrial.
  rewrite (fit_estimator_direct name cfg self found) by done.
  fold (at_direct_trial name cfg found self).
  destruct (_estimate_effect (init_params cfg)
              (at_direct_trial name cfg found self))
    as [r self1] eqn:Hrun.
  simpl in Htrial. subst r.
  pose proof (_estimate_effect_state _ _ _ _ Hrun) as (new & -> & _).
  apply _estimate_effect_Ok in Hrun
    as (cfg' & name' & model_ & estimate & full & flat & [= <-] & [= <-]
        & Hmodel & Hest & Hflat & ->).
  destruct (trial_result_lookup _ _ _ estimate Hflat)
    as (Hlest & Hlsc & Hlmetrics).
  set (result := (<["scores" := IScores full]>
                    (<["estimator" := IEstimate estimate]> flat)
                    : gmap string (item Interp))) in *.
  set (self1 := set_events _ _).
  destruct (record_result_returns name result self1 _ _ Hlest Hlsc)
    as [self' Hrec].
  { intros k Hk. destruct (Hlmetrics k Hk) as (? & ? & x & _ & Hx). eauto. }
  destruct (Hlmetrics (metric (_settings self))) as (? & ? & x & Hx & Hlx);
    [apply list_elem_of_here|].
  exists self', model_, estimate, full, x. rewrite Hrec.
  pose proof (record_result_state _ _ _ _ _ Hrec) as (_ & _ & Htr & _).
  apply record_result_Ok in Hrec
    as (estimate0 & scores0 & score0 & He0 & Hs0 & Hm0 & -> & -> & ->).
  rewrite Hlest in He0. injection He0 as <-.
  rewrite lookup_delete_ne, Hlsc in Hs0 by done. injection Hs0 as <-.
  change (_settings self1) with (_settings self) in Hm0.
  rewrite !lookup_delete_ne, Hlx in Hm0 by done. injection Hm0 as <-.
  by rewrite Htr.
Qed.

(** X12: when the single trial of an estimator without a search space
    raises, the round raises the same exception and the loop stops there:
    the estimators after it are not tried.  Nothing is recorded for the
    estimator but its empty best configuration. *)
Theorem fit_round_direct_trial_raises name cfg self found e rest :
  cfg_method_params name = Ok cfg →
  search_space cfg = ∅ →
  tune_results self = Some found →
  (_estimate_effect (init_params cfg) (at_direct_trial name cfg found self)).1
  = Raised e →
  ∃ self',
    for_M (name :: rest) fit_estimator self = (Raised e, self')
    ∧ scores self' = scores self
    ∧ estimates self' = estimates self
    ∧ full_scores self' = full_scores self
    ∧ tune_results self' = Some (<[name := Some ∅]> found).
Proof.
  intros Hcfg Hspace Hfound Htrial.
  rewrite for_M_cons, (fit_estimator_direct name cfg self found) by done.
  fold (at_direct_trial name cfg found self).
  destruct (_estimate_effect (init_params cfg)
              (at_direct_trial name cfg found self))
    as [r self1] eqn:Hrun.
  simpl in Htrial. subst r.
  apply _estimate_effect_state in Hrun as (new & -> & _).
  eexists. split; [done|]. by repeat split.
Qed.

(** X13: a round for an estimator with a search space whose tuner reports a
    best trial returns only if that trial's result has the entries
    [estimator], [scores] and the selection metric, and records these three
    under the estimator's name, with the tuner's best configuration. *)
Theorem fit_round_best_trial name cfg self found results last_result self' :
  cfg_method_params name = Ok cfg →
  search_space cfg ≠ ∅ →
  tune_results self = Some found →
  tune_run (_tune_with_config (at_round name cfg self)) (search_space cfg)
    (metric (_settings self)) (tuner (_settings self)) = Ok results →
  results_get_best_trial results = Some last_result →
  fit_estimator name self = (Ok (), self') →
  ∃ estimate scores_ score,
    last_result !! "estimator" = Some estimate
    ∧ last_result !! "scores" = Some scores_
    ∧ last_result !! metric (_settings self) = Some score
    ∧ estimates self' = <[name := estimate]> (estimates self)
    ∧ full_scores self' = <[name := scores_]> (full_scores self)
    ∧ scores self' = PyDict.set name score (scores self)
    ∧ tune_results self'
      = Some (<[name := results_best_config results]> found)
    ∧ events self' = events self ++ [TuneRun (search_space cfg)].
Proof.
  intros Hcfg Hspace Hfound Hrun Hbest.
  rewrite (fit_estimator_tuned name cfg self found results) by done.
  cbv zeta. rewrite Hbest. intros Hrec.
  pose proof (record_result_state _ _ _ _ _ Hrec) as (_ & Hev & Htr & _).
  apply record_result_Ok in Hrec
    as (estimate & scores_ & score & He & Hs & Hm & -> & -> & ->).
  exists estimate, scores_, score.
  apply lookup_delete_Some in Hs as [_ Hs].
  apply lookup_delete_Some in Hm as [_ [_ Hm]%lookup_delete_Some].
  by rewrite Hev, Htr.
Qed.

End OrchestratorRounds.

(** * Further properties of [fit] as a whole *)

Section OrchestratorFit.

Context {Interp Propensity : Type} `{W : Collaborators Interp Propensity}.

Implicit Types self : AutoCausality Interp.

Lemma search_estimator_None name cfg self self' :
  search_estimator name cfg self = (Ok None, self') →
  scores self' = PyDict.set name INone (scores self).
Proof.
  unfold search_estimator.
  destruct (decide (search_space cfg = ∅)) as [Hempty|Hspace]; run_M.
  - destruct (tune_results self); cbn beta iota; [|done].
    by destruct (_estimate_effect _ _) as [[last_result|e] self1].
  - destruct (tune_run _ _ _ _) as [results|e]; cbn beta iota; [|done].
    cbn [tune_results set_events].
    destruct (tune_results self); cbn beta iota; [|done].
    destruct (results_get_best_trial results); cbn beta iota; [done|].
    by intros [= <-].
Qed.

(** A round that returns leaves an entry for its estimator in [scores]. *)
Lemma fit_estimator_scores_key name self self' :
  fit_estimator name self = (Ok (), self') →
  is_Some (PyDict.get name (scores self')).
Proof.
  unfold fit_estimator. run_M.
  destruct (cfg_method_params name) as [cfg|]; cbn beta iota; [|done].
  destruct (search_estimator name cfg _) as [[[last_result|]|e] self1]
    eqn:Hsearch; cbn beta iota; [| |done].
  - intros (estimate & scores_ & score & _ & _ & _ & _ & _ & ->)
      %record_result_Ok.
    rewrite PyDictFacts.get_set_eq. eauto.
  - intros [= <-]. apply search_estimator_None in Hsearch as ->.
    rewrite PyDictFacts.get_set_eq. eauto.
Qed.

Lemma elem_of_keys_is_Some {V : Type} (k : string) (d : list (string * V)) :
  k ∈ PyDict.keys d ↔ is_Some (PyDict.get k d).
Proof.
  rewrite <-not_eq_None_Some, PyDictFacts.get_None.
  split; [auto|]. intros Hnn. by destruct (decide (k ∈ PyDict.keys d)).
Qed.

Lemma fit_loop_scores_keys (l : list string) self self' :
  for_M l fit_estimator self = (Ok (), self') →
  ∀ k, k ∈ PyDict.keys (scores self')
       ↔ k ∈ PyDict.keys (scores self) ∨ k ∈ l.
Proof.
  revert self. induction l as [|n l IH]; intros self.
  - intros [= <-] k. rewrite elem_of_nil. tauto.
  - intros (self1 & Hstep & Hloop)%for_M_Ok_cons k.
    rewrite (IH _ Hloop), elem_of_cons.
    pose proof (fit_estimator_scores_key _ _ _ Hstep) as Hkey.
    apply fit_estimator_state in Hstep as (_ & Hother & _).
    rewrite !elem_of_keys_is_Some.
    destruct (decide (k = n)) as [->|Hne]; [tauto|].
    rewrite (Hother k) by done. tauto.
Qed.

(** X14: when [fit] returns, the keys of the best-score mapping are the keys
    it had before the call together with the names of the estimator list:
    every estimator of the list has an entry, and no entry of an earlier
    call is dropped. *)
Theorem fit_scores_keys
  data treatment outcome_ common_causes effect_modifiers self self' :
  fit data treatment outcome_ common_causes effect_modifiers self
  = (Ok (), self') →
  ∀ k, k ∈ PyDict.keys (best_score_per_estimator self')
       ↔ k ∈ PyDict.keys (best_score_per_estimator self)
         ∨ k ∈ estimator_list self.
Proof.
  intros (self1 & Hsc & _ & _ & _ & _ & Hloop)%fit_Ok k.
  unfold best_score_per_estimator.
  by rewrite (fit_loop_scores_keys _ _ _ Hloop), Hsc.
Qed.

Lemma save_loop_nil path (l : list string) self self' :
  for_M l (save_model path) self = (Ok (), self') → l = [].
Proof.
  destruct l as [|name l]; [done|]. rewrite for_M_cons.
  by destruct (save_model_raises path name self) as (e & s & ->).
Qed.

(** X15: with a model save path that is set and not empty, and at least one
    estimator in the list, [fit] does not return: a call that gets through
    the search raises in the loop that writes the snapshots. *)
Theorem fit_save_path_raises
  data treatment outcome_ common_causes effect_modifiers self path :
  truthy (model_save_path (_settings self)) = Some path →
  estimator_list self ≠ [] →
  ∃ e, (fit data treatment outcome_ common_causes effect_modifiers self).1
       = Raised e.
Proof.
  intros Hpath Hlist.
  destruct (fit data treatment outcome_ common_causes effect_modifiers self)
    as [[[]|e] self'] eqn:Hfit; [|by exists e].
  exfalso. revert Hfit. unfold fit. run_M. step_M; [|done]. step_M.
  change (_settings (set_data_df data self)) with (_settings self).
  change (estimator_list (set_data_df data self)) with (estimator_list self).
  rewrite Hpath.
  destruct (test_size (_settings self)) as [n|]; cbn beta iota;
    [destruct (df_sample _ n) as [test|]; cbn beta iota; [|done]|];
    repeat (step_M; try done);
    by intros ?%save_loop_nil.
Qed.

(** Any run of a loop whose every round keeps a preorder keeps it. *)
Lemma for_M_preserves {S A} (R : S → S → Prop) (body : A → M S unit) :
  (∀ s, R s s) →
  (∀ s1 s2 s3, R s1 s2 → R s2 s3 → R s1 s3) →
  (∀ x s r s', body x s = (r, s') → R s s') →
  ∀ (l : list A) s r s', for_M l body s = (r, s') → R s s'.
Proof.
  intros Hrefl Htrans Hbody l. induction l as [|x l IH]; intros s r s'.
  - intros [= _ <-]. apply Hrefl.
  - rewrite for_M_cons. destruct (body x s) as [[[]|e] s1] eqn:Hstep.
    + intros Hloop. eapply Htrans; [by eapply Hbody|by eapply IH].
    + intros [= _ <-]. by eapply Hbody.
Qed.

Lemma save_model_state path name self r self' :
  save_model path name self = (r, self') → same_inputs self self'.
Proof.
  unfold save_model. run_M.
  destruct (open_snapshot path name); cbn beta iota;
    [|by intros [= _ <-]].
  destruct (best_model_for_estimator _ name); cbn beta iota;
    by intros [= _ <-].
Qed.

(** The attributes no run of [fit] assigns, whether it returns or raises. *)
Lemma fit_state
  data treatment outcome_ common_causes effect_modifiers self r self' :
  fit data treatment outcome_ common_causes effect_modifiers self = (r, self') →
  _settings self' = _settings self
  ∧ estimator_list self' = estimator_list self
  ∧ trained_estimators_dict self' = trained_estimators_dict self.
Proof.
  assert (Hloop : ∀ l s r s',
    for_M l fit_estimator s = (r, s') → same_inputs s s').
  { apply (for_M_preserves same_inputs); [apply same_inputs_refl| |].
    - intros s1 s2 s3. apply same_inputs_trans.
    - intros x s r0 s' Hstep. by apply fit_estimator_state in Hstep as [? _]. }
  assert (Hsave : ∀ path l s r s',
    for_M l (save_model path) s = (r, s') → same_inputs s s').
  { intros path. apply (for_M_preserves same_inputs);
      [apply same_inputs_refl| |].
    - intros s1 s2 s3. apply same_inputs_trans.
    - intros x s r0 s'. apply save_model_state. }
  unfold fit. run_M. step_M; [|by intros [= _ <-]]. step_M.
  change (_settings (set_data_df data self)) with (_settings self).
  change (estimator_list (set_data_df data self)) with (estimator_list self).
  destruct (test_size (_settings self)) as [n|]; cbn beta iota;
    [destruct (df_sample _ n) as [test|]; cbn beta iota;
       [|by intros [= _ <-]]|];
    (destruct (CausalModel _ _ _ _ _) as [model_|]; cbn beta iota;
       [|by intros [= _ <-]]);
    (destruct (identify_effect _) as [estimand|]; cbn beta iota;
       [|by intros [= _ <-]]);
    (destruct (make_r_scorer _ _ _ _ _ _) as [scorer|]; cbn beta iota;
       [|by intros [= _ <-]]);
    (destruct (for_M _ fit_estimator _) as [[[]|e] self1] eqn:Hrun;
     apply Hloop in Hrun as (Hs & Hl & _ & _ & _ & _ & _ & _ & Ht);
     cbn in Hs, Hl, Ht; [|by intros [= _ <-]]);
    (destruct (truthy _) as [path|]; [|by intros [= _ <-]]);
    intros (Hs' & Hl' & _ & _ & _ & _ & _ & _ & Ht')%Hsave;
    by rewrite Hs', Hl', Ht'.
Qed.

(** X16: no run of [fit], whether it returns or raises, assigns the settings,
    the estimator list or the dictionary of trained estimators. *)
Theorem fit_keeps_trained_estimators
  data treatment outcome_ common_causes effect_modifiers self :
  let self' :=
    (fit data treatment outcome_ common_causes effect_modifiers self).2 in
  _settings self' = _settings self
  ∧ estimator_list self' = estimator_list self
  ∧ trained_estimators_dict self' = trained_estimators_dict self.
Proof.
  destruct (fit data treatment outcome_ common_causes effect_modifiers self)
    as [r self'] eqn:Hfit.
  by apply fit_state in Hfit.
Qed.

(** X17: on an object made by the constructor, after any number of runs of
    [fit], whatever their outcome, [best_model_for_estimator] raises
    [KeyError] for every name and the [model] property raises. *)
Theorem model_unavailable_after_fit settings self0
  (runs : list (DataFrame * string * string * list string * list string)) :
  __init__ None settings = Ok self0 →
  let self' :=
    foldl (λ self '(data, treatment, outcome_, common_causes, effect_modifiers),
             (fit data treatment outcome_ common_causes effect_modifiers
                self).2)
      self0 runs in
  (∀ name, best_model_for_estimator self' name = Raised (KeyError name))
  ∧ ∃ e, model self' = Raised e.
Proof.
  intros Hinit self'.
  assert (Hempty : trained_estimators_dict self' = ∅).
  { subst self'.
    assert (Hstart : trained_estimators_dict self0 = ∅).
    { revert Hinit. unfold __init__.
      destruct (_create_estimator_list _ _) as [[warnings resolved]|];
        [|done].
      by intros [= <-]. }
    clear Hinit. revert self0 Hstart.
    induction runs as [|[[[[data treatment] outcome_] common] modifiers] runs IH];
      intros self0 Hstart; [done|].
    cbn [foldl]. apply IH.
    destruct (fit data treatment outcome_ common modifiers self0)
      as [r self1] eqn:Hfit.
    apply fit_state in Hfit as (_ & _ & Ht). simpl. by rewrite Ht. }
  assert (Hraise : ∀ name,
    best_model_for_estimator self' name = Raised (KeyError name)).
  { intros name. unfold best_model_for_estimator.
    by rewrite Hempty, lookup_empty. }
  split; [done|]. unfold model.
  destruct (best_estimator self') as [best|e]; cbn [mbind outcome_bind];
    [rewrite Hraise|]; eauto.
Qed.

End OrchestratorFit.

(** * Further properties of the result properties and the constructor *)

Section OrchestratorResults.

Context {Interp : Type}.

Implicit Types self : AutoCausality Interp.

Lemma max_scan_elem_of (key : string → item Interp) (rest : list string)
  (best k : string) :
  max_scan key best rest = Ok k → k ∈ best :: rest.
Proof.
  revert best. induction rest as [|x rest IH]; intros best; cbn [max_scan].
  - intros [= <-]. apply list_elem_of_here.
  - destruct (py_gt (key x) (key best)) as [[]|]; cbn [mbind outcome_bind];
      [| |done]; intros Hk%IH; rewrite !elem_of_cons in *; tauto.
Qed.

Lemma max_scan_raises (key : string → item Interp) (rest : list string)
  (best : string) (e : exn) :
  max_scan key best rest = Raised e →
  e = TypeError "'>' not supported between instances".
Proof.
  revert best. induction rest as [|x rest IH]; intros best; cbn [max_scan];
    [done|].
  unfold py_gt. destruct (key x), (key best); cbn [mbind outcome_bind];
    try (by intros [= <-]).
  destruct (float_gt _ _); apply IH.
Qed.

Lemma max_scan_non_float (key : string → item Interp) (rest : list string)
  (best k : string) :
  rest ≠ [] →
  k ∈ best :: rest →
  (∀ x, key k ≠ IFloat x) →
  max_scan key best rest
  = Raised (TypeError "'>' not supported between instances").
Proof.
  revert best. induction rest as [|x rest IH]; intros best Hne Hk Hkey;
    [done|].
  cbn [max_scan]. unfold py_gt.
  destruct (key x) as [| fx | | |] eqn:Hx; try done.
  destruct (key best) as [| fb | | |] eqn:Hb; try done.
  cbn [mbind outcome_bind].
  assert (Hin : k ∈ rest).
  { apply elem_of_cons in Hk as [->|[->|Hk]%elem_of_cons]; [| |done].
    - by destruct (Hkey fb).
    - by destruct (Hkey fx). }
  assert (rest ≠ []) by (intros ->; by apply elem_of_nil in Hin).
  destruct (float_gt fx fb); apply IH; try done;
    by apply list_elem_of_further.
Qed.

(** X18: when every entry of the best-score mapping is a finite float,
    [best_estimator] returns the first key that attains the maximum: the
    keys before it score strictly less, the keys after it at most as much;
    and [best_score] is that maximum. *)
Theorem best_estimator_first_maximum self :
  scores self ≠ [] →
  (∀ k, k ∈ PyDict.keys (scores self) →
        ∃ q, PyDict.get k (scores self) = Some (IFloat (Fin q))) →
  ∃ k pre post,
    best_estimator self = Ok k
    ∧ PyDict.keys (scores self) = pre ++ k :: post
    ∧ (∀ k', k' ∈ pre →
             (score_value (scores self) k' < score_value (scores self) k)%Qc)
    ∧ (∀ k', k' ∈ post →
             (score_value (scores self) k' ≤ score_value (scores self) k)%Qc)
    ∧ best_score self = Ok (IFloat (Fin (score_value (scores self) k))).
Proof.
  intros Hne Hfloat.
  destruct (best_estimator_all_completed self Hne Hfloat)
    as (k & pre & post & Hbest & Hkeys & Hpre & Hpost).
  exists k, pre, post. do 4 (split; [done|]).
  unfold best_score. rewrite Hbest. cbn [mbind outcome_bind].
  destruct (Hfloat k) as [q Hq].
  { rewrite Hkeys, elem_of_app, elem_of_cons. tauto. }
  unfold score_value. by rewrite Hq.
Qed.

(** X19: when the best-score mapping has two keys or more and the entry of
    one of them is not a float (the [None] of an estimator whose search
    failed), [best_estimator] raises [TypeError], and so do [best_score] and
    the lookup of the best configuration. *)
Theorem best_estimator_unscored_raises self (k : string) :
  (2 ≤ length (PyDict.keys (scores self)))%nat →
  k ∈ PyDict.keys (scores self) →
  (∀ x, PyDict.get k (scores self) ≠ Some (IFloat x)) →
  best_estimator self
  = Raised (TypeError "'>' not supported between instances")
  ∧ best_score self
    = Raised (TypeError "'>' not supported between instances")
  ∧ ∃ e, best_config self = Raised e.
Proof.
  intros Hlen Hk Hnone.
  assert (Hbest : best_estimator self
    = Raised (TypeError "'>' not supported between instances")).
  { unfold best_estimator, py_max.
    destruct (PyDict.keys (scores self)) as [|first [|second rest]];
      [simpl in Hlen; lia..|].
    apply (max_scan_non_float _ _ _ k); [done|done|].
    intros x Hx. apply (Hnone x). unfold dict_get in Hx.
    destruct (PyDict.get k (scores self)); [by simplify_eq/=|done]. }
  split; [done|]. unfold best_score, best_config. rewrite Hbest.
  split; [done|].
  destruct (best_config_per_estimator self); cbn [mbind outcome_bind]; eauto.
Qed.

(** X20: the key [best_estimator] returns is a key of the best-score
    mapping, and [best_score] returns the entry of that key. *)
Theorem best_score_of_best_estimator self (k : string) :
  best_estimator self = Ok k →
  k ∈ PyDict.keys (scores self)
  ∧ ∃ v, PyDict.get k (scores self) = Some v ∧ best_score self = Ok v.
Proof.
  intros Hbest. assert (Hk : k ∈ PyDict.keys (scores self)).
  { revert Hbest. unfold best_estimator, py_max.
    destruct (PyDict.keys (scores self)) as [|first rest]; [done|].
    apply max_scan_elem_of. }
  split; [done|]. unfold best_score. rewrite Hbest. cbn [mbind outcome_bind].
  destruct (PyDict.get k (scores self)) as [v|] eqn:Hv; [eauto|].
  by apply PyDictFacts.get_None in Hv.
Qed.

(** X21: [best_estimator] raises [ValueError] exactly when the best-score
    mapping is empty, returns its only key when it has one key, whatever the
    entry, and raises nothing but [ValueError] and [TypeError]. *)
Theorem best_estimator_few_scores self :
  (best_estimator self = Raised (ValueError "max() arg is an empty sequence")
   ↔ scores self = [])
  ∧ (∀ k v, scores self = [(k, v)] → best_estimator self = Ok k)
  ∧ (∀ e, best_estimator self = Raised e →
          e = ValueError "max() arg is an empty sequence"
          ∨ e = TypeError "'>' not supported between instances").
Proof.
  unfold best_estimator, py_max. split; [|split].
  - destruct (scores self) as [|[k v] rest]; [done|].
    cbn [PyDict.keys fmap list_fmap fst]. split; [|done].
    by intros [=]%max_scan_raises.
  - by intros k v ->.
  - intros e. destruct (PyDict.keys (scores self)) as [|first rest].
    + intros [= <-]. by left.
    + intros ->%max_scan_raises. by right.
Qed.

Lemma fold_found_lookup (found : gmap string (option (gmap string pyval)))
  (l : list string) (d : gmap string (option (gmap string pyval)))
  (k : string) :
  fold_left
    (λ d estimator,
       match found !! estimator with
       | Some config => <[estimator := config]> d
       | None => d
       end) l d !! k
  = if decide (k ∈ l) then
      match found !! k with Some config => Some config | None => d !! k end
    else d !! k.
Proof.
  revert d. induction l as [|n l IH]; intros d; [done|].
  cbn [fold_left]. rewrite IH.
  destruct (decide (k = n)) as [->|Hne].
  - rewrite (decide_True (P := n ∈ n :: l)) by apply list_elem_of_here.
    destruct (found !! n) as [config|] eqn:Hn.
    + rewrite lookup_insert_eq. by case_decide.
    + by case_decide.
  - destruct (decide (k ∈ l)) as [Hl|Hl].
    + rewrite decide_True by (by apply list_elem_of_further).
      destruct (found !! k); [done|].
      destruct (found !! n); [by rewrite lookup_insert_ne|done].
    + rewrite decide_False by (rewrite elem_of_cons; tauto).
      destruct (found !! n); [by rewrite lookup_insert_ne|done].
Qed.

(** X22: while [tune_results] is not assigned (before the first search),
    [best_config_per_estimator] raises [AttributeError] if the estimator list
    has an estimator and is the empty dictionary if it has none; afterwards
    it is the recorded tuning results restricted to the names of the
    estimator list. *)
Theorem best_config_per_estimator_lookup self :
  match tune_results self with
  | None =>
      best_config_per_estimator self
      = match estimator_list self with
        | [] => Ok ∅
        | _ :: _ => Raised (AttributeError "tune_results")
        end
  | Some found =>
      ∃ per_estimator,
        best_config_per_estimator self = Ok per_estimator
        ∧ ∀ k, per_estimator !! k
               = if decide (k ∈ estimator_list self) then found !! k
                 else None
  end.
Proof.
  destruct (tune_results self) as [found|] eqn:Hfound.
  - rewrite (best_config_per_estimator_found self found Hfound).
    eexists. split; [done|].
    intros k. rewrite fold_found_lookup, lookup_empty.
    case_decide; [|done]. by destruct (found !! k).
  - by apply best_config_per_estimator_unset.
Qed.

End OrchestratorResults.

Section OrchestratorInit.

Context {Interp Propensity : Type} `{W : Collaborators Interp Propensity}.

(** The constructor gets as far as resolution does. *)
Lemma init_resolution (data_df : option DataFrame) (settings : Settings) :
  match is_auto_or_empty (estimator_list_setting settings) with
  | Raised e => __init__ data_df settings = Raised e
  | Ok _ =>
      ∃ warnings resolved,
        _create_estimator_list cfg_estimators (estimator_list_setting settings)
        = Ok (warnings, resolved)
        ∧ resolved ⊆ available_estimators cfg_estimators
  end.
Proof.
  unfold __init__.
  destruct (create_estimator_list_cases cfg_estimators
              (estimator_list_setting settings))
    as [(e & -> & ->)|[[warning Hlist]|(requested & _ & _ & Hlist)]];
    [done|..];
    (destruct (is_auto_or_empty (estimator_list_setting settings))
       as [auto|e] eqn:Htest;
     [|revert Hlist; unfold _create_estimator_list; by rewrite Htest]);
    rewrite Hlist; eexists _, _; (split; [done|]); [done|].
  intros a. rewrite elem_of_dedup_first, elem_of_matches_in_order. tauto.
Qed.

(** X23: the constructor called with a data frame raises: [ValueError],
    whatever the frame and the other arguments, because the frame is used as
    a truth value; only a requested estimator list whose own truth test
    raises comes first, with its exception. *)
Theorem init_with_data_raises (df : DataFrame) (settings : Settings) :
  __init__ (Some df) settings
  = match is_auto_or_empty (estimator_list_setting settings) with
    | Raised e => Raised e
    | Ok _ => Raised (ValueError "The truth value of a DataFrame is ambiguous")
    end.
Proof.
  pose proof (init_resolution (Some df) settings) as Hinit.
  destruct (is_auto_or_empty (estimator_list_setting settings)); [|done].
  destruct Hinit as (warnings & resolved & Hlist & _).
  unfold __init__. by rewrite Hlist.
Qed.

(** X24: the constructor called without data returns, unless the truth test
    of the requested estimator list raises; on the object it returns the
    estimator list lies within the available estimators, the best-score
    mapping is empty, and [best_estimator] and [best_score] raise
    [ValueError]; the two best-configuration properties raise
    [AttributeError] when the estimator list has an estimator, and when it
    has none [best_config_per_estimator] is the empty dictionary and
    [best_config] raises the [ValueError] of [best_estimator]. *)
Theorem init_fresh_object (settings : Settings) :
  match is_auto_or_empty (estimator_list_setting settings) with
  | Raised e => __init__ None settings = Raised e
  | Ok _ =>
      ∃ self : AutoCausality Interp,
        __init__ None settings = Ok self
        ∧ _settings self = settings
        ∧ estimator_list self ⊆ available_estimators cfg_estimators
        ∧ best_score_per_estimator self = []
        ∧ best_estimator self
          = Raised (ValueError "max() arg is an empty sequence")
        ∧ best_score self
          = Raised (ValueError "max() arg is an empty sequence")
        ∧ best_config_per_estimator self
          = match estimator_list self with
            | [] => Ok ∅
            | _ :: _ => Raised (AttributeError "tune_results")
            end
        ∧ best_config self
          = Raised match estimator_list self with
                   | [] => ValueError "max() arg is an empty sequence"
                   | _ :: _ => AttributeError "tune_results"
                   end
  end.
Proof.
  pose proof (init_resolution None settings) as Hinit.
  destruct (is_auto_or_empty (estimator_list_setting settings)); [|done].
  destruct Hinit as (warnings & resolved & Hlist & Hsub).
  unfold __init__. rewrite Hlist. cbn [mbind outcome_bind].
  eexists. split; [done|]. do 5 (split; [done|]).
  split; [by apply best_config_per_estimator_unset|].
  unfold best_config. rewrite best_config_per_estimator_unset by done.
  cbn [estimator_list]. by destruct resolved.
Qed.

End OrchestratorInit.

(** * The best configurations after [fit] *)

Section OrchestratorConfigs.

Context {Interp Propensity : Type} `{W : Collaborators Interp Propensity}.

Implicit Types self : AutoCausality Interp.

(** A round that returns leaves a tuning result for its estimator and keeps
    those of the others. *)
Lemma fit_estimator_tune_results name self self' found :
  fit_estimator name self = (Ok (), self') →
  tune_results self = Some found →
  ∃ found',
    tune_results self' = Some found'
    ∧ (∀ k, k ≠ name → found' !! k = found !! k)
    ∧ is_Some (found' !! name).
Proof.
  intros Hstep Hfound.
  apply fit_estimator_state in Hstep as (_ & _ & Hstep).
  rewrite Hfound in Hstep.
  destruct (cfg_method_params name) as [cfg|]; [|by destruct Hstep].
  destruct Hstep as (new & found' & _ & Htr & Hother & Hstep).
  exists found'. do 2 (split; [done|]).
  destruct (decide (search_space cfg = ∅)).
  - destruct Hstep as [-> _]. eauto.
  - destruct (tune_run _ _ _ _); [|by destruct Hstep].
    destruct Hstep as [-> _]. eauto.
Qed.

Lemma fit_loop_tune_results (l : list string) self self' found :
  for_M l fit_estimator self = (Ok (), self') →
  tune_results self = Some found →
  ∃ found',
    tune_results self' = Some found'
    ∧ ∀ k, is_Some (found' !! k) ↔ is_Some (found !! k) ∨ k ∈ l.
Proof.
  revert self found. induction l as [|n l IH]; intros self found.
  - intros [= <-] Hfound. exists found. split; [done|].
    intros k. rewrite elem_of_nil. tauto.
  - intros (self1 & Hstep & Hloop)%for_M_Ok_cons Hfound.
    destruct (fit_estimator_tune_results _ _ _ _ Hstep Hfound)
      as (found1 & Hfound1 & Hother & Hname).
    destruct (IH _ _ Hloop Hfound1) as (found' & Hfound' & Hkeys).
    exists found'. split; [done|]. intros k.
    rewrite Hkeys, elem_of_cons.
    destruct (decide (k = n)) as [->|Hne]; [tauto|].
    rewrite (Hother k) by done. tauto.
Qed.

(** X25: when [fit] returns, [best_config_per_estimator] has exactly one
    entry for each name of the estimator list: the tuning results start
    empty at every call, and each round of the loop that returns leaves an
    entry for its estimator. *)
Theorem fit_best_config_keys
  data treatment outcome_ common_causes effect_modifiers self self' :
  fit data treatment outcome_ common_causes effect_modifiers self
  = (Ok (), self') →
  ∃ per_estimator,
    best_config_per_estimator self' = Ok per_estimator
    ∧ ∀ k, is_Some (per_estimator !! k) ↔ k ∈ estimator_list self.
Proof.
  intros Hfit.
  pose proof (fit_state _ _ _ _ _ _ _ _ Hfit) as (_ & Hlist & _).
  apply fit_Ok in Hfit as (self1 & _ & _ & _ & _ & Hempty & Hloop).
  destruct (fit_loop_tune_results _ _ _ _ Hloop Hempty)
    as (found' & Hfound' & Hkeys).
  rewrite (best_config_per_estimator_found self' found' Hfound'), Hlist.
  eexists. split; [done|]. intros k.
  rewrite fold_found_lookup, lookup_empty. case_decide as Hk.
  - assert (is_Some (found' !! k)) as [config ->] by (rewrite Hkeys; tauto).
    split; eauto.
  - split; [by intros [? ?]|done].
Qed.

End OrchestratorConfigs.

(** * The further properties on concrete searches *)

(** The world of the concrete search, with another estimator call. *)
Definition demo_world_with
  (estimate_effect' :
     nat → option nat → string → gmap string pyval → outcome CausalEstimate)
  : Collaborators unit unit := {|
  cfg_estimators := demo_registry;
  cfg_method_params := demo_method_params;
  clean_config := id;
  train_test_split := λ data _, Ok (data, data);
  df_sample := λ df _, Ok df;
  CausalModel := λ _ _ _ _ _, Ok 1;
  identify_effect := λ _, Ok 2;
  estimate_effect := estimate_effect';
  econml_effect := λ _ _, Ok demo_cate;
  wrapper_effect := λ _ _, Ok demo_cate;
  make_r_scorer := λ _ _ _ _ _ _,
    Ok (mkRScoreWrapper (λ _, Ok (Fin 0%Qc)) (λ _, Ok (Fin 0%Qc)));
  interpret := demo_interpret_fails;
  ERUPT_fit := demo_ERUPT_fit;
  predict_proba_1 := demo_predict_proba_1;
  ERUPT_weights := demo_ERUPT_weights;
  ERUPT_score := demo_ERUPT_score;
  qini_score := demo_uplift_score;
  auuc_score := demo_uplift_score;
  np_mean := float64_mean;
  tune_run := demo_tune_run;
  open_snapshot := λ _ _, Ok ()
|}.

(** Every estimator call returns. *)
Definition demo_world_fitting : Collaborators unit unit :=
  demo_world_with (λ _ _ _ _, Ok demo_estimate).

(** Every estimator call raises. *)
Definition demo_world_failing : Collaborators unit unit :=
  demo_world_with (λ _ _ _ _, Raised (ExternalError "singular matrix")).

Lemma fit_round_direct_trial_witness :
  ∃ result self' model_ estimate full x,
    (_estimate_effect (init_params demo_slearner_cfg)
       (at_direct_trial SLearner demo_slearner_cfg ∅ demo_ready)).1
    = Ok result
    ∧ fit_estimator SLearner demo_ready = (Ok (), self')
    ∧ causal_model demo_ready = Some model_
    ∧ estimate_effect model_ (identified_estimand demo_ready) SLearner
        (params_to_tune (init_params demo_slearner_cfg)
           (init_params demo_slearner_cfg)) = Ok estimate
    ∧ result !! "scores" = Some (IScores full)
    ∧ scores_float (train full) (metric (_settings demo_ready)) = Ok x
    ∧ estimates self' = <[SLearner := IEstimate estimate]> (estimates demo_ready)
    ∧ full_scores self'
      = <[SLearner := IScores full]> (full_scores demo_ready)
    ∧ scores self' = PyDict.set SLearner (IFloat x) (scores demo_ready)
    ∧ tune_results self' = Some (<[SLearner := Some ∅]> ∅).
Proof.
  destruct (_estimate_effect (init_params demo_slearner_cfg)
              (at_direct_trial SLearner demo_slearner_cfg ∅ demo_ready)).1
    as [result|e] eqn:Htrial.
  - destruct (fit_round_direct_trial SLearner demo_slearner_cfg demo_ready ∅
                result demo_slearner_params eq_refl eq_refl Htrial)
      as (self' & model_ & estimate & full & x & Hround).
    by exists result, self', model_, estimate, full, x.
  - vm_compute in Htrial. discriminate Htrial.
Defined.

Lemma fit_round_direct_trial_raises_witness :
  ∃ self',
    for_M [SLearner; LinearDML]
      (fit_estimator (W := demo_world_failing)) demo_ready
    = (Raised (ExternalError "singular matrix"), self')
    ∧ scores self' = scores demo_ready
    ∧ estimates self' = estimates demo_ready
    ∧ full_scores self' = full_scores demo_ready
    ∧ tune_results self' = Some (<[SLearner := Some ∅]> ∅).
Proof.
  apply (fit_round_direct_trial_raises (W := demo_world_failing)
           SLearner demo_slearner_cfg demo_ready ∅);
    by vm_compute.
Defined.

Lemma fit_round_best_trial_witness :
  ∃ results last_result self' estimate scores_ score,
    tune_run (Collaborators := demo_world_fitting)
      (_tune_with_config (W := demo_world_fitting)
         (at_round LinearDML demo_linear_cfg demo_ready))
      (search_space demo_linear_cfg) (metric (_settings demo_ready))
      (tuner (_settings demo_ready)) = Ok results
    ∧ results_get_best_trial results = Some last_result
    ∧ fit_estimator (W := demo_world_fitting) LinearDML demo_ready
      = (Ok (), self')
    ∧ last_result !! "estimator" = Some estimate
    ∧ last_result !! "scores" = Some scores_
    ∧ last_result !! metric (_settings demo_ready) = Some score
    ∧ estimates self' = <[LinearDML := estimate]> (estimates demo_ready)
    ∧ full_scores self' = <[LinearDML := scores_]> (full_scores demo_ready)
    ∧ scores self' = PyDict.set LinearDML score (scores demo_ready)
    ∧ tune_results self'
      = Some (<[LinearDML := results_best_config results]> ∅)
    ∧ events self'
      = events demo_ready ++ [TuneRun (search_space demo_linear_cfg)].
Proof.
  destruct (tune_run (Collaborators := demo_world_fitting)
              (_tune_with_config (W := demo_world_fitting)
                 (at_round LinearDML demo_linear_cfg demo_ready))
              (search_space demo_linear_cfg) (metric (_settings demo_ready))
              (tuner (_settings demo_ready))) as [results|e] eqn:Hrun.
  2:{ by vm_compute in Hrun. }
  destruct (results_get_best_trial results) as [last_result|] eqn:Hbest.
  2:{ vm_compute in Hrun. injection Hrun as <-. done. }
  destruct (fit_estimator (W := demo_world_fitting) LinearDML demo_ready)
    as [[[]|e] self'] eqn:Hfit.
  2:{ by vm_compute in Hfit. }
  pose proof (fit_round_best_trial (W := demo_world_fitting) LinearDML
              demo_linear_cfg demo_ready ∅ results last_result self'
              demo_linear_params demo_linear_space eq_refl Hrun Hbest Hfit)
    as (estimate & scores_ & score & Hround).
  exists results, last_result, self', estimate, scores_, score.
  split; [reflexivity|]. split; [exact Hbest|]. split; [reflexivity|].
  exact Hround.
Defined.

Lemma fit_scores_keys_witness :
  SLearner ∈ PyDict.keys (best_score_per_estimator demo_after)
  ↔ SLearner ∈ PyDict.keys (best_score_per_estimator demo_self)
    ∨ SLearner ∈ estimator_list demo_self.
Proof.
  apply (fit_scores_keys demo_df "treatment" "outcome" [] ["x"] demo_self
           demo_after demo_fit_returns SLearner).
Defined.

(** The object of the concrete search, asked to save its models. *)
Definition demo_saving : AutoCausality unit :=
  set_settings
    (mkSettings (mkTunerSettings 60 10 3 false) "erupt"
       ["qini"; "auc"; "ate"; "r_score"]
       (PyList [PyStr ".LinearDML"; PyStr "SLearner"])
       (Q2Qc (4 # 5)) None (Some "models/"))
    demo_self.

Lemma fit_save_path_raises_witness :
  ∃ e, (fit demo_df "treatment" "outcome" [] ["x"] demo_saving).1 = Raised e.
Proof.
  apply (fit_save_path_raises demo_df "treatment" "outcome" [] ["x"]
           demo_saving "models/"); [reflexivity|done].
Defined.

Lemma model_unavailable_after_fit_witness :
  best_model_for_estimator demo_after SLearner = Raised (KeyError SLearner)
  ∧ ∃ e, model demo_after = Raised e.
Proof.
  destruct (model_unavailable_after_fit demo_settings demo_self
              [(demo_df, "treatment", "outcome", [], ["x"])] demo_init)
    as [Hmodel Hbest].
  split; [apply (Hmodel SLearner)|exact Hbest].
Defined.

(** An object on which both estimators completed. *)
Definition demo_completed : AutoCausality unit :=
  set_scores
    [(LinearDML, IFloat (Fin 1%Qc)); (SLearner, IFloat (Fin 2%Qc))]
    demo_self.

Lemma best_estimator_first_maximum_witness :
  ∃ k pre post,
    best_estimator demo_completed = Ok k
    ∧ PyDict.keys (scores demo_completed) = pre ++ k :: post
    ∧ (∀ k', k' ∈ pre →
             (score_value (scores demo_completed) k'
              < score_value (scores demo_completed) k)%Qc)
    ∧ (∀ k', k' ∈ post →
             (score_value (scores demo_completed) k'
              ≤ score_value (scores demo_completed) k)%Qc)
    ∧ best_score demo_completed
      = Ok (IFloat (Fin (score_value (scores demo_completed) k))).
Proof.
  apply (best_estimator_first_maximum demo_completed); [done|].
  intros k Hk. apply list_elem_of_In in Hk. simpl in Hk.
  destruct Hk as [<-|[<-|[]]]; eexists; by vm_compute.
Defined.

Lemma best_estimator_unscored_raises_witness :
  best_estimator demo_after
  = Raised (TypeError "'>' not supported between instances")
  ∧ best_score demo_after
    = Raised (TypeError "'>' not supported between instances")
  ∧ ∃ e, best_config demo_after = Raised e.
Proof.
  apply (best_estimator_unscored_raises demo_after LinearDML).
  - apply (bool_decide_unpack _). by vm_compute.
  - apply (bool_decide_unpack _). by vm_compute.
  - intros x. by vm_compute.
Defined.

Lemma best_score_of_best_estimator_witness :
  SLearner ∈ PyDict.keys (scores demo_completed)
  ∧ ∃ v, PyDict.get SLearner (scores demo_completed) = Some v
         ∧ best_score demo_completed = Ok v.
Proof.
  apply (best_score_of_best_estimator demo_completed SLearner).
  by vm_compute.
Defined.

Lemma fit_best_config_keys_witness :
  ∃ per_estimator,
    best_config_per_estimator demo_after = Ok per_estimator
    ∧ ∀ k, is_Some (per_estimator !! k) ↔ k ∈ estimator_list demo_self.
Proof.
  apply (fit_best_config_keys demo_df "treatment" "outcome" [] ["x"]
           demo_self demo_after demo_fit_returns).
Defined.
